(** * Nextcloud-Monitor: the polling and normalisation core of [ncmonitor_qt.py]

    A shallow embedding of the utility functions ([safe_int],
    [format_timedelta], [format_bytes], [fetch_metrics]), of the payload
    processing of [NextcloudMonitorApp.update_gui_metrics] and of the
    fetch dispatch of [NextcloudMonitorApp], followed by the properties
    established about them. *)

From Stdlib Require Import ZArith List String Ascii Bool Lia.
From Stdlib Require Import Sorting.Sorted Sorting.Permutation.
From Stdlib Require Import Floats.SpecFloat Numbers.DecimalString.
Import ListNotations.

Set Warnings "-register-all".

Local Open Scope string_scope.
Local Open Scope Z_scope.

(** ** Python values and exceptions *)

(** The values [json.loads] can produce.  A [PDict] lists its items in
    order; keys are distinct in a Python dict, and a lookup returns the first
    item with the key.  A float is an IEEE 754 binary64 datum, kept as the
    sign, mantissa and exponent of [spec_float]. *)
Inductive pyval : Type :=
| PNone
| PBool (b : bool)
| PInt (z : Z)
| PFloat (f : spec_float)
| PStr (s : string)
| PList (l : list pyval)
| PDict (d : list (string * pyval)).

(** The exceptions the modelled code can raise. *)
Inductive exn : Type :=
| KeyError (key : string)
| IndexError
| TypeError
| AttributeError
| ValueError
| OverflowError.

Inductive result (A : Type) : Type :=
| Ok (a : A)
| Raise (e : exn).

Arguments Ok {A} a.
Arguments Raise {A} e.

Definition bind {A B : Type} (c : result A) (k : A -> result B) : result B :=
  match c with
  | Ok a => k a
  | Raise e => Raise e
  end.

Declare Scope py_scope.
Delimit Scope py_scope with py.
Notation "x <- c ;; k" := (bind c (fun x => k))
  (at level 61, c at next level, right associativity) : py_scope.
Notation "' p <- c ;; k" := (bind c (fun x => let p := x in k))
  (at level 61, p pattern, c at next level, right associativity) : py_scope.
Local Open Scope py_scope.

Definition exn_eqb (a b : exn) : bool :=
  match a, b with
  | KeyError _, KeyError _ => true
  | IndexError, IndexError => true
  | TypeError, TypeError => true
  | AttributeError, AttributeError => true
  | ValueError, ValueError => true
  | OverflowError, OverflowError => true
  | _, _ => false
  end.

(** [try: c  except (classes): handler]: an exception of one of the listed
    classes is replaced by the handler, any other one propagates. *)
Definition try_except {A : Type} (c : result A) (classes : list exn)
    (handler : result A) : result A :=
  match c with
  | Ok a => Ok a
  | Raise e => if existsb (exn_eqb e) classes then handler else Raise e
  end.

(** ** Builtins on values *)

Fixpoint lookup (k : string) (d : list (string * pyval)) : option pyval :=
  match d with
  | [] => None
  | (k', v) :: d' => if String.eqb k k' then Some v else lookup k d'
  end.

(** [v[k]] with a string key: only a dict can be subscripted that way. *)
Definition py_getitem (v : pyval) (k : string) : result pyval :=
  match v with
  | PDict d => match lookup k d with
               | Some x => Ok x
               | None => Raise (KeyError k)
               end
  | _ => Raise TypeError
  end.

(** [v.get(k, default)]: no other value of a payload has a [get]. *)
Definition py_get (v : pyval) (k : string) (default : pyval) : result pyval :=
  match v with
  | PDict d => match lookup k d with
               | Some x => Ok x
               | None => Ok default
               end
  | _ => Raise AttributeError
  end.

Definition float_is_zero (f : spec_float) : bool :=
  match f with
  | S754_zero _ => true
  | _ => false
  end.

(** Truth value of [if v:]. *)
Definition truthy (v : pyval) : bool :=
  match v with
  | PNone => false
  | PBool b => b
  | PInt z => negb (z =? 0)
  | PFloat f => negb (float_is_zero f)
  | PStr s => negb (String.eqb s "")
  | PList l => match l with [] => false | _ => true end
  | PDict d => match d with [] => false | _ => true end
  end.

Definition is_dict (v : pyval) : bool :=
  match v with PDict _ => true | _ => false end.

Definition is_list (v : pyval) : bool :=
  match v with PList _ => true | _ => false end.

Definition is_str (v : pyval) : bool :=
  match v with PStr _ => true | _ => false end.

(** Decimal text of an integer, as [str] prints it. *)
Definition string_of_Z (z : Z) : string := NilZero.string_of_int (Z.to_int z).

(** ** Conversions between integers and floats *)

(** The integer nearest to [z] among those with at most 53 significant bits,
    ties to the even mantissa: the value of [float(z)]. *)
Definition round_to_double (z : Z) : Z :=
  let a := Z.abs z in
  let sh := Z.log2 a - 52 in
  if sh <=? 0 then z
  else
    let q := Z.shiftr a sh in
    let r := a - Z.shiftl q sh in
    let half := Z.shiftl 1 (sh - 1) in
    let q' := if (half <? r) || ((half =? r) && Z.odd q) then q + 1 else q in
    Z.sgn z * Z.shiftl q' sh.

Definition float_of_Z (z : Z) : spec_float :=
  match z with
  | Z0 => S754_zero false
  | Zpos p => S754_finite false p 0
  | Zneg p => S754_finite true p 0
  end.

(** [float(z)] of an int: [OverflowError] from 2^1024 on. *)
Definition float_of_int (z : Z) : result spec_float :=
  let r := round_to_double z in
  if 2 ^ 1024 <=? Z.abs r then Raise OverflowError else Ok (float_of_Z r).

(** [z] is within the range of the floats: [float(z)] does not raise. *)
Definition float_range (z : Z) : bool := Z.abs (round_to_double z) <? 2 ^ 1024.

(** [int(f)] of a float: truncation towards zero. *)
Definition int_of_float (f : spec_float) : result Z :=
  match f with
  | S754_zero _ => Ok 0
  | S754_infinity _ => Raise OverflowError
  | S754_nan => Raise ValueError
  | S754_finite s m e =>
      let a := if 0 <=? e then Z.shiftl (Zpos m) e else Z.shiftr (Zpos m) (- e) in
      Ok (if s then - a else a)
  end.

Section Platform.

(** [float(s)] of a string, [None] when it raises [ValueError]: the parser
    of the Python runtime, which the program does not define. *)
Variable float_of_str : string -> option spec_float.

(** [float(value)]. *)
Definition py_float (value : pyval) : result spec_float :=
  match value with
  | PBool b => Ok (float_of_Z (if b then 1 else 0))
  | PInt z => float_of_int z
  | PFloat f => Ok f
  | PStr s => match float_of_str s with
              | Some f => Ok f
              | None => Raise ValueError
              end
  | PNone | PList _ | PDict _ => Raise TypeError
  end.

(** [safe_int(value)] *)
Definition safe_int (value : pyval) : result Z :=
  match value with
  | PNone => Ok 0
  | PStr "" => Ok 0
  | _ =>
      try_except
        (f <- py_float value ;; int_of_float f)
        [ValueError; TypeError]
        (Ok 0)
  end.

(** ** [format_timedelta] *)

Definition intervals : list (string * Z) :=
  [("years", 31536000); ("days", 86400); ("hours", 3600); ("minutes", 60)].

(** [s.rstrip(c)] for a single character [c]. *)
Fixpoint rstrip (c : ascii) (s : string) : string :=
  match s with
  | EmptyString => EmptyString
  | String a r =>
      let r' := rstrip c r in
      if String.eqb r' "" && Ascii.eqb a c then "" else String a r'
  end.

(** [f"{value} {name}" if value > 1 else f"{value} {name.rstrip('s')}"] *)
Definition component (value : Z) (name : string) : string :=
  if 1 <? value then string_of_Z value ++ " " ++ name
  else string_of_Z value ++ " " ++ rstrip "s" name.

(** One turn of the loop over [intervals], on the pair of the remaining
    seconds and the components collected so far. *)
Definition timedelta_step (st : Z * list string) (iv : string * Z)
    : Z * list string :=
  let '(seconds, res) := st in
  let '(name, count) := iv in
  let value := seconds / count in
  if value =? 0 then (seconds, res)
  else (seconds - value * count, List.app res [component value name]).

(** [a or b] on strings. *)
Definition str_or (a b : string) : string :=
  if String.eqb a "" then b else a.

Definition is_nil {A : Type} (l : list A) : bool :=
  match l with [] => true | _ => false end.

(** The body of [format_timedelta] after the coercion of its argument. *)
Definition format_timedelta_int (seconds : Z) : string :=
  if seconds <=? 0 then "N/A or Fresh Start"
  else
    let '(seconds', res) := fold_left timedelta_step intervals (seconds, []) in
    if is_nil res && (0 <? seconds') then string_of_Z seconds' ++ " seconds"
    else str_or (String.concat ", " (firstn 3 res)) "Just started".

Definition format_timedelta (seconds : pyval) : result string :=
  seconds <- safe_int seconds ;;
  Ok (format_timedelta_int seconds).

(** ** Text of numbers *)

(** The quotient [num / den] rounded to the nearest integer, ties to even. *)
Definition div_half_even (num den : Z) : Z :=
  let q := num / den in
  let r := num mod den in
  if (den <? 2 * r) || ((den =? 2 * r) && Z.odd q) then q + 1 else q.

Definition two_digits (d : Z) : string :=
  if d <? 10 then "0" ++ string_of_Z d else string_of_Z d.

(** ['%.2f'] of the number [(-1)^neg * m * 2^e], [0 <= m]: the decimal with
    two places nearest to it, ties to even, with the sign of the number. *)
Definition fixed2 (neg : bool) (m e : Z) : string :=
  let c := if 0 <=? e then 100 * m * 2 ^ e
           else div_half_even (100 * m) (2 ^ (- e)) in
  (if neg then "-" else "") ++ string_of_Z (c / 100) ++ "." ++ two_digits (c mod 100).

Definition fixed2_float (f : spec_float) : string :=
  match f with
  | S754_zero s => fixed2 s 0 0
  | S754_infinity s => if s then "-inf" else "inf"
  | S754_nan => "nan"
  | S754_finite s m e => fixed2 s (Zpos m) e
  end.

(** [f"{v:.2f}"] *)
Definition format_2f (v : pyval) : result string :=
  match v with
  | PBool b => Ok (fixed2 false (if b then 1 else 0) 0)
  | PInt z => f <- float_of_int z ;; Ok (fixed2_float f)
  | PFloat f => Ok (fixed2_float f)
  | PStr _ => Raise ValueError
  | PNone | PList _ | PDict _ => Raise TypeError
  end.

(** The digits of a natural number in groups of three, separated by commas. *)
Fixpoint group_thousands (fuel : nat) (n : Z) : string :=
  match fuel with
  | O => string_of_Z n
  | S fuel' =>
      if n <? 1000 then string_of_Z n
      else
        let r := n mod 1000 in
        group_thousands fuel' (n / 1000) ++ ","
          ++ (if r <? 100 then "0" else "") ++ two_digits r
  end.

Definition comma_int (z : Z) : string :=
  (if z <? 0 then "-" else "")
    ++ group_thousands (S (Z.to_nat (Z.log2 (Z.abs z)))) (Z.abs z).

(** [format(f, ',')] of a float: its shortest text that reads back as [f],
    with grouped integer digits; left to the Python runtime. *)
Variable float_comma : spec_float -> string.

(** [f"{v:,}"] *)
Definition format_comma (v : pyval) : result string :=
  match v with
  | PBool b => Ok (if b then "1" else "0")
  | PInt z => Ok (comma_int z)
  | PFloat f => Ok (float_comma f)
  | PStr _ => Raise ValueError
  | PNone | PList _ | PDict _ => Raise TypeError
  end.

(** [repr] of a float, a list or a dict; left to the Python runtime. *)
Variable py_repr : pyval -> string.

(** [str(v)], which is also [f"{v}"]. *)
Definition py_str (v : pyval) : string :=
  match v with
  | PNone => "None"
  | PBool b => if b then "True" else "False"
  | PInt z => string_of_Z z
  | PStr s => s
  | PFloat _ | PList _ | PDict _ => py_repr v
  end.

(** ** [format_bytes] *)

Definition KB_TO_BYTES : Z := 1024.

Definition DEFAULT_REFRESH_INTERVAL_MS : Z := 60000.

Definition sizes : list string :=
  ["Bytes"; "KB"; "MB"; "GB"; "TB"; "PB"; "EB"; "ZB"; "YB"].

(** [math.floor(math.log(n, 1024))] for an int [n > 0]: the quotient of two
    double-precision logarithms of the C library, rounded down. *)
Variable floor_log : Z -> nat.

(** The body of [format_bytes] after the coercion, with [decimals = 2].
    [bytes_value] is then an integer that a double holds exactly, so its
    division by the power of two [k ** i] is exact. *)
Definition format_bytes_int (bytes_value : Z) : string :=
  if bytes_value =? 0 then "0 Bytes"
  else
    let i := if 0 <? bytes_value
             then Nat.min (floor_log bytes_value) (List.length sizes - 1)
             else O in
    fixed2 (bytes_value <? 0) (Z.abs bytes_value) (- (10 * Z.of_nat i))
      ++ " " ++ nth i sizes "".

Definition format_bytes (bytes_value : pyval) : result string :=
  bytes_value <- safe_int bytes_value ;;
  Ok (format_bytes_int bytes_value).

(** ** [fetch_metrics] *)

(** What [requests.get], [raise_for_status] and [response.json] come to:
    the exception class that the [except] clauses tell apart, with the text
    of the exception, or the parsed body of a 2xx response. *)
Inductive http_reply : Type :=
| HTTPError (err : string)
| ConnectionError (err : string)
| RequestTimeout
| OtherError (err : string)
| JsonBody (data : pyval).

(** [fetch_metrics] returns the data or raises an [Exception] with a
    message. *)
Inductive fetched : Type :=
| Fetched (data : pyval)
| FetchException (message : string).

Definition type_name (v : pyval) : string :=
  match v with
  | PNone => "NoneType"
  | PBool _ => "bool"
  | PInt _ => "int"
  | PFloat _ => "float"
  | PStr _ => "str"
  | PList _ => "list"
  | PDict _ => "dict"
  end.

(** [v.get(k, default)] with the text of the [AttributeError]. *)
Definition get_or_text (v : pyval) (k : string) (default : pyval)
    : string + pyval :=
  match v with
  | PDict d => match lookup k d with
               | Some x => inr x
               | None => inr default
               end
  | _ => inl ("'" ++ type_name v ++ "' object has no attribute 'get'")
  end.

Definition is_ok (v : pyval) : bool :=
  match v with
  | PStr s => String.eqb s "ok"
  | _ => false
  end.

(** The statements of the [try] block after [response.json()]: the data, or
    the text of the exception raised. *)
Definition check_envelope (data : pyval) : string + pyval :=
  match get_or_text data "ocs" (PDict []) with
  | inl e => inl e
  | inr ocs =>
      match get_or_text ocs "meta" (PDict []) with
      | inl e => inl e
      | inr meta =>
          match get_or_text meta "status" PNone with
          | inl e => inl e
          | inr status =>
              if is_ok status then inr data
              else
                match get_or_text meta "message" (PStr "Unknown error") with
                | inl e => inl e
                | inr message => inl ("API Status Error: " ++ py_str message)
                end
          end
      end
  end.

Definition fetch_metrics (reply : http_reply) : fetched :=
  match reply with
  | HTTPError err => FetchException ("HTTP Error: " ++ err ++ ". Check URL/Token.")
  | ConnectionError err =>
      FetchException ("Connection Error: " ++ err ++ ". Server unreachable.")
  | RequestTimeout => FetchException "Request timed out after 15 seconds."
  | OtherError err => FetchException ("An unexpected error occurred: " ++ err)
  | JsonBody data =>
      match check_envelope data with
      | inr d => Fetched d
      | inl err => FetchException ("An unexpected error occurred: " ++ err)
      end
  end.

(** ** The payload processing of [update_gui_metrics] *)

(** [len(v)]; the length of a string is counted in the characters of the
    model. *)
Definition py_len (v : pyval) : result Z :=
  match v with
  | PStr s => Ok (Z.of_nat (String.length s))
  | PList l => Ok (Z.of_nat (List.length l))
  | PDict d => Ok (Z.of_nat (List.length d))
  | PNone | PBool _ | PInt _ | PFloat _ => Raise TypeError
  end.

(** [v[i]] with an int index: an item of a list, a character of a string;
    a dict of a payload has string keys only. *)
Definition py_item (v : pyval) (i : nat) : result pyval :=
  match v with
  | PList l => match nth_error l i with
               | Some x => Ok x
               | None => Raise IndexError
               end
  | PStr s => match String.get i s with
              | Some c => Ok (PStr (String c ""))
              | None => Raise IndexError
              end
  | PDict _ => Raise (KeyError (string_of_Z (Z.of_nat i)))
  | PNone | PBool _ | PInt _ | PFloat _ => Raise TypeError
  end.

Definition empty_dict : pyval := PDict [].

(** The groups read under "Extract Data". *)
Record groups : Type := {
  nc_data : pyval;
  server_data : pyval;
  active_users : pyval;
  system_info : pyval;
  db_info : pyval;
  php_info : pyval;
  storage_data : pyval;
  shares : pyval;
  opcache_stats : pyval;
  opcache_memory : pyval
}.

Definition extract_data (data : pyval) : result groups :=
  ocs <- py_getitem data "ocs" ;;
  ocs_data <- py_getitem ocs "data" ;;
  nc_data <- py_getitem ocs_data "nextcloud" ;;
  server_data <- py_getitem ocs_data "server" ;;
  active_users <- py_getitem ocs_data "activeUsers" ;;
  system_info <- py_get nc_data "system" empty_dict ;;
  db_info <- py_get server_data "database" empty_dict ;;
  php_info <- py_get server_data "php" empty_dict ;;
  storage_data <- py_get nc_data "storage" empty_dict ;;
  shares <- py_get nc_data "shares" empty_dict ;;
  opcache <- py_get php_info "opcache" empty_dict ;;
  opcache_stats <- py_get opcache "opcache_statistics" empty_dict ;;
  opcache' <- py_get php_info "opcache" empty_dict ;;
  opcache_memory <- py_get opcache' "memory_usage" empty_dict ;;
  Ok {| nc_data := nc_data; server_data := server_data;
        active_users := active_users; system_info := system_info;
        db_info := db_info; php_info := php_info;
        storage_data := storage_data; shares := shares;
        opcache_stats := opcache_stats; opcache_memory := opcache_memory |}.

(** The values computed under "System Health Metrics". *)
Record health : Type := {
  ram_total : Z;
  ram_used : Z;
  swap_total : Z;
  swap_used : Z;
  cpu_load : list pyval;
  opcache_hit_rate : pyval;
  opcache_used_memory : pyval;
  wasted_memory : pyval
}.

(** [cpuload_data[i] if len(cpuload_data) > i else 0] *)
Definition cpu_entry (cpuload_data : pyval) (i : nat) : result pyval :=
  n <- py_len cpuload_data ;;
  if Z.of_nat i <? n then py_item cpuload_data i else Ok (PInt 0).

Definition system_health (g : groups) : result health :=
  mem_total <- py_get (system_info g) "mem_total" (PInt 0) ;;
  ram_total_kb <- safe_int mem_total ;;
  mem_free <- py_get (system_info g) "mem_free" (PInt 0) ;;
  ram_free_kb <- safe_int mem_free ;;
  let ram_total := ram_total_kb * KB_TO_BYTES in
  let ram_used := (ram_total_kb - ram_free_kb) * KB_TO_BYTES in
  sw_total <- py_get (system_info g) "swap_total" (PInt 0) ;;
  swap_total_kb <- safe_int sw_total ;;
  sw_free <- py_get (system_info g) "swap_free" (PInt 0) ;;
  swap_free_kb <- safe_int sw_free ;;
  let swap_total := swap_total_kb * KB_TO_BYTES in
  let swap_used := (swap_total_kb - swap_free_kb) * KB_TO_BYTES in
  cpuload_data <- py_get (system_info g) "cpuload" (PList [PInt 0; PInt 0; PInt 0]) ;;
  c0 <- cpu_entry cpuload_data 0 ;;
  c1 <- cpu_entry cpuload_data 1 ;;
  c2 <- cpu_entry cpuload_data 2 ;;
  hit_rate <- py_get (opcache_stats g) "opcache_hit_rate" (PFloat (S754_zero false)) ;;
  used_memory <- py_get (opcache_memory g) "used_memory" (PInt 0) ;;
  wasted <- py_get (opcache_memory g) "wasted_memory" (PInt 0) ;;
  Ok {| ram_total := ram_total; ram_used := ram_used;
        swap_total := swap_total; swap_used := swap_used;
        cpu_load := [c0; c1; c2];
        opcache_hit_rate := hit_rate;
        opcache_used_memory := used_memory;
        wasted_memory := wasted |}.

(** "PHP Uptime calculation"; [current_time_ts] is [int(time.time())]. *)
Definition uptime_seconds (current_time_ts start_time_ts : Z) : Z :=
  if (0 <? start_time_ts) && (start_time_ts <? current_time_ts)
  then current_time_ts - start_time_ts
  else 0.

Definition php_uptime (current_time_ts : Z) (g : groups) : result string :=
  start_time <- py_get (opcache_stats g) "start_time" (PInt 0) ;;
  start_time_ts <- safe_int start_time ;;
  format_timedelta (PInt (uptime_seconds current_time_ts start_time_ts)).

(** "Storage Overview": the texts of the used and of the free storage. *)
Definition storage_overview (g : groups) : result (string * string) :=
  free <- py_get (storage_data g) "free" PNone ;;
  storage_free <- safe_int free ;;
  used <- py_get (storage_data g) "used" PNone ;;
  storage_used <- safe_int used ;;
  if (storage_used =? 0) && (storage_free =? 0) then
    freespace <- py_get (system_info g) "freespace" PNone ;;
    storage_free <- safe_int freespace ;;
    free_text <- format_bytes (PInt storage_free) ;;
    Ok ("0 Bytes (Data Missing)", free_text ++ " (System Freespace)")
  else
    used_text <- format_bytes (PInt storage_used) ;;
    free_text <- format_bytes (PInt storage_free) ;;
    Ok (used_text, free_text).

(** The app section: the text of the list of enabled apps and the two
    counts. *)
Record app_section : Type := {
  enabled_app_lines_str : string;
  enabled_app_count : pyval;
  total_app_count : pyval
}.

(** The lines an entry of [enabled_apps] adds to [temp_lines]. *)
Definition app_lines (app : pyval) : result (list string) :=
  if is_dict app then
    app_name <- py_get app "id" (PStr "Unknown App") ;;
    app_version <- py_get app "version" (PStr "N/A") ;;
    Ok [py_str app_name ++ ": v" ++ py_str app_version]
  else if is_str app then Ok [py_str app ++ ": vN/A"]
  else Ok [].

Fixpoint collect_lines (enabled_apps : list pyval) (temp_lines : list string)
    : result (list string) :=
  match enabled_apps with
  | [] => Ok temp_lines
  | app :: rest =>
      ls <- app_lines app ;;
      collect_lines rest (List.app temp_lines ls)
  end.

(** [sorted] on strings: insertion into the ordered list, by the order of
    the characters. *)
Fixpoint insert_sorted (x : string) (l : list string) : list string :=
  match l with
  | [] => [x]
  | y :: l' => if String.leb x y then x :: l else y :: insert_sorted x l'
  end.

Definition sorted (l : list string) : list string :=
  fold_right insert_sorted [] l.

Definition newline : string := String (ascii_of_nat 10) "".

Definition app_missing : app_section :=
  {| enabled_app_lines_str := "APP DATA IS MISSING FROM NEXTCLOUD API RESPONSE.";
     enabled_app_count := PStr "N/A (Data Missing)";
     total_app_count := PStr "N/A (Data Missing)" |}.

Definition app_summary (data : pyval) : result app_section :=
  ocs <- py_getitem data "ocs" ;;
  ocs_data <- py_getitem ocs "data" ;;
  app_data <- py_get ocs_data "app" PNone ;;
  if truthy app_data && is_dict app_data then
    enabled_apps <- py_get app_data "enabled" (PList []) ;;
    installed_apps <- py_get app_data "installed" (PList []) ;;
    match enabled_apps, installed_apps with
    | PList enabled, PList installed =>
        temp_lines <- collect_lines enabled [] ;;
        Ok {| enabled_app_lines_str := String.concat newline (sorted temp_lines);
              enabled_app_count := PInt (Z.of_nat (List.length enabled));
              total_app_count := PInt (Z.of_nat (List.length installed)) |}
    | _, _ => Ok app_missing
    end
  else Ok app_missing.

(** The [updates] dict, its items in the order of the source. *)
Definition build_updates (g : groups) (h : health) (uptime_display : string)
    (storage_used_display storage_free_display : string) (a : app_section)
    : result (list (string * pyval)) :=
  version <- py_get (system_info g) "version" (PStr "N/A") ;;
  num_users <- py_get (storage_data g) "num_users" (PInt 0) ;;
  num_files <- py_get (storage_data g) "num_files" (PInt 0) ;;
  files <- format_comma num_files ;;
  webserver <- py_get (server_data g) "webserver" (PStr "N/A") ;;
  cpunum <- py_get (system_info g) "cpunum" (PStr "N/A") ;;
  last5minutes <- py_get (active_users g) "last5minutes" (PInt 0) ;;
  last1hour <- py_get (active_users g) "last1hour" (PInt 0) ;;
  last24hours <- py_get (active_users g) "last24hours" (PInt 0) ;;
  maintenance <- py_get (system_info g) "maintenance" (PBool false) ;;
  failing_login_attempts <- py_get (system_info g) "failing_login_attempts" (PInt 0) ;;
  num_shares <- py_get (shares g) "num_shares" (PInt 0) ;;
  num_shares_user <- py_get (shares g) "num_shares_user" (PInt 0) ;;
  num_fed_shares_sent <- py_get (shares g) "num_fed_shares_sent" (PInt 0) ;;
  num_shares_link <- py_get (shares g) "num_shares_link" (PInt 0) ;;
  ram_used_text <- format_bytes (PInt (ram_used h)) ;;
  ram_total_text <- format_bytes (PInt (ram_total h)) ;;
  swap_used_text <- format_bytes (PInt (swap_used h)) ;;
  cpu1m <- format_2f (nth 0 (cpu_load h) PNone) ;;
  cpu5m <- format_2f (nth 1 (cpu_load h) PNone) ;;
  cpu15m <- format_2f (nth 2 (cpu_load h) PNone) ;;
  hit_rate <- format_2f (opcache_hit_rate h) ;;
  opcache_used <- format_bytes (opcache_used_memory h) ;;
  opcache_wasted <- format_bytes (wasted_memory h) ;;
  size <- py_get (db_info g) "size" PNone ;;
  db_size <- safe_int size ;;
  db_size_text <- format_bytes (PInt db_size) ;;
  php_version <- py_get (php_info g) "version" (PStr "N/A") ;;
  memory_limit <- py_get (php_info g) "memory_limit" (PInt 0) ;;
  memory_limit_text <- format_bytes memory_limit ;;
  max_execution_time <- py_get (php_info g) "max_execution_time" (PStr "N/A") ;;
  db_type <- py_get (db_info g) "type" (PStr "N/A") ;;
  db_version <- py_get (db_info g) "version" (PStr "N/A") ;;
  db_host <- py_get (db_info g) "host" (PStr "N/A") ;;
  Ok [ ("version_val", version);
       ("php_uptime_val", PStr uptime_display);
       ("users_val", PStr (py_str num_users));
       ("files_val", PStr files);
       ("webserver_val", webserver);
       ("cpunum_val", cpunum);
       ("active5m_val", PStr (py_str last5minutes));
       ("active1h_val", PStr (py_str last1hour));
       ("active24h_val", PStr (py_str last24hours));
       ("maintenance_val", PStr (if truthy maintenance then "Yes" else "No"));
       ("failed_logins_val", PStr (py_str failing_login_attempts));
       ("total_shares_val", PStr (py_str num_shares));
       ("local_shares_val", PStr (py_str num_shares_user));
       ("federated_shares_val", PStr (py_str num_fed_shares_sent));
       ("public_shares_val", PStr (py_str num_shares_link));
       ("ram_used_val", PStr ram_used_text);
       ("ram_total_val", PStr ram_total_text);
       ("swap_used_val", PStr swap_used_text);
       ("cpu1m_val", PStr cpu1m);
       ("cpu5m_val", PStr cpu5m);
       ("cpu15m_val", PStr cpu15m);
       ("opcache_hit_rate_val", PStr (hit_rate ++ "%"));
       ("opcache_used_val", PStr opcache_used);
       ("opcache_wasted_val", PStr opcache_wasted);
       ("storage_used_val", PStr storage_used_display);
       ("storage_free_val", PStr storage_free_display);
       ("db_size_val", PStr db_size_text);
       ("enabled_apps_val", PStr (py_str (enabled_app_count a)));
       ("app_count_val", PStr (py_str (total_app_count a)));
       ("php_val", php_version);
       ("php_memory_limit_val", PStr memory_limit_text);
       ("php_max_exec_val", PStr (py_str max_execution_time ++ "s"));
       ("db_type_val", db_type);
       ("db_version_val", db_version);
       ("db_host_val", db_host) ].

(** What the [try] block computes from the data before it touches a label:
    the [updates] dict and the text of the app list. *)
Record snapshot : Type := {
  updates : list (string * pyval);
  app_list : string
}.

Definition normalize (current_time_ts : Z) (data : pyval) : result snapshot :=
  g <- extract_data data ;;
  h <- system_health g ;;
  uptime_display <- php_uptime current_time_ts g ;;
  '(storage_used_display, storage_free_display) <- storage_overview g ;;
  a <- app_summary data ;;
  u <- build_updates g h uptime_display storage_used_display storage_free_display a ;;
  Ok {| updates := u; app_list := enabled_app_lines_str a |}.

(** ** The application window *)

(** An entry of [server_configs]. *)
Record config : Type := {
  name : string;
  url : string;
  token : string;
  path : string
}.

(** A [NextcloudWorker] handed to the thread pool. *)
Record worker : Type := {
  worker_url : string;
  worker_token : string
}.

(** The status bar: what the message says, without the clock times that
    some messages quote, and its colour. *)
Inductive status : Type :=
| Initializing
| Monitoring (server : string)
| FetchingNewData
| LastUpdated
| FetchError (message : string)
| ErrorProcessingData.

Definition status_color (s : status) : string :=
  match s with
  | Initializing => "black"
  | Monitoring _ | FetchingNewData => "blue"
  | LastUpdated => "green"
  | FetchError _ | ErrorProcessingData => "red"
  end.

(** [json.dumps(data, indent=2)], left to the Python runtime. *)
Variable json_dumps : pyval -> string.

(** The fields of [NextcloudMonitorApp] that the fetch cycle reads or
    writes.  [thread_pool] lists the workers started and not yet finished;
    [timer] is the period of the running refresh timer; [dialogs] collects
    the exceptions reported in a "Data Processing Error" box. *)
Record app : Type := {
  current_config : config;
  nc_url : string;
  nc_token : string;
  window_title : string;
  metric_labels : list (string * string);
  app_list_text : string;
  raw_data_text : string;
  status_bar : status;
  refresh_interval_ms : Z;
  timer : option Z;
  thread_pool : list worker;
  dialogs : list exn
}.

(** The labels that the [create_..._tab] methods register through
    [add_metric_pair], in the order of [create_tabs]. *)
Definition label_names : list string :=
  [ "version_val"; "php_uptime_val"; "users_val"; "files_val";
    "webserver_val"; "cpunum_val";
    "ram_used_val"; "ram_total_val"; "swap_used_val";
    "cpu1m_val"; "cpu5m_val"; "cpu15m_val";
    "opcache_hit_rate_val"; "opcache_used_val"; "opcache_wasted_val";
    "active5m_val"; "active1h_val"; "active24h_val";
    "failed_logins_val"; "maintenance_val";
    "total_shares_val"; "local_shares_val"; "federated_shares_val";
    "public_shares_val";
    "storage_used_val"; "storage_free_val"; "db_size_val";
    "enabled_apps_val"; "app_count_val";
    "php_val"; "php_memory_limit_val"; "php_max_exec_val";
    "db_type_val"; "db_version_val"; "db_host_val" ].

(** [label.setText(text)] for the label registered as [key], if any. *)
Fixpoint set_text (key text : string) (labels : list (string * string))
    : list (string * string) :=
  match labels with
  | [] => []
  | (k, t) :: rest =>
      if String.eqb k key then (k, text) :: rest
      else (k, t) :: set_text key text rest
  end.

(** The loop over [updates.items()]. *)
Definition apply_updates (u : list (string * pyval))
    (labels : list (string * string)) : list (string * string) :=
  fold_left (fun ls kv => set_text (fst kv) (py_str (snd kv)) ls) u labels.

Definition set_status (s : status) (w : app) : app :=
  {| current_config := current_config w; nc_url := nc_url w;
     nc_token := nc_token w; window_title := window_title w;
     metric_labels := metric_labels w; app_list_text := app_list_text w;
     raw_data_text := raw_data_text w; status_bar := s;
     refresh_interval_ms := refresh_interval_ms w; timer := timer w;
     thread_pool := thread_pool w; dialogs := dialogs w |}.

(** [start_fetch]: a new worker with the current URL and token is handed to
    the thread pool. *)
Definition start_fetch (w : app) : app :=
  let w := set_status FetchingNewData w in
  {| current_config := current_config w; nc_url := nc_url w;
     nc_token := nc_token w; window_title := window_title w;
     metric_labels := metric_labels w; app_list_text := app_list_text w;
     raw_data_text := raw_data_text w; status_bar := status_bar w;
     refresh_interval_ms := refresh_interval_ms w; timer := timer w;
     thread_pool :=
       List.app (thread_pool w)
         [{| worker_url := nc_url w; worker_token := nc_token w |}];
     dialogs := dialogs w |}.

(** [apply_new_config] *)
Definition apply_new_config (config_object : config) (w : app) : app :=
  start_fetch
    {| current_config := config_object;
       nc_url := url config_object;
       nc_token := token config_object;
       window_title := "Gobytego Nextcloud Monitor: " ++ url config_object;
       metric_labels := map (fun kt => (fst kt, "N/A")) (metric_labels w);
       app_list_text := "Apps list loading...";
       raw_data_text := "Fetching raw data...";
       status_bar := Monitoring (url config_object);
       refresh_interval_ms := refresh_interval_ms w;
       timer := Some (refresh_interval_ms w);
       thread_pool := thread_pool w;
       dialogs := dialogs w |}.

(** [handle_fetch_error] *)
Definition handle_fetch_error (error_message : string) (w : app) : app :=
  {| current_config := current_config w; nc_url := nc_url w;
     nc_token := nc_token w; window_title := window_title w;
     metric_labels := metric_labels w; app_list_text := app_list_text w;
     raw_data_text :=
       "ERROR: Could not fetch data. Check your URL/Token." ++ newline
         ++ newline ++ error_message;
     status_bar := FetchError error_message;
     refresh_interval_ms := refresh_interval_ms w; timer := timer w;
     thread_pool := thread_pool w; dialogs := dialogs w |}.

(** [update_gui_metrics]: the raw data is shown first; the labels and the
    app list change only when the whole of [updates] was built, else the
    exception is reported in a dialog. *)
Definition update_gui_metrics (current_time_ts : Z) (data : pyval) (w : app)
    : app :=
  match normalize current_time_ts data with
  | Ok snap =>
      {| current_config := current_config w; nc_url := nc_url w;
         nc_token := nc_token w; window_title := window_title w;
         metric_labels := apply_updates (updates snap) (metric_labels w);
         app_list_text := app_list snap;
         raw_data_text := json_dumps data;
         status_bar := LastUpdated;
         refresh_interval_ms := refresh_interval_ms w; timer := timer w;
         thread_pool := thread_pool w; dialogs := dialogs w |}
  | Raise e =>
      {| current_config := current_config w; nc_url := nc_url w;
         nc_token := nc_token w; window_title := window_title w;
         metric_labels := metric_labels w;
         app_list_text := app_list_text w;
         raw_data_text := json_dumps data;
         status_bar := ErrorProcessingData;
         refresh_interval_ms := refresh_interval_ms w; timer := timer w;
         thread_pool := thread_pool w;
         dialogs := List.app (dialogs w) [e] |}
  end.

(** The list without its item at index [i]. *)
Fixpoint remove_nth {A : Type} (i : nat) (l : list A) : list A :=
  match l, i with
  | [], _ => []
  | _ :: rest, O => rest
  | x :: rest, S i' => x :: remove_nth i' rest
  end.

(** The worker at index [i] of the pool finishes: [NextcloudWorker.run] got
    [reply] for its request, and the signal it emits runs the connected slot
    in the window.  Nothing happens when the pool has no such worker. *)
Definition worker_finished (current_time_ts : Z) (i : nat) (reply : http_reply)
    (w : app) : app :=
  match nth_error (thread_pool w) i with
  | None => w
  | Some _ =>
      let w' :=
        {| current_config := current_config w; nc_url := nc_url w;
           nc_token := nc_token w; window_title := window_title w;
           metric_labels := metric_labels w;
           app_list_text := app_list_text w;
           raw_data_text := raw_data_text w; status_bar := status_bar w;
           refresh_interval_ms := refresh_interval_ms w; timer := timer w;
           thread_pool := remove_nth i (thread_pool w);
           dialogs := dialogs w |} in
      match fetch_metrics reply with
      | Fetched data => update_gui_metrics current_time_ts data w'
      | FetchException message => handle_fetch_error message w'
      end
  end.

(** The window as [__init__] leaves it before it applies the initial
    configuration, which sets [nc_url] and [nc_token]. *)
Definition init_ui (initial_config : config) : app :=
  {| current_config := initial_config;
     nc_url := "";
     nc_token := "";
     window_title := "Gobytego Nextcloud Monitor: " ++ url initial_config;
     metric_labels := map (fun k => (k, "N/A")) label_names;
     app_list_text := "Apps list loading...";
     raw_data_text := "Fetching raw data...";
     status_bar := Initializing;
     refresh_interval_ms := DEFAULT_REFRESH_INTERVAL_MS;
     timer := None;
     thread_pool := [];
     dialogs := [] |}.

(** [NextcloudMonitorApp(initial_config, all_configs)] *)
Definition new_app (initial_config : config) : app :=
  apply_new_config initial_config (init_ui initial_config).

(** ** The reading of the uptime rule *)

(** The duration in years of 365 days, days, hours and minutes. *)
Definition uptime_units (u : Z) : list (Z * string) :=
  [ (u / 31536000, "year"); (u mod 31536000 / 86400, "day");
    (u mod 86400 / 3600, "hour"); (u mod 3600 / 60, "minute") ].

(** A unit with its count, the name in the plural from two on. *)
Definition unit_text (vn : Z * string) : string :=
  string_of_Z (fst vn) ++ " "
    ++ (if 1 <? fst vn then snd vn ++ "s" else snd vn).

(** The units that are not zero, largest first. *)
Definition uptime_components (u : Z) : list string :=
  map unit_text (filter (fun vn => negb (fst vn =? 0)) (uptime_units u)).

(** A component names a unit with a positive count. *)
Definition unit_component (c : string) : Prop :=
  exists (n : Z) (unit : string),
    0 < n /\ In unit ["year"; "day"; "hour"; "minute"] /\ c = unit_text (n, unit).

(** The text starts with a character other than [J]. *)
Definition head_not_J (s : string) : Prop :=
  match s with
  | EmptyString => False
  | String c _ => c <> "J"%char
  end.

(** ** The fields of a group *)

(** The field [k] of a group that is a mapping, or its default. *)
Definition field_of (group : pyval) (k : string) (default : pyval) : pyval :=
  match group with
  | PDict d => match lookup k d with
               | Some v => v
               | None => default
               end
  | _ => default
  end.

(** ** The reading of the app summary *)

(** The line of an entry of the enabled apps: a record gives its id and its
    version, a bare name gives no version, anything else gives no line. *)
Definition entry_line (entry : pyval) : list string :=
  match entry with
  | PDict e =>
      [py_str (match lookup "id" e with Some v => v | None => PStr "Unknown App" end)
         ++ ": v"
         ++ py_str (match lookup "version" e with Some v => v | None => PStr "N/A" end)]
  | PStr s => [s ++ ": vN/A"]
  | _ => []
  end.

Definition leb_true (a b : string) : Prop := String.leb a b = true.

(** The app field degrades: it is absent, is no mapping or an empty one, or
    holds an 'enabled' or an 'installed' field that is no list. *)
Definition app_degraded (d : list (string * pyval)) : Prop :=
  lookup "app" d = None
  \/ (exists a, lookup "app" d = Some a /\ (is_dict a = false \/ a = PDict []))
  \/ (exists ad v,
        lookup "app" d = Some (PDict ad)
        /\ (lookup "enabled" ad = Some v \/ lookup "installed" ad = Some v)
        /\ is_list v = false).

(** The app field lists its apps: it is a mapping with items, and each of
    its 'enabled' and 'installed' fields is a list or is absent, an absent
    one counting as the empty list. *)
Definition app_listed (d : list (string * pyval)) (enabled installed : list pyval)
    : Prop :=
  exists ad : list (string * pyval),
    lookup "app" d = Some (PDict ad)
    /\ ad <> []
    /\ field_of (PDict ad) "enabled" (PList []) = PList enabled
    /\ field_of (PDict ad) "installed" (PList []) = PList installed.

(** ** The reading of the API status rule *)

(** The message of the envelope, or 'Unknown error' without one. *)
Definition server_message (meta : list (string * pyval)) : string :=
  match lookup "message" meta with
  | Some v => py_str v
  | None => "Unknown error"
  end.

(** ** The reading of the byte counts *)

(** A field of a group, or its default, coerced by [safe_int]. *)
Definition coerced_field (group : pyval) (k : string) (default : pyval)
    : result Z :=
  v <- py_get group k default ;; safe_int v.

(** ** The reading of a payload that can be processed *)

(** A float other than the two infinities. *)
Definition finite_float (f : spec_float) : bool :=
  match f with
  | S754_infinity _ => false
  | _ => true
  end.

(** A value that [safe_int] coerces: any value but an int beyond the range
    of the floats, an infinite float and a text that reads as one. *)
Definition coerces (v : pyval) : bool :=
  match v with
  | PInt z => float_range z
  | PFloat f => finite_float f
  | PStr s =>
      match s with
      | EmptyString => true
      | String _ _ =>
          match float_of_str s with
          | Some f => finite_float f
          | None => true
          end
      end
  | PNone | PBool _ | PList _ | PDict _ => true
  end.

(** A value that the format [.2f] accepts: a bool, a float, or an int
    within the range of the floats. *)
Definition formats_2f (v : pyval) : bool :=
  match v with
  | PBool _ | PFloat _ => true
  | PInt z => float_range z
  | PNone | PStr _ | PList _ | PDict _ => false
  end.

(** A value that the format [,] accepts: a bool, an int or a float. *)
Definition formats_comma (v : pyval) : bool :=
  match v with
  | PBool _ | PInt _ | PFloat _ => true
  | PNone | PStr _ | PList _ | PDict _ => false
  end.

(** A value of 'cpuload' whose first three items can be read and shown: a
    list that has numbers there (a shorter list is filled up with 0), or an
    empty text or mapping, which has no item to read. *)
Definition load_values (v : pyval) : bool :=
  match v with
  | PList l => forallb formats_2f (firstn 3 l)
  | PStr EmptyString => true
  | PDict [] => true
  | _ => false
  end.

(** The groups that were read from a payload can be processed: the groups
    are mappings, the fields that are coerced are none of the values that
    [safe_int] rejects, the fields that are formatted as numbers are
    numbers, and the counts that are formatted as bytes are within the range
    of the floats.  A field that a group lacks has its default. *)
Record well_formed (g : groups) : Prop := {
  wf_server : is_dict (server_data g) = true;
  wf_active : is_dict (active_users g) = true;
  wf_system : is_dict (system_info g) = true;
  wf_db : is_dict (db_info g) = true;
  wf_php : is_dict (php_info g) = true;
  wf_storage : is_dict (storage_data g) = true;
  wf_shares : is_dict (shares g) = true;
  wf_stats : is_dict (opcache_stats g) = true;
  wf_memory : is_dict (opcache_memory g) = true;
  wf_mem_total : coerces (field_of (system_info g) "mem_total" (PInt 0)) = true;
  wf_mem_free : coerces (field_of (system_info g) "mem_free" (PInt 0)) = true;
  wf_swap_total : coerces (field_of (system_info g) "swap_total" (PInt 0)) = true;
  wf_swap_free : coerces (field_of (system_info g) "swap_free" (PInt 0)) = true;
  wf_ram :
    forall total free : Z,
      safe_int (field_of (system_info g) "mem_total" (PInt 0)) = Ok total ->
      safe_int (field_of (system_info g) "mem_free" (PInt 0)) = Ok free ->
      float_range (total * 1024) = true
      /\ float_range ((total - free) * 1024) = true;
  wf_swap :
    forall total free : Z,
      safe_int (field_of (system_info g) "swap_total" (PInt 0)) = Ok total ->
      safe_int (field_of (system_info g) "swap_free" (PInt 0)) = Ok free ->
      float_range ((total - free) * 1024) = true;
  wf_cpuload :
    load_values (field_of (system_info g) "cpuload" (PList [PInt 0; PInt 0; PInt 0]))
    = true;
  wf_hit_rate :
    formats_2f (field_of (opcache_stats g) "opcache_hit_rate" (PFloat (S754_zero false)))
    = true;
  wf_used_memory : coerces (field_of (opcache_memory g) "used_memory" (PInt 0)) = true;
  wf_wasted_memory :
    coerces (field_of (opcache_memory g) "wasted_memory" (PInt 0)) = true;
  wf_start_time : coerces (field_of (opcache_stats g) "start_time" (PInt 0)) = true;
  wf_free : coerces (field_of (storage_data g) "free" PNone) = true;
  wf_used : coerces (field_of (storage_data g) "used" PNone) = true;
  wf_storage_counts :
    forall free used : Z,
      safe_int (field_of (storage_data g) "free" PNone) = Ok free ->
      safe_int (field_of (storage_data g) "used" PNone) = Ok used ->
      if (used =? 0) && (free =? 0)
      then coerces (field_of (system_info g) "freespace" PNone) = true
           /\ forall freespace : Z,
                safe_int (field_of (system_info g) "freespace" PNone) = Ok freespace ->
                float_range freespace = true
      else float_range used = true /\ float_range free = true;
  wf_num_files : formats_comma (field_of (storage_data g) "num_files" (PInt 0)) = true;
  wf_size : coerces (field_of (db_info g) "size" PNone) = true;
  wf_size_count :
    forall size : Z,
      safe_int (field_of (db_info g) "size" PNone) = Ok size ->
      float_range size = true;
  wf_memory_limit : coerces (field_of (php_info g) "memory_limit" (PInt 0)) = true
}.

(** One of the groups that are read by subscript is missing from the
    payload. *)
Inductive missing_group : pyval -> Prop :=
| missing_ocs (dd : list (string * pyval)) :
    lookup "ocs" dd = None -> missing_group (PDict dd)
| missing_data (dd od : list (string * pyval)) :
    lookup "ocs" dd = Some (PDict od) ->
    lookup "data" od = None ->
    missing_group (PDict dd)
| missing_under_data (dd od d : list (string * pyval)) (k : string) :
    lookup "ocs" dd = Some (PDict od) ->
    lookup "data" od = Some (PDict d) ->
    In k ["nextcloud"; "server"; "activeUsers"] ->
    lookup k d = None ->
    missing_group (PDict dd).

(** The text of the label registered as [key]. *)
Fixpoint label_text (key : string) (labels : list (string * string))
    : option string :=
  match labels with
  | [] => None
  | (k, t) :: rest => if String.eqb k key then Some t else label_text key rest
  end.

(** ** Sample data *)

(** A payload with the given system and storage groups and further items
    of the data group. *)
Definition sample_data (system storage : list (string * pyval))
    (more : list (string * pyval)) : pyval :=
  PDict
    [("ocs",
      PDict
        [("meta", PDict [("status", PStr "ok")]);
         ("data",
          PDict
            (List.app
               [("nextcloud",
                 PDict [("system", PDict system); ("storage", PDict storage)]);
                ("server", PDict []);
                ("activeUsers", PDict [])]
               more))])].

Definition sample_groups (system storage : list (string * pyval)) : groups :=
  {| nc_data := PDict [("system", PDict system); ("storage", PDict storage)];
     server_data := PDict [];
     active_users := PDict [];
     system_info := PDict system;
     db_info := PDict [];
     php_info := PDict [];
     storage_data := PDict storage;
     shares := PDict [];
     opcache_stats := PDict [];
     opcache_memory := PDict [] |}.

Definition server_a : config :=
  {| name := "[ncmonitor] a.example.org"; url := "https://a.example.org";
     token := "token-a"; path := "/opt/monitor/ncmonitor.txt" |}.

Definition server_b : config :=
  {| name := "[ncmonitor_b] b.example.org"; url := "https://b.example.org";
     token := "token-b"; path := "/opt/monitor/ncmonitor_b.txt" |}.

(** Stand-ins for the functions of the Python runtime, for data that holds
    no numeric text, no float and no nested value to print: the exact
    logarithm, and fixed texts elsewhere. *)

(** The whole part of the logarithm of [n] to the base 1024. *)
Definition exact_floor_log (n : Z) : nat := Z.to_nat (Z.log2 n / 10).






Definition no_float_text (s : string) : option spec_float := None.

Definition plain_text {A : Type} (a : A) : string := "...".

(** A payload whose data group lacks 'activeUsers'. *)
Definition data_without_users : pyval :=
  PDict
    [("ocs",
      PDict
        [("meta", PDict [("status", PStr "ok")]);
         ("data", PDict [("nextcloud", PDict []); ("server", PDict [])])])].

(** The body of a reply whose envelope reports a failure. *)
Definition failure_body : pyval :=
  PDict
    [("ocs",
      PDict
        [("meta",
          PDict [("status", PStr "failure"); ("message", PStr "Invalid token")])])].

(** An app group with a bare name and a record, and one whose 'enabled'
    field is a string. *)
Definition apps_listed : list (string * pyval) :=
  [("app",
    PDict
      [("enabled",
        PList [PStr "files";
               PDict [("id", PStr "calendar"); ("version", PStr "4.5.1")]]);
       ("installed", PList [PStr "files"; PStr "calendar"; PStr "mail"])])].

Definition apps_malformed : list (string * pyval) :=
  [("app", PDict [("enabled", PStr "files"); ("installed", PList [])])].

(** An app group that has no 'enabled' field. *)
Definition apps_without_enabled : list (string * pyval) :=
  [("app", PDict [("installed", PList [PStr "files"])])].

(** ** The request of [fetch_metrics] *)

Definition API_SUFFIX : string :=
  "/ocs/v2.php/apps/serverinfo/api/v1/info?format=json".

(** [nc_url.rstrip('/') + API_SUFFIX] *)
Definition api_url (nc_url : string) : string := rstrip "/" nc_url ++ API_SUFFIX.

Definition request_headers (nc_token : string) : list (string * string) :=
  [("NC-Token", nc_token); ("Content-Type", "application/json")].

(** ** The dialogs *)

(** The value a spin box with [setRange(10, 3600)] holds for a number put
    into it. *)
Definition spin_box_value (entered : Z) : Z := Z.max 10 (Z.min 3600 entered).

Definition with_interval (new_interval_ms : Z) (w : app) : app :=
  {| current_config := current_config w; nc_url := nc_url w;
     nc_token := nc_token w; window_title := window_title w;
     metric_labels := metric_labels w; app_list_text := app_list_text w;
     raw_data_text := raw_data_text w; status_bar := status_bar w;
     refresh_interval_ms := new_interval_ms;
     timer := Some new_interval_ms;
     thread_pool := thread_pool w; dialogs := dialogs w |}.

(** [set_refresh_interval_dialog]: the dialog is cancelled ([None]) or
    accepted with a number of seconds in its spin box.  The status message
    about the new rate is replaced at once by the one of [start_fetch]. *)
Definition set_refresh_interval_dialog (outcome : option Z) (w : app) : app :=
  match outcome with
  | None => w
  | Some entered =>
      let new_interval_ms := spin_box_value entered * 1000 in
      if new_interval_ms =? refresh_interval_ms w then w
      else start_fetch (with_interval new_interval_ms w)
  end.

(** The loop of [ServerSelectionDialog.__init__] over the configurations
    from row [idx] on: [initial_selection_index] becomes the row of every
    configuration with the name of the current one in turn. *)
Fixpoint selection_from (configs : list config) (current_config : config)
    (idx initial_selection_index : nat) : nat :=
  match configs with
  | [] => initial_selection_index
  | c :: rest =>
      selection_from rest current_config (S idx)
        (if String.eqb (name c) (name current_config) then idx
         else initial_selection_index)
  end.

(** The current row of the list when [ServerSelectionDialog] opens:
    [setCurrentRow(initial_selection_index)] is called [if self.configs],
    and a list without that call has no current row. *)
Definition initial_row (configs : list config) (current_config : config)
    : option nat :=
  let initial_selection_index := selection_from configs current_config 0 0 in
  if is_nil configs then None else Some initial_selection_index.

(** [select_new_config_dialog]: the dialog is cancelled ([None]) or accepted
    with a row of the list selected. *)
Definition select_new_config_dialog (server_configs : list config)
    (outcome : option nat) (w : app) : app :=
  match outcome with
  | None => w
  | Some selected_row =>
      match nth_error server_configs selected_row with
      | Some new_config => apply_new_config new_config w
      | None => w
      end
  end.

(** ** The events of the window *)

Inductive event : Type :=
| ManualRefresh
| TimerTimeout
| ChangeServerConfig (outcome : option nat)
| SetRefreshRate (outcome : option Z)
| WorkerFinished (current_time_ts : Z) (i : nat) (reply : http_reply).

(** The slot that an event runs; the timer fires only while it is
    started. *)
Definition handle (server_configs : list config) (e : event) (w : app) : app :=
  match e with
  | ManualRefresh => start_fetch w
  | TimerTimeout => match timer w with
                    | Some _ => start_fetch w
                    | None => w
                    end
  | ChangeServerConfig outcome => select_new_config_dialog server_configs outcome w
  | SetRefreshRate outcome => set_refresh_interval_dialog outcome w
  | WorkerFinished current_time_ts i reply =>
      worker_finished current_time_ts i reply w
  end.

Definition run (server_configs : list config) (events : list event) (w : app)
    : app :=
  fold_left (fun w e => handle server_configs e w) events w.

(** ** The configuration files *)

(** [s.strip()], with the white space of the Python runtime. *)
Variable str_strip : string -> string.

(** Whether every character of a text is matched by [[_\w]]: the word
    characters of the regular expressions of the Python runtime. *)
Variable word_text : string -> bool.

(** [os.path.join(a, b)] *)
Variable path_join : string -> string -> string.

(** The lines that [read_config_file] keeps, stripped. *)
Definition usable (line : string) : bool :=
  negb (String.eqb (str_strip line) "") && negb (String.prefix "#" line).

Definition usable_lines (f : list string) : list string :=
  map str_strip (filter usable f).

(** What opening and reading the file comes to. *)
Inductive file_content : Type :=
| FileNotFound
| ReadError (err : string)
| FileLines (f : list string).

(** [read_config_file]: the URL and the token, or the message of the
    exception raised. *)
Definition read_config_file (config_filepath : string) (content : file_content)
    : string + (string * string) :=
  match content with
  | FileNotFound =>
      inl ("Configuration file not found: '" ++ config_filepath ++ "'.")
  | ReadError err => inl ("Failed to parse configuration file: " ++ err)
  | FileLines f =>
      match usable_lines f with
      | nc_url :: nc_token :: _ =>
          if String.prefix "http" nc_url then inr (nc_url, nc_token)
          else
            inl ("Failed to parse configuration file: The URL (first line) in "
                 ++ "the file appears invalid. Must start with http:// or https://")
      | _ =>
          inl ("Failed to parse configuration file: Configuration file requires "
               ++ "at least two lines: URL and Token.")
      end
  end.

Definition ends_with (suffix s : string) : bool :=
  let n := String.length s in
  let m := String.length suffix in
  (m <=? n)%nat && String.eqb (substring (n - m) m s) suffix.

(** [CONFIG_FILE_PATTERN.match(filename)] for the pattern
    [ncmonitor(?:[_\w]+)?\.txt$]: after the prefix come word characters, if
    any, and the extension, which ends the name or stands before a newline
    that ends it. *)
Definition CONFIG_FILE_PATTERN_match (filename : string) : bool :=
  if String.prefix "ncmonitor" filename then
    let rest := substring 9 (String.length filename - 9) filename in
    let body := if ends_with newline rest
                then substring 0 (String.length rest - 1) rest
                else rest in
    if ends_with ".txt" body then
      let word := substring 0 (String.length body - 4) body in
      String.eqb word "" || word_text word
    else false
  else false.

(** [s.split('//')[-1]]: the text after the last of the separators that
    are found from the left; [cur] is the piece read so far. *)
Fixpoint last_piece (s cur : string) : string :=
  match s with
  | EmptyString => cur
  | String c r =>
      match r with
      | String c' r' =>
          if Ascii.eqb c "/" && Ascii.eqb c' "/" then last_piece r' ""
          else last_piece r (cur ++ String c "")
      | EmptyString => cur ++ String c ""
      end
  end.

(** [s.replace('.txt', '')] *)
Fixpoint remove_txt (s : string) : string :=
  match s with
  | EmptyString => EmptyString
  | String c r =>
      match r with
      | String c2 (String c3 (String c4 r4)) =>
          if Ascii.eqb c "." && Ascii.eqb c2 "t" && Ascii.eqb c3 "x"
             && Ascii.eqb c4 "t"
          then remove_txt r4
          else String c (remove_txt r)
      | _ => String c (remove_txt r)
      end
  end.

(** The configurations that one entry of the directory adds. *)
Definition load_config (script_dir : string) (read_file : string -> file_content)
    (filename : string) : list config :=
  if CONFIG_FILE_PATTERN_match filename then
    let full_path := path_join script_dir filename in
    match read_config_file full_path (read_file full_path) with
    | inr (nc_url, nc_token) =>
        [{| name := "[" ++ remove_txt filename ++ "] "
                      ++ rstrip "/" (last_piece nc_url "");
            url := nc_url;
            token := nc_token;
            path := full_path |}]
    | inl _ => []
    end
  else [].

(** [find_and_load_configs], on the entries that [os.listdir] gives and
    the content of the files. *)
Definition find_and_load_configs (script_dir : string)
    (read_file : string -> file_content) (listing : list string) : list config :=
  flat_map (load_config script_dir read_file) listing.

(** The start of the program: no window without a configuration, else the
    window of the first one. *)
Definition main (all_configs : list config) : option app :=
  match all_configs with
  | [] => None
  | INITIAL_CONFIG :: _ => Some (new_app INITIAL_CONFIG)
  end.

(** ** The readings of the further properties *)

(** No two slashes in a row. *)
Fixpoint no_double_slash (s : string) : bool :=
  match s with
  | EmptyString => true
  | String c r =>
      match r with
      | String c' _ => negb (Ascii.eqb c "/" && Ascii.eqb c' "/") && no_double_slash r
      | EmptyString => true
      end
  end.

(** No character [c] in the text. *)
Fixpoint free_of (c : ascii) (s : string) : bool :=
  match s with
  | EmptyString => true
  | String a r => negb (Ascii.eqb a c) && free_of c r
  end.

(** The text of [n] characters [c]. *)
Fixpoint repeat_char (c : ascii) (n : nat) : string :=
  match n with
  | O => EmptyString
  | S n' => String c (repeat_char c n')
  end.

(** What holds of the window after every event. *)
Record window_ok (server_configs : list config) (w : app) : Prop := {
  ok_config : In (current_config w) server_configs;
  ok_url : nc_url w = url (current_config w);
  ok_token : nc_token w = token (current_config w);
  ok_title : window_title w = "Gobytego Nextcloud Monitor: " ++ nc_url w;
  ok_timer : timer w = Some (refresh_interval_ms w);
  ok_interval : 10000 <= refresh_interval_ms w <= 3600000;
  ok_seconds : (1000 | refresh_interval_ms w);
  ok_labels : map fst (metric_labels w) = label_names;
  ok_pool :
    Forall
      (fun wk => exists c, In c server_configs
                           /\ worker_url wk = url c /\ worker_token wk = token c)
      (thread_pool w)
}.

(** The keys of [updates], in the order of the source. *)
Definition update_keys : list string :=
  [ "version_val"; "php_uptime_val"; "users_val"; "files_val";
    "webserver_val"; "cpunum_val"; "active5m_val"; "active1h_val";
    "active24h_val"; "maintenance_val"; "failed_logins_val";
    "total_shares_val"; "local_shares_val"; "federated_shares_val";
    "public_shares_val"; "ram_used_val"; "ram_total_val"; "swap_used_val";
    "cpu1m_val"; "cpu5m_val"; "cpu15m_val"; "opcache_hit_rate_val";
    "opcache_used_val"; "opcache_wasted_val"; "storage_used_val";
    "storage_free_val"; "db_size_val"; "enabled_apps_val"; "app_count_val";
    "php_val"; "php_memory_limit_val"; "php_max_exec_val"; "db_type_val";
    "db_version_val"; "db_host_val" ].

(** Texts that differ pairwise. *)
Fixpoint distinct (l : list string) : bool :=
  match l with
  | [] => true
  | x :: rest => negb (existsb (String.eqb x) rest) && distinct rest
  end.

(** The last character of a text. *)
Fixpoint last_char (s : string) : option ascii :=
  match s with
  | EmptyString => None
  | String a EmptyString => Some a
  | String _ r => last_char r
  end.

(** Whether an entry of the directory gives a configuration. *)
Definition loads (script_dir : string) (read_file : string -> file_content)
    (filename : string) : bool :=
  negb (is_nil (load_config script_dir read_file filename)).

(** ** Further sample data *)

(** Stand-ins for [str.strip], the word characters and [os.path.join], for
    file names and lines in ASCII and a directory without a slash at its
    end. *)
Definition ascii_space (c : ascii) : bool :=
  let n := nat_of_ascii c in
  Nat.eqb n 32 || (Nat.leb 9 n && Nat.leb n 13).

Fixpoint strip_left (s : string) : string :=
  match s with
  | EmptyString => EmptyString
  | String c r => if ascii_space c then strip_left r else s
  end.

Fixpoint strip_right (s : string) : string :=
  match s with
  | EmptyString => EmptyString
  | String c r =>
      let r' := strip_right r in
      if String.eqb r' "" && ascii_space c then "" else String c r'
  end.

Definition ascii_strip (s : string) : string := strip_right (strip_left s).

Definition ascii_word (c : ascii) : bool :=
  let n := nat_of_ascii c in
  (Nat.leb 48 n && Nat.leb n 57) || (Nat.leb 65 n && Nat.leb n 90)
  || (Nat.leb 97 n && Nat.leb n 122) || Nat.eqb n 95.

Fixpoint ascii_word_text (s : string) : bool :=
  match s with
  | EmptyString => true
  | String c r => ascii_word c && ascii_word_text r
  end.

Definition slash_join (a b : string) : string := a ++ "/" ++ b.

Definition sample_listing : list string :=
  ["notes.md"; "ncmonitor.txt"; "ncmonitor_old.txt"; "ncmonitor_b.txt";
   "ncmonitor-c.txt"].

Definition sample_file (file_path : string) : file_content :=
  if String.eqb file_path "/opt/monitor/ncmonitor.txt" then
    FileLines ["# main server" ++ newline; newline;
               "https://a.example.org/" ++ newline; "  " ++ newline;
               "token-a" ++ newline]
  else if String.eqb file_path "/opt/monitor/ncmonitor_b.txt" then
    FileLines ["https://b.example.org/cloud" ++ newline; "token-b" ++ newline;
               "a note" ++ newline]
  else if String.eqb file_path "/opt/monitor/ncmonitor_old.txt" then
    FileLines ["ftp://old.example.org" ++ newline; "token-old" ++ newline]
  else FileNotFound.

Definition loaded_a : config :=
  {| name := "[ncmonitor] a.example.org"; url := "https://a.example.org/";
     token := "token-a"; path := "/opt/monitor/ncmonitor.txt" |}.

Definition loaded_b : config :=
  {| name := "[ncmonitor_b] b.example.org/cloud";
     url := "https://b.example.org/cloud";
     token := "token-b"; path := "/opt/monitor/ncmonitor_b.txt" |}.

Definition sample_events : list event :=
  [ManualRefresh; ChangeServerConfig (Some 1%nat); SetRefreshRate (Some 30);
   WorkerFinished 1700000000 0 RequestTimeout; TimerTimeout;
   SetRefreshRate (Some 5)].

(** * Properties *)

(** ** Coercion *)

Lemma round_to_double_small (z : Z) :
  Z.abs z < 2 ^ 53 -> round_to_double z = z.
Proof.
  intros Hz. unfold round_to_double.
  assert (Hs : Z.log2 (Z.abs z) - 52 <= 0).
  { destruct (Z.eq_dec (Z.abs z) 0) as [E | E].
    - rewrite E. simpl. lia.
    - assert (Z.log2 (Z.abs z) < 53); [| lia].
      apply Z.log2_lt_pow2; lia. }
  apply Z.leb_le in Hs. now rewrite Hs.
Qed.

Lemma int_of_float_of_Z (z : Z) : int_of_float (float_of_Z z) = Ok z.
Proof. destruct z; reflexivity. Qed.

Lemma safe_int_small (z : Z) :
  Z.abs z < 2 ^ 53 -> safe_int (PInt z) = Ok z.
Proof.
  intros Hz. unfold safe_int, py_float, float_of_int.
  rewrite (round_to_double_small z Hz).
  assert (H : (2 ^ 1024 <=? Z.abs z) = false).
  { apply Z.leb_gt. eapply Z.lt_trans; [exact Hz |]. reflexivity. }
  rewrite H. cbn [bind]. rewrite int_of_float_of_Z. reflexivity.
Qed.

Lemma safe_int_float (f : spec_float) :
  safe_int (PFloat f)
  = match f with
    | S754_infinity _ => Raise OverflowError
    | S754_nan => Ok 0
    | _ => int_of_float f
    end.
Proof. destruct f; reflexivity. Qed.

Lemma safe_int_int (z : Z) :
  safe_int (PInt z)
  = if 2 ^ 1024 <=? Z.abs (round_to_double z) then Raise OverflowError
    else Ok (round_to_double z).
Proof.
  unfold safe_int, py_float, float_of_int.
  destruct (2 ^ 1024 <=? Z.abs (round_to_double z)); [reflexivity |].
  cbn [bind]. now rewrite int_of_float_of_Z.
Qed.

(** A value with a mantissa of 53 bits is a float as it is. *)
Lemma round_to_double_fixed (q sh sg : Z) :
  2 ^ 52 <= q <= 2 ^ 53 ->
  0 < sh ->
  sg = 1 \/ sg = -1 ->
  round_to_double (sg * (q * 2 ^ sh)) = sg * (q * 2 ^ sh).
Proof.
  intros Hq Hsh Hsg.
  assert (E52 : 2 ^ 52 = 4503599627370496) by reflexivity.
  assert (E53 : 2 ^ 53 = 9007199254740992) by reflexivity.
  assert (HP : 0 < 2 ^ sh) by (apply Z.pow_pos_nonneg; lia).
  assert (Ha : Z.abs (sg * (q * 2 ^ sh)) = q * 2 ^ sh) by (destruct Hsg; subst; nia).
  assert (Hs : Z.sgn (sg * (q * 2 ^ sh)) = sg).
  { destruct Hsg; subst sg.
    - apply Z.sgn_pos. nia.
    - apply Z.sgn_neg. nia. }
  unfold round_to_double. rewrite Ha, Hs.
  rewrite Z.log2_mul_pow2 by lia.
  assert (Hl : Z.log2 q = 52 \/ (Z.log2 q = 53 /\ q = 2 ^ 53)).
  { destruct (Z.eq_dec q (2 ^ 53)) as [-> | Hne].
    - right. split; [| reflexivity]. apply Z.log2_pow2. lia.
    - left. apply Z.log2_unique; [lia |]. rewrite E52. change (2 ^ (52 + 1)) with (2 ^ 53). lia. }
  destruct Hl as [Hl | (Hl & Hq53)]; rewrite Hl.
  - replace (sh + 52 - 52) with sh by lia.
    replace (sh <=? 0) with false by (symmetry; apply Z.leb_gt; lia).
    rewrite Z.shiftr_div_pow2, Z.div_mul, !Z.shiftl_mul_pow2 by lia.
    rewrite Z.sub_diag.
    assert (0 < 1 * 2 ^ (sh - 1)) by (assert (0 < 2 ^ (sh - 1)) by (apply Z.pow_pos_nonneg; lia); lia).
    replace (1 * 2 ^ (sh - 1) <? 0) with false by (symmetry; apply Z.ltb_ge; lia).
    replace (1 * 2 ^ (sh - 1) =? 0) with false by (symmetry; apply Z.eqb_neq; lia).
    reflexivity.
  - replace (sh + 53 - 52) with (sh + 1) by lia.
    replace (sh + 1 <=? 0) with false by (symmetry; apply Z.leb_gt; lia).
    assert (Hp1 : 2 ^ (sh + 1) = 2 ^ sh * 2) by (rewrite Z.pow_add_r by lia; reflexivity).
    assert (Hdiv : q * 2 ^ sh / 2 ^ (sh + 1) = 2 ^ 52).
    { rewrite Hp1, Hq53, E53, E52.
      replace (9007199254740992 * 2 ^ sh) with (4503599627370496 * (2 ^ sh * 2)) by lia.
      apply Z.div_mul. lia. }
    rewrite Z.shiftr_div_pow2, Hdiv, !Z.shiftl_mul_pow2 by lia.
    replace (sh + 1 - 1) with sh by lia.
    replace (q * 2 ^ sh - 2 ^ 52 * 2 ^ (sh + 1)) with 0
      by (rewrite Hp1, Hq53, E53, E52; lia).
    replace (1 * 2 ^ sh <? 0) with false by (symmetry; apply Z.ltb_ge; lia).
    replace (1 * 2 ^ sh =? 0) with false by (symmetry; apply Z.eqb_neq; lia).
    cbn [orb andb]. f_equal. rewrite Hp1, Hq53, E53, E52. lia.
Qed.

(** Above 2^53 in magnitude the float of an int keeps the sign and a
    mantissa of 53 bits. *)
Lemma round_to_double_form (z : Z) :
  0 < Z.log2 (Z.abs z) - 52 ->
  exists q : Z,
    2 ^ 52 <= q <= 2 ^ 53
    /\ round_to_double z = Z.sgn z * (q * 2 ^ (Z.log2 (Z.abs z) - 52))
    /\ (Z.sgn z = 1 \/ Z.sgn z = -1).
Proof.
  intros E.
  set (sh := Z.log2 (Z.abs z) - 52) in *.
  assert (Hapos : 0 < Z.abs z).
  { destruct (Z.eq_dec (Z.abs z) 0) as [H0 | H0]; [| lia].
    unfold sh in E. rewrite H0 in E. cbn in E. lia. }
  assert (HP : 0 < 2 ^ sh) by (apply Z.pow_pos_nonneg; lia).
  destruct (Z.log2_spec (Z.abs z) Hapos) as (Hlo & Hhi).
  replace (Z.log2 (Z.abs z)) with (sh + 52) in Hlo by (unfold sh; lia).
  replace (Z.succ (Z.log2 (Z.abs z))) with (sh + 53) in Hhi by (unfold sh; lia).
  rewrite Z.pow_add_r in Hlo, Hhi by lia.
  assert (Hq : 2 ^ 52 <= Z.abs z / 2 ^ sh < 2 ^ 53).
  { split.
    - apply Z.div_le_lower_bound; lia.
    - apply Z.div_lt_upper_bound; lia. }
  unfold round_to_double. fold sh.
  replace (sh <=? 0) with false by (symmetry; apply Z.leb_gt; lia).
  rewrite Z.shiftr_div_pow2 by lia.
  set (q := Z.abs z / 2 ^ sh) in *.
  match goal with
  | |- context [if ?c then q + 1 else q] => destruct c
  end.
  - exists (q + 1). rewrite Z.shiftl_mul_pow2 by lia.
    repeat split; try lia.
  - exists q. rewrite Z.shiftl_mul_pow2 by lia.
    repeat split; try lia.
Qed.

Lemma round_to_double_idempotent (z : Z) :
  round_to_double (round_to_double z) = round_to_double z.
Proof.
  destruct (Z.log2 (Z.abs z) - 52 <=? 0) eqn:E.
  - assert (Hz : round_to_double z = z) by (unfold round_to_double; now rewrite E).
    rewrite Hz. exact Hz.
  - apply Z.leb_gt in E.
    set (sh := Z.log2 (Z.abs z) - 52) in *.
    assert (Hapos : 0 < Z.abs z).
    { destruct (Z.eq_dec (Z.abs z) 0) as [H0 | H0]; [| lia].
      unfold sh in E. rewrite H0 in E. cbn in E. lia. }
    assert (HP : 0 < 2 ^ sh) by (apply Z.pow_pos_nonneg; lia).
    destruct (Z.log2_spec (Z.abs z) Hapos) as (Hlo & Hhi).
    replace (Z.log2 (Z.abs z)) with (sh + 52) in Hlo by (unfold sh; lia).
    replace (Z.succ (Z.log2 (Z.abs z))) with (sh + 53) in Hhi by (unfold sh; lia).
    rewrite Z.pow_add_r in Hlo, Hhi by lia.
    assert (Hq : 2 ^ 52 <= Z.abs z / 2 ^ sh < 2 ^ 53).
    { split.
      - apply Z.div_le_lower_bound; lia.
      - apply Z.div_lt_upper_bound; lia. }
    assert (Hform : exists q sg, 2 ^ 52 <= q <= 2 ^ 53 /\ (sg = 1 \/ sg = -1)
                                 /\ round_to_double z = sg * (q * 2 ^ sh)).
    { unfold round_to_double. fold sh.
      replace (sh <=? 0) with false by (symmetry; apply Z.leb_gt; lia).
      rewrite Z.shiftr_div_pow2 by lia.
      set (q := Z.abs z / 2 ^ sh) in *.
      match goal with
      | |- context [if ?c then q + 1 else q] => destruct c
      end.
      - exists (q + 1), (Z.sgn z). rewrite Z.shiftl_mul_pow2 by lia.
        repeat split; try lia.
      - exists q, (Z.sgn z). rewrite Z.shiftl_mul_pow2 by lia.
        repeat split; try lia. }
    destruct Hform as (q & sg & Hq' & Hsg & ->).
    now apply round_to_double_fixed.
Qed.

Lemma round_to_double_sgn (z : Z) : Z.sgn (round_to_double z) = Z.sgn z.
Proof.
  destruct (Z.log2 (Z.abs z) - 52 <=? 0) eqn:E.
  - unfold round_to_double. now rewrite E.
  - apply Z.leb_gt in E.
    destruct (round_to_double_form z E) as (q & Hq & -> & Hs).
    assert (E52 : 2 ^ 52 = 4503599627370496) by reflexivity.
    assert (HP : 0 < 2 ^ (Z.log2 (Z.abs z) - 52)) by (apply Z.pow_pos_nonneg; lia).
    destruct Hs as [Hs | Hs]; rewrite Hs.
    + apply Z.sgn_pos. nia.
    + apply Z.sgn_neg. nia.
Qed.

(** [safe_int] of an int, by the range of the floats. *)
Lemma safe_int_range (z : Z) :
  safe_int (PInt z)
  = if float_range z then Ok (round_to_double z) else Raise OverflowError.
Proof.
  rewrite safe_int_int. unfold float_range.
  destruct (2 ^ 1024 <=? Z.abs (round_to_double z)) eqn:E.
  - apply Z.leb_le in E.
    replace (Z.abs (round_to_double z) <? 2 ^ 1024) with false
      by (symmetry; apply Z.ltb_ge; exact E).
    reflexivity.
  - apply Z.leb_gt in E.
    replace (Z.abs (round_to_double z) <? 2 ^ 1024) with true
      by (symmetry; apply Z.ltb_lt; exact E).
    reflexivity.
Qed.

(** A coerced int is within the range of the floats. *)
Lemma float_range_round (z : Z) :
  float_range (round_to_double z) = float_range z.
Proof. unfold float_range. now rewrite round_to_double_idempotent. Qed.

(** ** The loop of [format_timedelta] *)

Lemma timedelta_step_mod (s : Z) (res : list string) (name : string) (c : Z) :
  0 < c ->
  timedelta_step (s, res) (name, c) =
    (s mod c,
     List.app res (if s / c =? 0 then [] else [component (s / c) name])).
Proof.
  intros Hc. unfold timedelta_step.
  pose proof (Z.div_mod s c ltac:(lia)) as Hd.
  destruct (s / c =? 0) eqn:E.
  - apply Z.eqb_eq in E. rewrite app_nil_r. f_equal. rewrite E in Hd. lia.
  - f_equal. lia.
Qed.

Lemma component_unit_text (v : Z) :
  component v "years" = unit_text (v, "year")
  /\ component v "days" = unit_text (v, "day")
  /\ component v "hours" = unit_text (v, "hour")
  /\ component v "minutes" = unit_text (v, "minute").
Proof.
  unfold component, unit_text; cbn [fst snd]; destruct (1 <? v); repeat split.
Qed.

Lemma timedelta_loop (u : Z) :
  fold_left timedelta_step intervals (u, []) = (u mod 60, uptime_components u).
Proof.
  unfold intervals. cbn [fold_left].
  rewrite !timedelta_step_mod by lia. cbn [List.app].
  rewrite (Z.mod_mod_divide u 31536000 86400) by (exists 365; reflexivity).
  rewrite (Z.mod_mod_divide u 86400 3600) by (exists 24; reflexivity).
  rewrite (Z.mod_mod_divide u 3600 60) by (exists 60; reflexivity).
  f_equal.
  unfold uptime_components, uptime_units. cbn [filter map fst snd].
  destruct (component_unit_text (u / 31536000)) as (-> & _).
  destruct (component_unit_text (u mod 31536000 / 86400)) as (_ & -> & _).
  destruct (component_unit_text (u mod 86400 / 3600)) as (_ & _ & -> & _).
  destruct (component_unit_text (u mod 3600 / 60)) as (_ & _ & _ & ->).
  destruct (u / 31536000 =? 0), (u mod 31536000 / 86400 =? 0),
    (u mod 86400 / 3600 =? 0), (u mod 3600 / 60 =? 0); reflexivity.
Qed.

Lemma uptime_components_nil (u : Z) :
  0 <= u -> (uptime_components u = [] <-> u < 60).
Proof.
  intros Hu. unfold uptime_components, uptime_units. cbn [filter map fst snd].
  split.
  - intros H.
    destruct (u / 31536000 =? 0) eqn:E1; [| discriminate H].
    destruct (u mod 31536000 / 86400 =? 0) eqn:E2; [| discriminate H].
    destruct (u mod 86400 / 3600 =? 0) eqn:E3; [| discriminate H].
    destruct (u mod 3600 / 60 =? 0) eqn:E4; [| discriminate H].
    apply Z.eqb_eq in E1, E2, E3, E4.
    pose proof (Z.div_mod u 31536000 ltac:(lia)).
    pose proof (Z.div_mod (u mod 31536000) 86400 ltac:(lia)).
    pose proof (Z.mod_mod_divide u 31536000 86400 ltac:(exists 365; reflexivity)).
    pose proof (Z.div_mod (u mod 86400) 3600 ltac:(lia)).
    pose proof (Z.mod_mod_divide u 86400 3600 ltac:(exists 24; reflexivity)).
    pose proof (Z.div_mod (u mod 3600) 60 ltac:(lia)).
    pose proof (Z.mod_mod_divide u 3600 60 ltac:(exists 60; reflexivity)).
    pose proof (Z.mod_pos_bound u 60 ltac:(lia)).
    lia.
  - intros H.
    rewrite (Z.div_small u 31536000), (Z.mod_small u 31536000),
      (Z.div_small u 86400), (Z.mod_small u 86400),
      (Z.div_small u 3600), (Z.mod_small u 3600), (Z.div_small u 60) by lia.
    reflexivity.
Qed.

(** ** Texts *)

Lemma string_of_Z_head (z : Z) : head_not_J (string_of_Z z).
Proof.
  unfold string_of_Z, NilZero.string_of_int, NilZero.string_of_uint.
  destruct (Z.to_int z) as [d | d]; destruct d; cbn; discriminate.
Qed.

Lemma head_not_J_append (s t : string) : head_not_J s -> head_not_J (s ++ t).
Proof. destruct s; [intros [] | exact (fun H => H)]. Qed.

Lemma head_not_J_concat (sep x : string) (l : list string) :
  head_not_J x -> head_not_J (String.concat sep (x :: l)).
Proof.
  intros H. destruct l; [exact H |].
  cbn [String.concat]. now apply head_not_J_append.
Qed.

Lemma head_not_J_neq (s : string) : head_not_J s -> s <> "Just started".
Proof. intros H ->. now apply H. Qed.

Lemma head_not_J_nonempty (s : string) : head_not_J s -> String.eqb s "" = false.
Proof. destruct s; [intros [] | reflexivity]. Qed.

Lemma unit_text_head (vn : Z * string) : head_not_J (unit_text vn).
Proof. apply head_not_J_append, string_of_Z_head. Qed.

Lemma uptime_components_head (u : Z) (c : string) :
  In c (uptime_components u) -> head_not_J c.
Proof.
  unfold uptime_components. intros H. apply in_map_iff in H.
  destruct H as (vn & <- & _). apply unit_text_head.
Qed.

(** ** [format_timedelta] on the coerced value *)

Lemma format_timedelta_int_low (z : Z) :
  z <= 0 -> format_timedelta_int z = "N/A or Fresh Start".
Proof.
  intros H. unfold format_timedelta_int.
  apply Z.leb_le in H. now rewrite H.
Qed.

Lemma format_timedelta_int_seconds (z : Z) :
  0 < z < 60 -> format_timedelta_int z = string_of_Z z ++ " seconds".
Proof.
  intros H. unfold format_timedelta_int.
  replace (z <=? 0) with false by (symmetry; apply Z.leb_gt; lia).
  rewrite timedelta_loop.
  replace (uptime_components z) with (@nil string)
    by (symmetry; apply uptime_components_nil; lia).
  rewrite Z.mod_small by lia. cbn [is_nil andb].
  replace (0 <? z) with true by (symmetry; apply Z.ltb_lt; lia).
  reflexivity.
Qed.

Lemma format_timedelta_int_units (z : Z) :
  60 <= z ->
  format_timedelta_int z = String.concat ", " (firstn 3 (uptime_components z)).
Proof.
  intros H. unfold format_timedelta_int.
  replace (z <=? 0) with false by (symmetry; apply Z.leb_gt; lia).
  rewrite timedelta_loop.
  destruct (uptime_components z) as [| c l] eqn:E.
  - apply uptime_components_nil in E; lia.
  - cbn [is_nil andb]. unfold str_or.
    rewrite head_not_J_nonempty; [reflexivity |].
    cbn [firstn]. apply head_not_J_concat.
    apply (uptime_components_head z). rewrite E. now left.
Qed.

Lemma format_timedelta_int_not_just_started (z : Z) :
  format_timedelta_int z <> "Just started".
Proof.
  destruct (Z.le_gt_cases z 0) as [H | H].
  - rewrite format_timedelta_int_low by exact H. discriminate.
  - destruct (Z.lt_ge_cases z 60) as [H' | H'].
    + rewrite format_timedelta_int_seconds by lia.
      apply head_not_J_neq, head_not_J_append, string_of_Z_head.
    + rewrite format_timedelta_int_units by exact H'.
      destruct (uptime_components z) as [| c l] eqn:E.
      * apply uptime_components_nil in E; lia.
      * apply head_not_J_neq. cbn [firstn]. apply head_not_J_concat.
        apply (uptime_components_head z). rewrite E. now left.
Qed.

Lemma uptime_components_units (u : Z) :
  0 <= u -> Forall unit_component (uptime_components u).
Proof.
  intros Hu. unfold uptime_components. apply Forall_forall.
  intros c Hc. apply in_map_iff in Hc. destruct Hc as ((n & unit) & <- & Hin).
  apply filter_In in Hin. destruct Hin as (Hin & Hnz). cbn [fst] in Hnz.
  apply negb_true_iff, Z.eqb_neq in Hnz.
  exists n, unit. split; [| split; [| reflexivity]].
  - assert (0 <= n); [| lia].
    unfold uptime_units in Hin. cbn [In] in Hin.
    destruct Hin as [E | [E | [E | [E | []]]]]; inversion E; subst;
      apply Z.div_pos; try lia; apply Z.mod_pos_bound; lia.
  - unfold uptime_units in Hin. cbn [In] in *.
    destruct Hin as [E | [E | [E | [E | []]]]]; inversion E; auto.
Qed.

Lemma php_uptime_eq (now : Z) (g : groups) (raw : pyval) (start : Z) :
  py_get (opcache_stats g) "start_time" (PInt 0) = Ok raw ->
  safe_int raw = Ok start ->
  php_uptime now g = format_timedelta (PInt (uptime_seconds now start)).
Proof.
  intros H1 H2. unfold php_uptime. rewrite H1. cbn [bind]. now rewrite H2.
Qed.

(** C6.  With the current time a Unix timestamp below 2^53, the uptime is
    [now - start] when [start > 0] and the difference is positive, else 0;
    an uptime of 0 is shown as "N/A or Fresh Start", one below a minute as
    its seconds, and any other one as its first three non-zero units among
    years, days, hours and minutes, in that order, each in the singular or
    the plural, joined by ", ". *)
Theorem uptime_rendering (now start : Z) :
  0 <= now < 2 ^ 53 ->
  let uptime := uptime_seconds now start in
  (0 < start /\ 0 < now - start -> uptime = now - start)
  /\ (~ (0 < start /\ 0 < now - start) -> uptime = 0)
  /\ (uptime = 0 -> format_timedelta (PInt uptime) = Ok "N/A or Fresh Start")
  /\ (0 < uptime < 60 ->
      format_timedelta (PInt uptime) = Ok (string_of_Z uptime ++ " seconds"))
  /\ (60 <= uptime ->
      format_timedelta (PInt uptime)
      = Ok (String.concat ", " (firstn 3 (uptime_components uptime)))).
Proof.
  intros Hnow uptime.
  assert (Hup : 0 <= uptime < 2 ^ 53).
  { unfold uptime, uptime_seconds.
    destruct (0 <? start) eqn:E1; destruct (start <? now) eqn:E2; cbn [andb];
      lia. }
  assert (Hfmt : format_timedelta (PInt uptime) = Ok (format_timedelta_int uptime)).
  { unfold format_timedelta. rewrite safe_int_small by lia. reflexivity. }
  repeat split.
  - intros (H1 & H2). unfold uptime, uptime_seconds.
    replace (0 <? start) with true by (symmetry; apply Z.ltb_lt; lia).
    replace (start <? now) with true by (symmetry; apply Z.ltb_lt; lia).
    reflexivity.
  - intros H. unfold uptime, uptime_seconds.
    destruct (0 <? start) eqn:E1; destruct (start <? now) eqn:E2; cbn [andb];
      try reflexivity.
    apply Z.ltb_lt in E1, E2. exfalso. apply H. lia.
  - intros H. rewrite Hfmt, format_timedelta_int_low by lia. reflexivity.
  - intros H. rewrite Hfmt, format_timedelta_int_seconds by lia. reflexivity.
  - intros H. rewrite Hfmt, format_timedelta_int_units by lia. reflexivity.
Qed.

(** C10.  [format_timedelta] never returns "Just started"; on an input that
    [safe_int] coerces to [z] it returns "N/A or Fresh Start" when
    [z <= 0], the seconds when [0 < z < 60], and else one to three unit
    components joined by ", ". *)
Theorem format_timedelta_shapes (v : pyval) :
  format_timedelta v <> Ok "Just started"
  /\ forall z : Z,
       safe_int v = Ok z ->
       (z <= 0 -> format_timedelta v = Ok "N/A or Fresh Start")
       /\ (0 < z < 60 -> format_timedelta v = Ok (string_of_Z z ++ " seconds"))
       /\ (60 <= z ->
           exists comps : list string,
             format_timedelta v = Ok (String.concat ", " comps)
             /\ (1 <= List.length comps <= 3)%nat
             /\ Forall unit_component comps).
Proof.
  split.
  - unfold format_timedelta. destruct (safe_int v) as [z | e]; cbn [bind].
    + intros H. inversion H as [H']. now apply format_timedelta_int_not_just_started in H'.
    + discriminate.
  - intros z Hz. unfold format_timedelta. rewrite Hz. cbn [bind].
    repeat split.
    + intros H. now rewrite format_timedelta_int_low.
    + intros H. now rewrite format_timedelta_int_seconds.
    + intros H. exists (firstn 3 (uptime_components z)).
      split; [now rewrite format_timedelta_int_units |].
      split.
      * destruct (uptime_components z) as [| c l] eqn:E.
        { apply uptime_components_nil in E; lia. }
        split; [cbn; lia |]. apply firstn_le_length.
      * apply Forall_forall. intros c Hc.
        pose proof (uptime_components_units z ltac:(lia)) as HF.
        rewrite Forall_forall in HF. apply HF.
        revert Hc. generalize (uptime_components z) as l.
        intros l. rewrite <- (firstn_skipn 3 l) at 2. intros Hc.
        apply in_or_app. now left.
Qed.

(** ** [fetch_metrics] *)

(** C9, as amended.  When the body of a 2xx response is a mapping whose
    envelope has no status "ok", [fetch_metrics] raises an exception whose
    message ends with "API Status Error: " followed by the message of the
    server, or by 'Unknown error' when the envelope has none. *)
Theorem api_status_error_message (data ocs : pyval)
    (meta : list (string * pyval)) :
  get_or_text data "ocs" (PDict []) = inr ocs ->
  get_or_text ocs "meta" (PDict []) = inr (PDict meta) ->
  (forall status, lookup "status" meta = Some status -> is_ok status = false) ->
  (exists prefix : string,
     fetch_metrics (JsonBody data)
     = FetchException (prefix ++ "API Status Error: " ++ server_message meta))
  /\ (forall m, lookup "message" meta = Some (PStr m) -> server_message meta = m)
  /\ (lookup "message" meta = None -> server_message meta = "Unknown error").
Proof.
  intros Hocs Hmeta Hstatus. split; [| split].
  - exists "An unexpected error occurred: ".
    unfold fetch_metrics, check_envelope. rewrite Hocs, Hmeta.
    unfold server_message. cbn [get_or_text].
    destruct (lookup "status" meta) as [status |] eqn:E.
    + rewrite (Hstatus status eq_refl).
      destruct (lookup "message" meta); reflexivity.
    + cbn [is_ok]. destruct (lookup "message" meta); reflexivity.
  - intros m H. unfold server_message. now rewrite H.
  - intros H. unfold server_message. now rewrite H.
Qed.

(** ** The storage overview *)

(** C7.  When the used and the free storage both coerce to 0, the used
    storage reads "0 Bytes (Data Missing)" and the free storage reads
    [format_bytes] of the coerced system free space followed by
    " (System Freespace)"; when one of the two is not 0, both read
    [format_bytes] of their own value. *)
Theorem storage_fallback (g : groups) (free used : pyval)
    (storage_free storage_used : Z) :
  py_get (storage_data g) "free" PNone = Ok free ->
  py_get (storage_data g) "used" PNone = Ok used ->
  safe_int free = Ok storage_free ->
  safe_int used = Ok storage_used ->
  (storage_used = 0 /\ storage_free = 0 ->
   forall (freespace : pyval) (system_free : Z),
     py_get (system_info g) "freespace" PNone = Ok freespace ->
     safe_int freespace = Ok system_free ->
     storage_overview g
     = (text <- format_bytes (PInt system_free) ;;
        Ok ("0 Bytes (Data Missing)", text ++ " (System Freespace)")))
  /\ (~ (storage_used = 0 /\ storage_free = 0) ->
      storage_overview g
      = (used_text <- format_bytes (PInt storage_used) ;;
         free_text <- format_bytes (PInt storage_free) ;;
         Ok (used_text, free_text))).
Proof.
  intros Hfree Hused Hf Hu. split.
  - intros (-> & ->) freespace system_free Hfs Hsf.
    unfold storage_overview. rewrite Hfree. cbn [bind]. rewrite Hf. cbn [bind].
    rewrite Hused. cbn [bind]. rewrite Hu. cbn [bind].
    cbn [Z.eqb andb]. rewrite Hfs. cbn [bind]. rewrite Hsf. reflexivity.
  - intros Hnz.
    unfold storage_overview. rewrite Hfree. cbn [bind]. rewrite Hf. cbn [bind].
    rewrite Hused. cbn [bind]. rewrite Hu. cbn [bind].
    destruct ((storage_used =? 0) && (storage_free =? 0)) eqn:E; [| reflexivity].
    apply andb_true_iff in E. destruct E as (E1 & E2).
    apply Z.eqb_eq in E1, E2. exfalso. apply Hnz. now split.
Qed.

(** ** The app summary *)

Lemma py_get_dict (d : list (string * pyval)) (k : string) (default : pyval) :
  py_get (PDict d) k default
  = Ok (match lookup k d with Some x => x | None => default end).
Proof. unfold py_get. destruct (lookup k d); reflexivity. Qed.

Lemma app_lines_entry (entry : pyval) : app_lines entry = Ok (entry_line entry).
Proof.
  destruct entry as [| b | z | f | s | l | e]; try reflexivity.
  unfold app_lines. cbn [is_dict py_get entry_line].
  destruct (lookup "id" e), (lookup "version" e); reflexivity.
Qed.

Lemma collect_lines_entries (enabled : list pyval) (temp_lines : list string) :
  collect_lines enabled temp_lines
  = Ok (List.app temp_lines (flat_map entry_line enabled)).
Proof.
  revert temp_lines. induction enabled as [| entry rest IH]; intros temp_lines.
  - cbn. now rewrite app_nil_r.
  - cbn [collect_lines flat_map]. rewrite app_lines_entry. cbn [bind].
    rewrite IH. now rewrite <- app_assoc.
Qed.

Lemma insert_sorted_HdRel (a x : string) (l : list string) :
  HdRel leb_true a l -> leb_true a x -> HdRel leb_true a (insert_sorted x l).
Proof.
  intros Hl Hx. destruct l as [| y l']; cbn [insert_sorted].
  - now constructor.
  - destruct (String.leb x y); constructor; [exact Hx |].
    now inversion Hl.
Qed.

Lemma insert_sorted_Sorted (x : string) (l : list string) :
  Sorted leb_true l -> Sorted leb_true (insert_sorted x l).
Proof.
  induction l as [| y l' IH]; intros Hs; cbn [insert_sorted].
  - repeat constructor.
  - destruct (String.leb x y) eqn:E.
    + constructor; [exact Hs |]. now constructor.
    + inversion Hs as [| ? ? Hs' Hhd]; subst.
      constructor; [now apply IH |].
      apply insert_sorted_HdRel; [exact Hhd |].
      destruct (String.leb_total x y) as [H | H]; [congruence | exact H].
Qed.

Lemma insert_sorted_perm (x : string) (l : list string) :
  Permutation (x :: l) (insert_sorted x l).
Proof.
  induction l as [| y l' IH]; cbn [insert_sorted]; [reflexivity |].
  destruct (String.leb x y); [reflexivity |].
  rewrite perm_swap. now constructor.
Qed.

Lemma sorted_Sorted (l : list string) : Sorted leb_true (sorted l).
Proof.
  induction l as [| x l IH]; cbn; [constructor | now apply insert_sorted_Sorted].
Qed.

Lemma sorted_perm (l : list string) : Permutation l (sorted l).
Proof.
  induction l as [| x l IH]; cbn; [constructor |].
  rewrite <- insert_sorted_perm. now constructor.
Qed.

Lemma entry_line_one (enabled : list pyval) :
  Forall (fun entry => is_str entry || is_dict entry = true) enabled ->
  List.length (flat_map entry_line enabled) = List.length enabled.
Proof.
  induction 1 as [| entry rest H _ IH]; [reflexivity |].
  cbn [flat_map]. rewrite length_app, IH.
  destruct entry; try discriminate H; reflexivity.
Qed.

(** C8, as amended.  When the app field of the data group is absent, is no
    mapping (or an empty one), or has an 'enabled' or 'installed' field that
    is no list, the app section is the fixed text with both counts
    "N/A (Data Missing)", and nothing is raised.  In every other case the
    app field is a mapping with items whose 'enabled' and 'installed' fields
    are lists, a field it lacks counting as the empty list: every enabled
    entry that is a name or a record gives the line
    "<name>: v<version or N/A>", the text shows the lines in order,
    joined by newlines, and the counts are the lengths of the two lists. *)
Theorem app_summary_spec (data ocs : pyval) (d : list (string * pyval)) :
  py_getitem data "ocs" = Ok ocs ->
  py_getitem ocs "data" = Ok (PDict d) ->
  (app_degraded d -> app_summary data = Ok app_missing)
  /\ (forall enabled installed : list pyval,
        app_listed d enabled installed ->
        exists lines : list string,
          app_summary data
          = Ok {| enabled_app_lines_str := String.concat newline lines;
                  enabled_app_count := PInt (Z.of_nat (List.length enabled));
                  total_app_count := PInt (Z.of_nat (List.length installed)) |}
          /\ Permutation (flat_map entry_line enabled) lines
          /\ Sorted leb_true lines
          /\ (Forall (fun entry => is_str entry || is_dict entry = true) enabled ->
              List.length lines = List.length enabled))
  /\ (app_degraded d
      \/ exists enabled installed : list pyval, app_listed d enabled installed).
Proof.
  intros Hocs Hdata. split; [| split].
  - intros H. unfold app_summary. rewrite Hocs. cbn [bind]. rewrite Hdata.
    cbn [bind py_get].
    destruct H as [H | [(a & H & Ha) | (ad & v & H & Hv & Hl)]]; rewrite H.
    + reflexivity.
    + cbn [bind]. destruct Ha as [Ha | ->].
      * rewrite Ha. now rewrite andb_false_r.
      * reflexivity.
    + cbn [bind]. destruct ad as [| kv ad']; [now destruct Hv |].
      cbn [truthy is_dict andb].
      remember (kv :: ad') as ad eqn:Ead. clear Ead H.
      rewrite !py_get_dict. cbn [bind].
      destruct Hv as [Hv | Hv]; rewrite Hv.
      * destruct v; try discriminate Hl; reflexivity.
      * destruct (match lookup "enabled" ad with
                  | Some x => x
                  | None => PList []
                  end); try reflexivity.
        destruct v; try discriminate Hl; reflexivity.
  - intros enabled installed (ad & Happ & Had & Hen & Hins).
    exists (sorted (flat_map entry_line enabled)).
    split; [| split; [apply sorted_perm | split; [apply sorted_Sorted |]]].
    + unfold app_summary. rewrite Hocs. cbn [bind]. rewrite Hdata.
      cbn [bind py_get]. rewrite Happ. cbn [bind].
      destruct ad as [| kv ad']; [now elim Had |].
      cbn [truthy is_dict andb].
      remember (kv :: ad') as ad eqn:Ead. clear Ead Happ Had.
      rewrite !py_get_dict. cbn [field_of] in Hen, Hins. rewrite Hen, Hins.
      cbn [bind]. rewrite collect_lines_entries. reflexivity.
    + intros HF. rewrite <- (entry_line_one enabled HF).
      symmetry. apply Permutation_length, sorted_perm.
  - unfold app_degraded, app_listed.
    destruct (lookup "app" d) as [a |] eqn:Happ; [| left; now left].
    destruct a as [| b | z | f | t | l | ad];
      try (left; right; left; eexists; split; [reflexivity | now left]).
    destruct ad as [| kv ad'];
      [left; right; left; eexists; split; [reflexivity | now right] |].
    remember (kv :: ad') as ad eqn:Ead.
    assert (Had : ad <> []) by (subst ad; discriminate). clear Ead.
    destruct (lookup "enabled" ad) as [en |] eqn:Een.
    + destruct (is_list en) eqn:Len.
      * destruct en as [| | | | | enabled |]; try discriminate Len.
        destruct (lookup "installed" ad) as [ins |] eqn:Eins.
        -- destruct (is_list ins) eqn:Lins.
           ++ destruct ins as [| | | | | installed |]; try discriminate Lins.
              right. exists enabled, installed, ad. cbn [field_of].
              rewrite Een, Eins. auto.
           ++ left. right. right. exists ad, ins. auto.
        -- right. exists enabled, [], ad. cbn [field_of].
           rewrite Een, Eins. auto.
      * left. right. right. exists ad, en. auto.
    + destruct (lookup "installed" ad) as [ins |] eqn:Eins.
      * destruct (is_list ins) eqn:Lins.
        -- destruct ins as [| | | | | installed |]; try discriminate Lins.
           right. exists [], installed, ad. cbn [field_of].
           rewrite Een, Eins. auto.
        -- left. right. right. exists ad, ins. auto.
      * right. exists [], [], ad. cbn [field_of]. rewrite Een, Eins. auto.
Qed.

(** ** Byte counts *)

Lemma append_assoc (a b c : string) : (a ++ b) ++ c = a ++ b ++ c.
Proof. induction a as [| x a IH]; cbn; [reflexivity | now rewrite IH]. Qed.

Lemma format_bytes_int_negative (n : Z) :
  n < 0 -> format_bytes_int n = "-" ++ string_of_Z (- n) ++ ".00 Bytes".
Proof.
  intros H. unfold format_bytes_int.
  replace (n =? 0) with false by (symmetry; apply Z.eqb_neq; lia).
  replace (0 <? n) with false by (symmetry; apply Z.ltb_ge; lia).
  replace (n <? 0) with true by (symmetry; apply Z.ltb_lt; lia).
  unfold fixed2. cbn [Z.of_nat nth sizes].
  change (0 <=? - (10 * 0)) with true. cbv iota.
  rewrite Z.pow_0_r, Z.mul_1_r, Z.mul_comm, Z.div_mul, Z.mod_mul by lia.
  replace (Z.abs n) with (- n) by lia.
  change (two_digits 0) with "00".
  rewrite !append_assoc. reflexivity.
Qed.

(** A negative count is shown with its sign, in Bytes, unless it is beyond
    the range of the floats. *)
Lemma format_bytes_negative (z : Z) :
  z < 0 ->
  format_bytes (PInt z)
  = if float_range z
    then Ok ("-" ++ string_of_Z (- round_to_double z) ++ ".00 Bytes")
    else Raise OverflowError.
Proof.
  intros Hz. unfold format_bytes. rewrite safe_int_range.
  destruct (float_range z); [| reflexivity]. cbn [bind].
  rewrite format_bytes_int_negative; [reflexivity |].
  apply Z.sgn_neg_iff. rewrite round_to_double_sgn. now apply Z.sgn_neg_iff.
Qed.

(** C4, as amended.  The byte counts are the coerced kilobyte fields times
    1024: the total is [total * 1024] and the used amount is
    [(total - free) * 1024], for the memory and for the swap.  The used
    amount is non-negative exactly when [free <= total].  A negative used
    amount is formatted with its sign, in Bytes, as the float nearest to
    it; only a count beyond the range of the floats makes [format_bytes]
    raise, and then it is an [OverflowError]. *)
Theorem byte_counts (g : groups) (h : health) :
  system_health g = Ok h ->
  (exists mem_total mem_free swap_total_kb swap_free_kb : Z,
     coerced_field (system_info g) "mem_total" (PInt 0) = Ok mem_total
     /\ coerced_field (system_info g) "mem_free" (PInt 0) = Ok mem_free
     /\ coerced_field (system_info g) "swap_total" (PInt 0) = Ok swap_total_kb
     /\ coerced_field (system_info g) "swap_free" (PInt 0) = Ok swap_free_kb
     /\ ram_total h = mem_total * 1024
     /\ ram_used h = (mem_total - mem_free) * 1024
     /\ swap_total h = swap_total_kb * 1024
     /\ swap_used h = (swap_total_kb - swap_free_kb) * 1024
     /\ (0 <= ram_used h <-> mem_free <= mem_total)
     /\ (0 <= swap_used h <-> swap_free_kb <= swap_total_kb))
  /\ (ram_used h < 0 ->
      format_bytes (PInt (ram_used h))
      = if float_range (ram_used h)
        then Ok ("-" ++ string_of_Z (- round_to_double (ram_used h)) ++ ".00 Bytes")
        else Raise OverflowError)
  /\ (swap_used h < 0 ->
      format_bytes (PInt (swap_used h))
      = if float_range (swap_used h)
        then Ok ("-" ++ string_of_Z (- round_to_double (swap_used h)) ++ ".00 Bytes")
        else Raise OverflowError).
Proof.
  intros H.
  split; [| split; intros Hneg; now apply format_bytes_negative].
  unfold system_health in H. unfold coerced_field.
  destruct (py_get (system_info g) "mem_total" (PInt 0)) as [v1 |]; [| discriminate H].
  cbn [bind] in *.
  destruct (safe_int v1) as [mem_total |]; [| discriminate H]. cbn [bind] in *.
  destruct (py_get (system_info g) "mem_free" (PInt 0)) as [v2 |]; [| discriminate H].
  cbn [bind] in *.
  destruct (safe_int v2) as [mem_free |]; [| discriminate H]. cbn [bind] in *.
  destruct (py_get (system_info g) "swap_total" (PInt 0)) as [v3 |]; [| discriminate H].
  cbn [bind] in *.
  destruct (safe_int v3) as [swap_total_kb |]; [| discriminate H]. cbn [bind] in *.
  destruct (py_get (system_info g) "swap_free" (PInt 0)) as [v4 |]; [| discriminate H].
  cbn [bind] in *.
  destruct (safe_int v4) as [swap_free_kb |]; [| discriminate H]. cbn [bind] in *.
  destruct (py_get (system_info g) "cpuload" _) as [cl |]; [| discriminate H].
  cbn [bind] in H.
  destruct (cpu_entry cl 0); [| discriminate H]. cbn [bind] in H.
  destruct (cpu_entry cl 1); [| discriminate H]. cbn [bind] in H.
  destruct (cpu_entry cl 2); [| discriminate H]. cbn [bind] in H.
  destruct (py_get (opcache_stats g) _ _); [| discriminate H]. cbn [bind] in H.
  destruct (py_get (opcache_memory g) "used_memory" _); [| discriminate H].
  cbn [bind] in H.
  destruct (py_get (opcache_memory g) "wasted_memory" _); [| discriminate H].
  cbn [bind] in H.
  injection H as <-. cbn [ram_total ram_used swap_total swap_used].
  exists mem_total, mem_free, swap_total_kb, swap_free_kb.
  unfold KB_TO_BYTES. repeat split; try reflexivity; lia.
Qed.

(** ** The fetch dispatch *)

Lemma worker_finished_data (now : Z) (i : nat) (reply : http_reply) (w : app)
    (wk : worker) (data : pyval) (snap : snapshot) :
  nth_error (thread_pool w) i = Some wk ->
  fetch_metrics reply = Fetched data ->
  normalize now data = Ok snap ->
  metric_labels (worker_finished now i reply w)
  = apply_updates (updates snap) (metric_labels w)
  /\ app_list_text (worker_finished now i reply w) = app_list snap
  /\ raw_data_text (worker_finished now i reply w) = json_dumps data
  /\ current_config (worker_finished now i reply w) = current_config w.
Proof.
  intros Hwk Hfetch Hnorm. unfold worker_finished. rewrite Hwk, Hfetch.
  unfold update_gui_metrics. rewrite Hnorm. repeat split.
Qed.

(** C1, as amended.  A fetch that was outstanding when the configuration
    was switched and that completes with data after the switch is handled
    like any other: the data is normalised and the metric labels, the app
    list and the raw data are overwritten with it, while the new
    configuration stays the current one. *)
Theorem stale_fetch_applied (now : Z) (w : app) (new_config : config)
    (i : nat) (wk : worker) (reply : http_reply) (data : pyval)
    (snap : snapshot) :
  nth_error (thread_pool w) i = Some wk ->
  fetch_metrics reply = Fetched data ->
  normalize now data = Ok snap ->
  let switched := apply_new_config new_config w in
  let completed := worker_finished now i reply switched in
  nth_error (thread_pool switched) i = Some wk
  /\ metric_labels completed = apply_updates (updates snap) (metric_labels switched)
  /\ app_list_text completed = app_list snap
  /\ raw_data_text completed = json_dumps data
  /\ current_config completed = new_config.
Proof.
  intros Hwk Hfetch Hnorm switched completed.
  assert (Hsw : nth_error (thread_pool switched) i = Some wk).
  { unfold switched, apply_new_config, start_fetch. cbn [thread_pool set_status].
    rewrite nth_error_app1; [exact Hwk |].
    apply nth_error_Some. congruence. }
  split; [exact Hsw |].
  destruct (worker_finished_data now i reply switched wk data snap Hsw Hfetch Hnorm)
    as (H1 & H2 & H3 & H4).
  repeat split; assumption.
Qed.

(** C2, as amended.  Every call of [start_fetch] hands one more worker,
    for the current URL and token, to the thread pool, whatever is already
    outstanding; two calls in a row dispatch two fetches. *)
Theorem start_fetch_dispatches (w : app) :
  thread_pool (start_fetch w)
  = List.app (thread_pool w)
      [{| worker_url := nc_url w; worker_token := nc_token w |}]
  /\ List.length (thread_pool (start_fetch w)) = S (List.length (thread_pool w))
  /\ List.length (thread_pool (start_fetch (start_fetch w)))
     = S (S (List.length (thread_pool w))).
Proof.
  unfold start_fetch. cbn [thread_pool set_status nc_url nc_token].
  repeat split; rewrite ?length_app; cbn [List.length]; lia.
Qed.

(** ** The sections of a snapshot *)

Ltac bind_inv H :=
  repeat match type of H with
         | bind ?c _ = Ok _ =>
             let E := fresh "E" in
             destruct c eqn:E; [cbn [bind] in H | discriminate H]
         end.

(** A snapshot is made of the results of the sections, in order. *)
Lemma normalize_sections (now : Z) (data : pyval) (snap : snapshot) :
  normalize now data = Ok snap ->
  exists (g : groups) (h : health) (uptime_display used_display free_display : string)
         (a : app_section),
    extract_data data = Ok g
    /\ system_health g = Ok h
    /\ php_uptime now g = Ok uptime_display
    /\ storage_overview g = Ok (used_display, free_display)
    /\ app_summary data = Ok a
    /\ build_updates g h uptime_display used_display free_display a
       = Ok (updates snap)
    /\ app_list snap = enabled_app_lines_str a.
Proof.
  unfold normalize. intros H.
  destruct (extract_data data) as [g |] eqn:Eg; [cbn [bind] in H | discriminate H].
  destruct (system_health g) as [h |] eqn:Eh; [cbn [bind] in H | discriminate H].
  destruct (php_uptime now g) as [up |] eqn:Eup; [cbn [bind] in H | discriminate H].
  destruct (storage_overview g) as [[su sf] |] eqn:Est;
    [cbn [bind] in H | discriminate H].
  destruct (app_summary data) as [a |] eqn:Ea; [cbn [bind] in H | discriminate H].
  destruct (build_updates g h up su sf a) as [u |] eqn:Eu;
    [cbn [bind] in H | discriminate H].
  injection H as <-. exists g, h, up, su, sf, a. cbn [updates app_list].
  repeat split; assumption.
Qed.

(** The items of [updates] that show the results of the sections. *)
Lemma build_updates_labels (g : groups) (h : health)
    (uptime_display used_display free_display : string) (a : app_section)
    (u : list (string * pyval)) :
  build_updates g h uptime_display used_display free_display a = Ok u ->
  lookup "php_uptime_val" u = Some (PStr uptime_display)
  /\ lookup "storage_used_val" u = Some (PStr used_display)
  /\ lookup "storage_free_val" u = Some (PStr free_display)
  /\ lookup "enabled_apps_val" u = Some (PStr (py_str (enabled_app_count a)))
  /\ lookup "app_count_val" u = Some (PStr (py_str (total_app_count a)))
  /\ (exists t, format_bytes (PInt (ram_used h)) = Ok t
                /\ lookup "ram_used_val" u = Some (PStr t))
  /\ (exists t, format_bytes (PInt (ram_total h)) = Ok t
                /\ lookup "ram_total_val" u = Some (PStr t))
  /\ (exists t, format_bytes (PInt (swap_used h)) = Ok t
                /\ lookup "swap_used_val" u = Some (PStr t)).
Proof.
  unfold build_updates. intros H. bind_inv H. injection H as <-.
  repeat split; try reflexivity; eexists; split; reflexivity.
Qed.

(** ** The outcome of the payload processing *)

Lemma py_get_field (group : pyval) (k : string) (default : pyval) :
  is_dict group = true -> py_get group k default = Ok (field_of group k default).
Proof.
  destruct group; try discriminate. intros _. apply py_get_dict.
Qed.

Lemma py_get_inv (group : pyval) (k : string) (default v : pyval) :
  py_get group k default = Ok v ->
  is_dict group = true /\ v = field_of group k default.
Proof.
  destruct group; try discriminate. rewrite py_get_dict.
  intros H. injection H as <-. split; reflexivity.
Qed.

Lemma format_bytes_small (z : Z) :
  Z.abs z < 2 ^ 53 -> format_bytes (PInt z) = Ok (format_bytes_int z).
Proof. intros H. unfold format_bytes. now rewrite safe_int_small. Qed.

(** The values that the coercion and the formats accept. *)
Ltac accepted :=
  first [ split; [intros _; eexists; reflexivity | reflexivity]
        | split; [discriminate | intros (? & H); discriminate H] ].

Lemma safe_int_coerces (v : pyval) :
  coerces v = true <-> exists z : Z, safe_int v = Ok z.
Proof.
  destruct v as [| b | z | f | s | l | d]; cbn [coerces]; try accepted.
  - destruct b; accepted.
  - rewrite safe_int_range. destruct (float_range z); accepted.
  - rewrite safe_int_float. destruct f; accepted.
  - destruct s as [| a r]; [accepted |].
    unfold safe_int, py_float.
    destruct (float_of_str (String a r)) as [f |]; [destruct f |]; accepted.
Qed.

Lemma float_of_int_range (z : Z) :
  float_of_int z
  = if float_range z then Ok (float_of_Z (round_to_double z))
    else Raise OverflowError.
Proof.
  unfold float_of_int, float_range.
  destruct (2 ^ 1024 <=? Z.abs (round_to_double z)) eqn:E.
  - apply Z.leb_le in E.
    replace (Z.abs (round_to_double z) <? 2 ^ 1024) with false
      by (symmetry; apply Z.ltb_ge; exact E).
    reflexivity.
  - apply Z.leb_gt in E.
    replace (Z.abs (round_to_double z) <? 2 ^ 1024) with true
      by (symmetry; apply Z.ltb_lt; exact E).
    reflexivity.
Qed.

Lemma format_2f_formats (v : pyval) :
  formats_2f v = true <-> exists s : string, format_2f v = Ok s.
Proof.
  destruct v as [| b | z | f | s | l | d]; cbn [formats_2f format_2f];
    try accepted.
  rewrite float_of_int_range. destruct (float_range z); accepted.
Qed.

Lemma format_comma_formats (v : pyval) :
  formats_comma v = true <-> exists s : string, format_comma v = Ok s.
Proof. destruct v; accepted. Qed.

Lemma format_bytes_coerces (v : pyval) :
  coerces v = true <-> exists s : string, format_bytes v = Ok s.
Proof.
  rewrite safe_int_coerces. unfold format_bytes. split.
  - intros (z & ->). cbn [bind]. eauto.
  - intros (s & H). destruct (safe_int v) as [z |]; [eauto | discriminate H].
Qed.

Lemma format_bytes_range (z : Z) :
  float_range z = true <-> exists s : string, format_bytes (PInt z) = Ok s.
Proof. exact (format_bytes_coerces (PInt z)). Qed.

Lemma cpu_entry_list (l : list pyval) (i : nat) :
  cpu_entry (PList l) i = Ok (nth i l (PInt 0)).
Proof.
  unfold cpu_entry. cbn [py_len bind py_item].
  destruct (Z.of_nat i <? Z.of_nat (List.length l)) eqn:E.
  - apply Z.ltb_lt in E.
    destruct (nth_error l i) as [x |] eqn:Ex.
    + now rewrite (nth_error_nth l i (PInt 0) Ex).
    + apply nth_error_None in Ex. lia.
  - apply Z.ltb_ge in E. rewrite nth_overflow by lia. reflexivity.
Qed.

(** The values of 'cpuload' whose three load values can be read and
    formatted. *)
Lemma load_values_spec (c : pyval) :
  load_values c = true <->
  exists c0 c1 c2 : pyval,
    cpu_entry c 0 = Ok c0 /\ cpu_entry c 1 = Ok c1 /\ cpu_entry c 2 = Ok c2
    /\ formats_2f c0 = true /\ formats_2f c1 = true /\ formats_2f c2 = true.
Proof.
  destruct c as [| b | z | f | s | l | d]; cbn [load_values];
    try (split; [discriminate | intros (c0 & c1 & c2 & H & _); discriminate H]).
  - destruct s as [| a r].
    + split; [intros _ | reflexivity].
      exists (PInt 0), (PInt 0), (PInt 0). repeat split.
    + split; [discriminate |].
      intros (c0 & c1 & c2 & H & _ & _ & F & _).
      cbn in H. injection H as <-. discriminate F.
  - split.
    + intros H.
      exists (nth 0 l (PInt 0)), (nth 1 l (PInt 0)), (nth 2 l (PInt 0)).
      rewrite !cpu_entry_list.
      destruct l as [| x0 [| x1 [| x2 l']]];
        cbn [firstn forallb nth] in *;
        rewrite ?andb_true_iff in H;
        repeat match goal with Hc : _ /\ _ |- _ => destruct Hc end;
        repeat split; first [assumption | reflexivity].
    + intros (c0 & c1 & c2 & H0 & H1 & H2 & F0 & F1 & F2).
      rewrite cpu_entry_list in H0, H1, H2.
      injection H0 as <-. injection H1 as <-. injection H2 as <-.
      destruct l as [| x0 [| x1 [| x2 l']]];
        cbn [firstn forallb nth] in *;
        rewrite ?F0, ?F1, ?F2; reflexivity.
  - destruct d as [| kv d'].
    + split; [intros _ | reflexivity].
      exists (PInt 0), (PInt 0), (PInt 0). repeat split.
    + split; [discriminate |].
      intros (c0 & c1 & c2 & H & _). cbn in H. discriminate H.
Qed.

(** What the results of the reads of a section say about its groups. *)
Ltac reads :=
  repeat match goal with
         | E : py_get _ _ _ = Ok ?v |- _ =>
             apply py_get_inv in E; destruct E as (? & ?); subst v
         end.

(** The health section succeeds exactly on three mappings with four
    kilobyte fields that coerce and three load values that can be read. *)
Lemma system_health_spec (g : groups) (h : health) :
  system_health g = Ok h <->
  is_dict (system_info g) = true
  /\ is_dict (opcache_stats g) = true
  /\ is_dict (opcache_memory g) = true
  /\ exists (total free stotal sfree : Z) (c0 c1 c2 : pyval),
       safe_int (field_of (system_info g) "mem_total" (PInt 0)) = Ok total
       /\ safe_int (field_of (system_info g) "mem_free" (PInt 0)) = Ok free
       /\ safe_int (field_of (system_info g) "swap_total" (PInt 0)) = Ok stotal
       /\ safe_int (field_of (system_info g) "swap_free" (PInt 0)) = Ok sfree
       /\ cpu_entry (field_of (system_info g) "cpuload"
                       (PList [PInt 0; PInt 0; PInt 0])) 0 = Ok c0
       /\ cpu_entry (field_of (system_info g) "cpuload"
                       (PList [PInt 0; PInt 0; PInt 0])) 1 = Ok c1
       /\ cpu_entry (field_of (system_info g) "cpuload"
                       (PList [PInt 0; PInt 0; PInt 0])) 2 = Ok c2
       /\ h = {| ram_total := total * 1024;
                 ram_used := (total - free) * 1024;
                 swap_total := stotal * 1024;
                 swap_used := (stotal - sfree) * 1024;
                 cpu_load := [c0; c1; c2];
                 opcache_hit_rate :=
                   field_of (opcache_stats g) "opcache_hit_rate"
                     (PFloat (S754_zero false));
                 opcache_used_memory :=
                   field_of (opcache_memory g) "used_memory" (PInt 0);
                 wasted_memory :=
                   field_of (opcache_memory g) "wasted_memory" (PInt 0) |}.
Proof.
  unfold system_health, KB_TO_BYTES. split.
  - intros H. bind_inv H. reads. injection H as <-.
    repeat (split; [assumption |]).
    do 7 eexists. repeat (split; [eassumption |]). reflexivity.
  - intros (D1 & D2 & D3 & total & free & stotal & sfree & c0 & c1 & c2
            & E1 & E2 & E3 & E4 & C0 & C1 & C2 & ->).
    rewrite !(py_get_field (system_info g)) by exact D1.
    rewrite !(py_get_field (opcache_stats g)) by exact D2.
    rewrite !(py_get_field (opcache_memory g)) by exact D3.
    cbn [bind]. rewrite E1. cbn [bind]. rewrite E2. cbn [bind].
    rewrite E3. cbn [bind]. rewrite E4. cbn [bind].
    rewrite C0. cbn [bind]. rewrite C1. cbn [bind]. rewrite C2. reflexivity.
Qed.

(** The uptime is shown exactly when the start time can be read and
    coerced, for a clock below 2^53. *)
Lemma php_uptime_spec (now : Z) (g : groups) :
  0 <= now < 2 ^ 53 ->
  ((exists s : string, php_uptime now g = Ok s) <->
   is_dict (opcache_stats g) = true
   /\ coerces (field_of (opcache_stats g) "start_time" (PInt 0)) = true).
Proof.
  intros Hnow. unfold php_uptime. split.
  - intros (s & H). bind_inv H. reads. split; [assumption |].
    apply safe_int_coerces. eauto.
  - intros (D & C). apply safe_int_coerces in C. destruct C as (start & Hs).
    rewrite (py_get_field (opcache_stats g)) by exact D.
    cbn [bind]. rewrite Hs. cbn [bind].
    unfold format_timedelta. rewrite safe_int_small; [cbn [bind]; eauto |].
    unfold uptime_seconds.
    destruct (0 <? start) eqn:E1; destruct (start <? now) eqn:E2; cbn [andb]; lia.
Qed.

(** The storage texts are made exactly when the two fields can be read and
    coerced and the counts that are formatted are within the range of the
    floats: the system free space when both are 0, else the two. *)
Lemma storage_overview_spec (g : groups) :
  (exists texts : string * string, storage_overview g = Ok texts) <->
  is_dict (storage_data g) = true
  /\ exists free used : Z,
       safe_int (field_of (storage_data g) "free" PNone) = Ok free
       /\ safe_int (field_of (storage_data g) "used" PNone) = Ok used
       /\ if (used =? 0) && (free =? 0)
          then is_dict (system_info g) = true
               /\ exists freespace : Z,
                    safe_int (field_of (system_info g) "freespace" PNone)
                    = Ok freespace
                    /\ float_range freespace = true
          else float_range used = true /\ float_range free = true.
Proof.
  unfold storage_overview. split.
  - intros (texts & H).
    destruct (py_get (storage_data g) "free" PNone) as [v1 |] eqn:E1;
      [cbn [bind] in H | discriminate H].
    destruct (safe_int v1) as [free |] eqn:F1; [cbn [bind] in H | discriminate H].
    destruct (py_get (storage_data g) "used" PNone) as [v2 |] eqn:E2;
      [cbn [bind] in H | discriminate H].
    destruct (safe_int v2) as [used |] eqn:F2; [cbn [bind] in H | discriminate H].
    reads. split; [assumption |]. exists free, used.
    split; [assumption |]. split; [assumption |].
    destruct ((used =? 0) && (free =? 0)).
    + bind_inv H. reads. split; [assumption |].
      eexists. split; [eassumption |]. apply format_bytes_range. eauto.
    + bind_inv H. split; apply format_bytes_range; eauto.
  - intros (D & free & used & F1 & F2 & H).
    rewrite !(py_get_field (storage_data g)) by exact D.
    cbn [bind]. rewrite F1. cbn [bind]. rewrite F2. cbn [bind].
    destruct ((used =? 0) && (free =? 0)).
    + destruct H as (D' & freespace & F3 & R).
      apply format_bytes_range in R. destruct R as (t & Ht).
      rewrite (py_get_field (system_info g)) by exact D'.
      cbn [bind]. rewrite F3. cbn [bind]. rewrite Ht. cbn [bind]. eauto.
    + destruct H as (R1 & R2).
      apply format_bytes_range in R1, R2.
      destruct R1 as (t1 & Ht1). destruct R2 as (t2 & Ht2).
      rewrite Ht1. cbn [bind]. rewrite Ht2. cbn [bind]. eauto.
Qed.

(** The [updates] dict is built exactly when the groups it reads are
    mappings, the numbers it formats are numbers and the byte counts are
    within the range of the floats. *)
Lemma build_updates_spec (g : groups) (h : health)
    (uptime_display storage_used_display storage_free_display : string)
    (a : app_section) :
  (exists u : list (string * pyval),
     build_updates g h uptime_display storage_used_display storage_free_display a
     = Ok u) <->
  is_dict (system_info g) = true
  /\ is_dict (storage_data g) = true
  /\ is_dict (server_data g) = true
  /\ is_dict (active_users g) = true
  /\ is_dict (shares g) = true
  /\ is_dict (db_info g) = true
  /\ is_dict (php_info g) = true
  /\ formats_comma (field_of (storage_data g) "num_files" (PInt 0)) = true
  /\ float_range (ram_used h) = true
  /\ float_range (ram_total h) = true
  /\ float_range (swap_used h) = true
  /\ formats_2f (nth 0 (cpu_load h) PNone) = true
  /\ formats_2f (nth 1 (cpu_load h) PNone) = true
  /\ formats_2f (nth 2 (cpu_load h) PNone) = true
  /\ formats_2f (opcache_hit_rate h) = true
  /\ coerces (opcache_used_memory h) = true
  /\ coerces (wasted_memory h) = true
  /\ coerces (field_of (php_info g) "memory_limit" (PInt 0)) = true
  /\ exists size : Z,
       safe_int (field_of (db_info g) "size" PNone) = Ok size
       /\ float_range size = true.
Proof.
  unfold build_updates. split.
  - intros (u & H). bind_inv H. reads.
    repeat (split; [assumption |]).
    split; [apply format_comma_formats; eauto |].
    do 3 (split; [apply format_bytes_range; eauto |]).
    do 4 (split; [apply format_2f_formats; eauto |]).
    do 3 (split; [apply format_bytes_coerces; eauto |]).
    eexists. split; [eassumption |]. apply format_bytes_range. eauto.
  - intros (D1 & D2 & D3 & D4 & D5 & D6 & D7 & Ffiles & Rru & Rrt & Rsu
            & N0 & N1 & N2 & Nhr & Cum & Cwm & Cml & size & Hsize & Rsize).
    apply format_comma_formats in Ffiles. destruct Ffiles as (files & Hfiles).
    apply format_bytes_range in Rru, Rrt, Rsu, Rsize.
    destruct Rru as (tru & Hru). destruct Rrt as (trt & Hrt).
    destruct Rsu as (tsu & Hsu). destruct Rsize as (tsize & Htsize).
    apply format_2f_formats in N0, N1, N2, Nhr.
    destruct N0 as (t0 & N0). destruct N1 as (t1 & N1).
    destruct N2 as (t2 & N2). destruct Nhr as (thr & Nhr).
    apply format_bytes_coerces in Cum, Cwm, Cml.
    destruct Cum as (tum & Hum). destruct Cwm as (twm & Hwm).
    destruct Cml as (tml & Hml).
    rewrite !(py_get_field (system_info g)) by exact D1.
    rewrite !(py_get_field (storage_data g)) by exact D2.
    rewrite !(py_get_field (server_data g)) by exact D3.
    rewrite !(py_get_field (active_users g)) by exact D4.
    rewrite !(py_get_field (shares g)) by exact D5.
    rewrite !(py_get_field (db_info g)) by exact D6.
    rewrite !(py_get_field (php_info g)) by exact D7.
    cbn [bind]. rewrite Hfiles. cbn [bind].
    rewrite Hru. cbn [bind]. rewrite Hrt. cbn [bind]. rewrite Hsu. cbn [bind].
    rewrite N0. cbn [bind]. rewrite N1. cbn [bind]. rewrite N2. cbn [bind].
    rewrite Nhr. cbn [bind]. rewrite Hum. cbn [bind]. rewrite Hwm. cbn [bind].
    rewrite Hsize. cbn [bind]. rewrite Htsize. cbn [bind].
    rewrite Hml. cbn [bind]. eauto.
Qed.

(** A dict that was built has an item for every label. *)
Lemma build_updates_values (g : groups) (h : health)
    (uptime_display storage_used_display storage_free_display : string)
    (a : app_section) (u : list (string * pyval)) :
  build_updates g h uptime_display storage_used_display storage_free_display a
  = Ok u ->
  Forall (fun k => exists v, lookup k u = Some v) label_names.
Proof.
  unfold build_updates. intros H. bind_inv H. injection H as <-.
  unfold label_names. repeat constructor; eexists; reflexivity.
Qed.

Lemma app_summary_total (data ocs : pyval) (d : list (string * pyval)) :
  py_getitem data "ocs" = Ok ocs ->
  py_getitem ocs "data" = Ok (PDict d) ->
  exists a : app_section, app_summary data = Ok a.
Proof.
  intros Hocs Hdata. unfold app_summary. rewrite Hocs. cbn [bind].
  rewrite Hdata. cbn [bind]. rewrite py_get_dict. cbn [bind].
  destruct (truthy _ && is_dict _) eqn:E; [| eauto].
  apply andb_true_iff in E. destruct E as (_ & E).
  rewrite !py_get_field by exact E. cbn [bind].
  destruct (field_of _ "enabled" _); eauto.
  destruct (field_of _ "installed" _); eauto.
  rewrite collect_lines_entries. cbn [bind]. eauto.
Qed.

Lemma extract_data_under (data : pyval) (g : groups) :
  extract_data data = Ok g ->
  exists (ocs : pyval) (d : list (string * pyval)),
    py_getitem data "ocs" = Ok ocs /\ py_getitem ocs "data" = Ok (PDict d).
Proof.
  unfold extract_data. intros H.
  destruct (py_getitem data "ocs") as [ocs |] eqn:E1; [| discriminate H].
  cbn [bind] in H.
  destruct (py_getitem ocs "data") as [ocs_data |] eqn:E2; [| discriminate H].
  cbn [bind] in H.
  destruct ocs_data as [| | | | | | d];
    try (cbn [py_getitem bind] in H; discriminate H).
  exists ocs, d. split; [reflexivity | exact E2].
Qed.

Lemma py_getitem_inv (v : pyval) (k : string) (x : pyval) :
  py_getitem v k = Ok x <-> exists d, v = PDict d /\ lookup k d = Some x.
Proof.
  split.
  - destruct v as [| | | | | | d]; try discriminate. cbn [py_getitem].
    destruct (lookup k d) as [y |] eqn:E; [| discriminate].
    intros H. injection H as <-. eauto.
  - intros (d & -> & H). cbn [py_getitem]. now rewrite H.
Qed.

(** The groups can be read exactly from a payload that holds the mappings
    'ocs' and 'data' and, under the latter, the mappings 'nextcloud' and
    'server' and an item 'activeUsers', where 'php' and its 'opcache' are
    mappings if they are present; the other groups are fields of these, or
    empty. *)
Lemma extract_data_spec (data : pyval) (g : groups) :
  extract_data data = Ok g <->
  exists (dd od d : list (string * pyval)) (nc sv au : pyval),
    data = PDict dd
    /\ lookup "ocs" dd = Some (PDict od)
    /\ lookup "data" od = Some (PDict d)
    /\ lookup "nextcloud" d = Some nc
    /\ lookup "server" d = Some sv
    /\ lookup "activeUsers" d = Some au
    /\ is_dict nc = true
    /\ is_dict sv = true
    /\ is_dict (field_of sv "php" empty_dict) = true
    /\ is_dict (field_of (field_of sv "php" empty_dict) "opcache" empty_dict) = true
    /\ g = {| nc_data := nc; server_data := sv; active_users := au;
              system_info := field_of nc "system" empty_dict;
              db_info := field_of sv "database" empty_dict;
              php_info := field_of sv "php" empty_dict;
              storage_data := field_of nc "storage" empty_dict;
              shares := field_of nc "shares" empty_dict;
              opcache_stats :=
                field_of (field_of (field_of sv "php" empty_dict) "opcache" empty_dict)
                  "opcache_statistics" empty_dict;
              opcache_memory :=
                field_of (field_of (field_of sv "php" empty_dict) "opcache" empty_dict)
                  "memory_usage" empty_dict |}.
Proof.
  unfold extract_data. split.
  - intros H.
    destruct (py_getitem data "ocs") as [ocs |] eqn:E1;
      [cbn [bind] in H | discriminate H].
    destruct (py_getitem ocs "data") as [ocs_data |] eqn:E2;
      [cbn [bind] in H | discriminate H].
    destruct (py_getitem ocs_data "nextcloud") as [nc |] eqn:E3;
      [cbn [bind] in H | discriminate H].
    destruct (py_getitem ocs_data "server") as [sv |] eqn:E4;
      [cbn [bind] in H | discriminate H].
    destruct (py_getitem ocs_data "activeUsers") as [au |] eqn:E5;
      [cbn [bind] in H | discriminate H].
    apply py_getitem_inv in E1, E2, E3, E4, E5.
    destruct E1 as (dd & -> & E1). destruct E2 as (od & -> & E2).
    destruct E3 as (d & -> & E3). destruct E4 as (d' & Hd & E4).
    injection Hd as <-. destruct E5 as (d' & Hd & E5). injection Hd as <-.
    bind_inv H. reads. injection H as <-.
    exists dd, od, d, nc, sv, au. auto 15.
  - intros (dd & od & d & nc & sv & au & -> & E1 & E2 & E3 & E4 & E5
            & D1 & D2 & D3 & D4 & ->).
    cbn [py_getitem]. rewrite E1. cbn [bind py_getitem]. rewrite E2.
    cbn [bind py_getitem]. rewrite E3, E4, E5. cbn [bind].
    rewrite !(py_get_field nc) by exact D1.
    rewrite !(py_get_field sv) by exact D2. cbn [bind].
    rewrite !(py_get_field (field_of sv "php" empty_dict)) by exact D3.
    cbn [bind].
    rewrite !(py_get_field (field_of (field_of sv "php" empty_dict) "opcache"
                              empty_dict)) by exact D4.
    reflexivity.
Qed.

(** The groups of a payload that gives a snapshot can be processed. *)
Lemma normalize_well_formed (now : Z) (data : pyval) (g : groups)
    (snap : snapshot) :
  extract_data data = Ok g -> normalize now data = Ok snap -> well_formed g.
Proof.
  intros Hg H. apply normalize_sections in H.
  destruct H as (g' & h & up & su & sf & a & Hg' & Hh & Hup & Hst & _ & Hu & _).
  rewrite Hg in Hg'. injection Hg' as <-.
  apply system_health_spec in Hh.
  destruct Hh as (Dsys & Dstats & Dmem & total & free & stotal & sfree
                  & c0 & c1 & c2 & E1 & E2 & E3 & E4 & C0 & C1 & C2 & ->).
  assert (Hup' : is_dict (opcache_stats g) = true
                 /\ coerces (field_of (opcache_stats g) "start_time" (PInt 0))
                    = true).
  { unfold php_uptime in Hup. bind_inv Hup. reads. split; [assumption |].
    apply safe_int_coerces. eauto. }
  destruct Hup' as (_ & Cstart).
  assert (Hst' : exists texts, storage_overview g = Ok texts) by eauto.
  apply storage_overview_spec in Hst'.
  destruct Hst' as (Dsto & sfr & sus & F1 & F2 & Hbranch).
  assert (Hu' : exists u, build_updates g
                            {| ram_total := total * 1024;
                               ram_used := (total - free) * 1024;
                               swap_total := stotal * 1024;
                               swap_used := (stotal - sfree) * 1024;
                               cpu_load := [c0; c1; c2];
                               opcache_hit_rate :=
                                 field_of (opcache_stats g) "opcache_hit_rate"
                                   (PFloat (S754_zero false));
                               opcache_used_memory :=
                                 field_of (opcache_memory g) "used_memory" (PInt 0);
                               wasted_memory :=
                                 field_of (opcache_memory g) "wasted_memory" (PInt 0) |}
                            up su sf a = Ok u) by eauto.
  apply build_updates_spec in Hu'.
  cbn [ram_total ram_used swap_used cpu_load opcache_hit_rate
       opcache_used_memory wasted_memory nth] in Hu'.
  destruct Hu' as (_ & _ & Dsrv & Dact & Dsh & Ddb & Dphp & Ffiles & Rru & Rrt
                   & Rsu & N0 & N1 & N2 & Nhr & Cum & Cwm & Cml
                   & size & Hsize & Rsize).
  constructor; try assumption; try (apply safe_int_coerces; eauto; fail).
  - intros t f Ht Hf. rewrite E1 in Ht. rewrite E2 in Hf.
    injection Ht as <-. injection Hf as <-. auto.
  - intros t f Ht Hf. rewrite E3 in Ht. rewrite E4 in Hf.
    injection Ht as <-. injection Hf as <-. exact Rsu.
  - apply load_values_spec. exists c0, c1, c2. auto 10.
  - intros f u Hf Hu0. rewrite F1 in Hf. rewrite F2 in Hu0.
    injection Hf as <-. injection Hu0 as <-.
    destruct ((sus =? 0) && (sfr =? 0)); [| exact Hbranch].
    destruct Hbranch as (_ & fs & Hfs & Rfs).
    split; [apply safe_int_coerces; eauto |].
    intros fs' Hfs'. rewrite Hfs in Hfs'. now injection Hfs' as <-.
  - intros z Hz. rewrite Hsize in Hz. now injection Hz as <-.
Qed.

(** The groups that can be processed give a snapshot. *)
Lemma well_formed_normalize (now : Z) (data : pyval) (g : groups) :
  0 <= now < 2 ^ 53 ->
  extract_data data = Ok g ->
  well_formed g ->
  exists snap : snapshot, normalize now data = Ok snap.
Proof.
  intros Hnow Hg W.
  destruct (proj1 (safe_int_coerces _) (wf_mem_total g W)) as (total & E1).
  destruct (proj1 (safe_int_coerces _) (wf_mem_free g W)) as (free & E2).
  destruct (proj1 (safe_int_coerces _) (wf_swap_total g W)) as (stotal & E3).
  destruct (proj1 (safe_int_coerces _) (wf_swap_free g W)) as (sfree & E4).
  destruct (proj1 (load_values_spec _) (wf_cpuload g W))
    as (c0 & c1 & c2 & C0 & C1 & C2 & N0 & N1 & N2).
  destruct (wf_ram g W total free E1 E2) as (Rrt & Rru).
  pose proof (wf_swap g W stotal sfree E3 E4) as Rsu.
  destruct (proj1 (safe_int_coerces _) (wf_free g W)) as (sfr & F1).
  destruct (proj1 (safe_int_coerces _) (wf_used g W)) as (sus & F2).
  pose proof (wf_storage_counts g W sfr sus F1 F2) as Hbranch.
  destruct (proj1 (safe_int_coerces _) (wf_size g W)) as (size & Hsize).
  pose proof (wf_size_count g W size Hsize) as Rsize.
  set (h := {| ram_total := total * 1024;
               ram_used := (total - free) * 1024;
               swap_total := stotal * 1024;
               swap_used := (stotal - sfree) * 1024;
               cpu_load := [c0; c1; c2];
               opcache_hit_rate :=
                 field_of (opcache_stats g) "opcache_hit_rate"
                   (PFloat (S754_zero false));
               opcache_used_memory :=
                 field_of (opcache_memory g) "used_memory" (PInt 0);
               wasted_memory :=
                 field_of (opcache_memory g) "wasted_memory" (PInt 0) |}).
  assert (Hh : system_health g = Ok h).
  { apply system_health_spec.
    split; [exact (wf_system g W) |]. split; [exact (wf_stats g W) |].
    split; [exact (wf_memory g W) |].
    exists total, free, stotal, sfree, c0, c1, c2. auto 10. }
  destruct (proj2 (php_uptime_spec now g Hnow)
              (conj (wf_stats g W) (wf_start_time g W))) as (up & Hup).
  assert (Hst : exists texts, storage_overview g = Ok texts).
  { apply storage_overview_spec. split; [exact (wf_storage g W) |].
    exists sfr, sus. split; [exact F1 |]. split; [exact F2 |].
    destruct ((sus =? 0) && (sfr =? 0)); [| exact Hbranch].
    destruct Hbranch as (Cfs & Rfs).
    apply safe_int_coerces in Cfs. destruct Cfs as (fs & Hfs).
    split; [exact (wf_system g W) |]. exists fs. auto. }
  destruct Hst as ((su & sf) & Hst).
  destruct (extract_data_under data g Hg) as (ocs & d & Hocs & Hd).
  destruct (app_summary_total data ocs d Hocs Hd) as (a & Ha).
  assert (Hu : exists u, build_updates g h up su sf a = Ok u).
  { apply build_updates_spec.
    cbn [h ram_total ram_used swap_used cpu_load opcache_hit_rate
         opcache_used_memory wasted_memory nth].
    split; [exact (wf_system g W) |]. split; [exact (wf_storage g W) |].
    split; [exact (wf_server g W) |]. split; [exact (wf_active g W) |].
    split; [exact (wf_shares g W) |]. split; [exact (wf_db g W) |].
    split; [exact (wf_php g W) |]. split; [exact (wf_num_files g W) |].
    repeat (split; [assumption |]).
    split; [exact (wf_hit_rate g W) |].
    split; [exact (wf_used_memory g W) |].
    split; [exact (wf_wasted_memory g W) |].
    split; [exact (wf_memory_limit g W) |].
    exists size. auto. }
  destruct Hu as (u & Hu).
  exists {| updates := u; app_list := enabled_app_lines_str a |}.
  unfold normalize. rewrite Hg. cbn [bind]. rewrite Hh. cbn [bind].
  rewrite Hup. cbn [bind]. rewrite Hst. cbn [bind]. rewrite Ha. cbn [bind].
  rewrite Hu. reflexivity.
Qed.

Lemma missing_group_raises (now : Z) (data : pyval) :
  missing_group data ->
  exists k : string, normalize now data = Raise (KeyError k).
Proof.
  intros H. unfold normalize, extract_data.
  destruct H as [dd H | dd od H1 H2 | dd od d k H1 H2 Hk H3];
    cbn [py_getitem bind].
  - rewrite H. cbn [bind]. eauto.
  - rewrite H1. cbn [py_getitem bind]. rewrite H2. cbn [bind]. eauto.
  - rewrite H1. cbn [py_getitem bind]. rewrite H2. cbn [py_getitem bind].
    destruct (lookup "nextcloud" d) eqn:E1; cbn [bind]; [| eauto].
    destruct (lookup "server" d) eqn:E2; cbn [bind]; [| eauto].
    destruct (lookup "activeUsers" d) eqn:E3; cbn [bind]; [| eauto].
    exfalso. cbn [In] in Hk.
    destruct Hk as [<- | [<- | [<- | []]]]; congruence.
Qed.

(** C3, as amended.  Processing a payload either gives a snapshot or ends
    with an exception, which is caught and reported.  A payload without one
    of the groups 'ocs', 'data', 'nextcloud', 'server' and 'activeUsers'
    ends with a [KeyError].  Whatever the exception, it is shown in a
    dialog as a data processing error and no label changes.  A payload
    whose groups can be read gives a snapshot exactly when they can be
    processed: the groups are mappings, no coerced field is beyond the
    floats, the load values, the hit rate and the number of files are
    numbers, and the byte counts are within the range of the floats; an
    absent optional group or field gives its default.  A snapshot has a
    value for every label, and it is shown without any error report. *)
Theorem normalize_outcome (now : Z) (data : pyval) :
  (missing_group data ->
   exists k : string,
     normalize now data = Raise (KeyError k)
     /\ forall w : app,
          metric_labels (update_gui_metrics now data w) = metric_labels w
          /\ app_list_text (update_gui_metrics now data w) = app_list_text w
          /\ status_bar (update_gui_metrics now data w) = ErrorProcessingData
          /\ dialogs (update_gui_metrics now data w)
             = List.app (dialogs w) [KeyError k])
  /\ (forall e : exn,
        normalize now data = Raise e ->
        forall w : app,
          metric_labels (update_gui_metrics now data w) = metric_labels w
          /\ app_list_text (update_gui_metrics now data w) = app_list_text w
          /\ status_bar (update_gui_metrics now data w) = ErrorProcessingData
          /\ dialogs (update_gui_metrics now data w) = List.app (dialogs w) [e])
  /\ (forall g : groups,
        extract_data data = Ok g ->
        0 <= now < 2 ^ 53 ->
        (well_formed g <-> exists snap : snapshot, normalize now data = Ok snap))
  /\ (forall snap : snapshot,
        normalize now data = Ok snap ->
        Forall (fun k => exists v, lookup k (updates snap) = Some v) label_names
        /\ forall w : app,
             metric_labels (update_gui_metrics now data w)
             = apply_updates (updates snap) (metric_labels w)
             /\ app_list_text (update_gui_metrics now data w) = app_list snap
             /\ status_bar (update_gui_metrics now data w) = LastUpdated
             /\ dialogs (update_gui_metrics now data w) = dialogs w).
Proof.
  split; [| split; [| split]].
  - intros H. destruct (missing_group_raises now data H) as (k & Hk).
    exists k. split; [exact Hk |].
    intros w. unfold update_gui_metrics. rewrite Hk. repeat split.
  - intros e He w. unfold update_gui_metrics. rewrite He. repeat split.
  - intros g Hg Hnow. split.
    + intros W. exact (well_formed_normalize now data g Hnow Hg W).
    + intros (snap & Hs). exact (normalize_well_formed now data g snap Hg Hs).
  - intros snap Hs. split.
    + apply normalize_sections in Hs.
      destruct Hs as (g & h & up & su & sf & a & _ & _ & _ & _ & _ & Hu & _).
      exact (build_updates_values g h up su sf a (updates snap) Hu).
    + intros w. unfold update_gui_metrics. rewrite Hs. repeat split.
Qed.

(** ** Rounding to two places *)



(** ** The unit of a byte count *)



(** * Further properties *)

(** ** The labels of the window *)

Lemma map_fst_set_text (key text : string) (labels : list (string * string)) :
  map fst (set_text key text labels) = map fst labels.
Proof.
  induction labels as [| [k t] rest IH]; [reflexivity |].
  cbn [set_text]. destruct (String.eqb k key); cbn [map fst]; [reflexivity |].
  now rewrite IH.
Qed.

Lemma map_fst_apply_updates (u : list (string * pyval))
    (labels : list (string * string)) :
  map fst (apply_updates u labels) = map fst labels.
Proof.
  unfold apply_updates. revert labels.
  induction u as [| kv u IH]; intros labels; [reflexivity |].
  cbn [fold_left]. rewrite IH. apply map_fst_set_text.
Qed.

Lemma label_text_set_same (key text : string) (labels : list (string * string)) :
  In key (map fst labels) -> label_text key (set_text key text labels) = Some text.
Proof.
  induction labels as [| [k t] rest IH]; intros H; [destruct H |].
  cbn [set_text]. destruct (String.eqb k key) eqn:E; cbn [label_text]; rewrite E.
  - reflexivity.
  - apply IH. destruct H as [H | H]; [| exact H].
    cbn [fst] in H. subst k. now rewrite String.eqb_refl in E.
Qed.

Lemma label_text_set_other (key key' text : string)
    (labels : list (string * string)) :
  key <> key' ->
  label_text key (set_text key' text labels) = label_text key labels.
Proof.
  intros Hneq. induction labels as [| [k t] rest IH]; [reflexivity |].
  cbn [set_text]. destruct (String.eqb k key') eqn:E; cbn [label_text].
  - apply String.eqb_eq in E. subst k.
    replace (String.eqb key' key) with false; [reflexivity |].
    symmetry. apply String.eqb_neq. congruence.
  - destruct (String.eqb k key); [reflexivity | exact IH].
Qed.

Lemma lookup_not_in (k : string) (u : list (string * pyval)) :
  ~ In k (map fst u) -> lookup k u = None.
Proof.
  induction u as [| [k' v] u IH]; intros H; [reflexivity |].
  cbn [lookup]. destruct (String.eqb k k') eqn:E.
  - apply String.eqb_eq in E. exfalso. apply H. left. now subst.
  - apply IH. intros Hin. apply H. now right.
Qed.

Lemma lookup_in (k : string) (u : list (string * pyval)) (v : pyval) :
  lookup k u = Some v -> In k (map fst u).
Proof.
  induction u as [| [k' v'] u IH]; [discriminate |].
  cbn [lookup]. destruct (String.eqb k k') eqn:E.
  - intros _. apply String.eqb_eq in E. left. now subst.
  - intros H. right. now apply IH.
Qed.

Lemma label_text_apply_updates (u : list (string * pyval))
    (labels : list (string * string)) (k : string) :
  NoDup (map fst u) ->
  In k (map fst labels) ->
  label_text k (apply_updates u labels)
  = match lookup k u with
    | Some v => Some (py_str v)
    | None => label_text k labels
    end.
Proof.
  unfold apply_updates. revert labels.
  induction u as [| [k1 v1] u IH]; intros labels Hnd Hk; [reflexivity |].
  cbn [fold_left fst snd]. cbn [map fst] in Hnd. inversion Hnd as [| ? ? Hnotin Hnd']; subst.
  rewrite IH; [| exact Hnd' | now rewrite map_fst_set_text].
  cbn [lookup]. destruct (String.eqb k k1) eqn:E.
  - apply String.eqb_eq in E. subst k1.
    rewrite (lookup_not_in k u Hnotin). now apply label_text_set_same.
  - apply String.eqb_neq in E.
    destruct (lookup k u); [reflexivity |]. now apply label_text_set_other.
Qed.

Lemma distinct_NoDup (l : list string) : distinct l = true -> NoDup l.
Proof.
  induction l as [| x rest IH]; intros H; [constructor |].
  cbn [distinct] in H. apply andb_true_iff in H. destruct H as (H1 & H2).
  constructor; [| now apply IH].
  intros Hin. apply negb_true_iff in H1.
  assert (existsb (String.eqb x) rest = true); [| congruence].
  apply existsb_exists. exists x. split; [exact Hin | apply String.eqb_refl].
Qed.

Lemma update_keys_NoDup : NoDup update_keys.
Proof. apply distinct_NoDup. reflexivity. Qed.

Lemma update_keys_labels (k : string) : In k update_keys <-> In k label_names.
Proof.
  assert (H1 : forallb (fun k => existsb (String.eqb k) label_names) update_keys = true)
    by reflexivity.
  assert (H2 : forallb (fun k => existsb (String.eqb k) update_keys) label_names = true)
    by reflexivity.
  rewrite forallb_forall in H1, H2. split; intros H.
  - apply H1 in H. apply existsb_exists in H. destruct H as (k' & H & E).
    apply String.eqb_eq in E. now subst.
  - apply H2 in H. apply existsb_exists in H. destruct H as (k' & H & E).
    apply String.eqb_eq in E. now subst.
Qed.

Lemma build_updates_keys (g : groups) (h : health)
    (uptime_display used_display free_display : string) (a : app_section)
    (u : list (string * pyval)) :
  build_updates g h uptime_display used_display free_display a = Ok u ->
  map fst u = update_keys.
Proof.
  unfold build_updates. intros H. bind_inv H. injection H as <-. reflexivity.
Qed.

Lemma normalize_keys (now : Z) (data : pyval) (snap : snapshot) :
  normalize now data = Ok snap -> map fst (updates snap) = update_keys.
Proof.
  intros H. apply normalize_sections in H.
  destruct H as (g & h & up & su & sf & a & _ & _ & _ & _ & _ & H & _).
  now apply build_updates_keys in H.
Qed.

(** X1.  After a payload was normalised, every label of the window shows
    the text of its item of the snapshot, and every item of the snapshot is
    shown by a label. *)
Theorem snapshot_shown (now : Z) (data : pyval) (snap : snapshot) (w : app) :
  map fst (metric_labels w) = label_names ->
  normalize now data = Ok snap ->
  let shown := update_gui_metrics now data w in
  map fst (metric_labels shown) = label_names
  /\ (forall k, In k label_names ->
        exists v, lookup k (updates snap) = Some v
                  /\ label_text k (metric_labels shown) = Some (py_str v))
  /\ (forall k v, lookup k (updates snap) = Some v ->
        label_text k (metric_labels shown) = Some (py_str v))
  /\ app_list_text shown = app_list snap.
Proof.
  intros Hlabels Hnorm shown.
  pose proof (normalize_keys now data snap Hnorm) as Hkeys.
  assert (Hshown : metric_labels shown = apply_updates (updates snap) (metric_labels w)).
  { unfold shown, update_gui_metrics. now rewrite Hnorm. }
  assert (Htext : forall k v, lookup k (updates snap) = Some v ->
                    label_text k (metric_labels shown) = Some (py_str v)).
  { intros k v Hk. rewrite Hshown, label_text_apply_updates.
    - now rewrite Hk.
    - rewrite Hkeys. apply update_keys_NoDup.
    - rewrite Hlabels. apply update_keys_labels. rewrite <- Hkeys.
      now apply lookup_in in Hk. }
  split; [| split; [| split]].
  - rewrite Hshown, map_fst_apply_updates. exact Hlabels.
  - intros k Hk. destruct (lookup k (updates snap)) as [v |] eqn:E.
    + exists v. split; [reflexivity | now apply Htext].
    + exfalso. apply update_keys_labels in Hk. rewrite <- Hkeys in Hk.
      revert E. clear -Hk. induction (updates snap) as [| [k' v'] u IH].
      * destruct Hk.
      * cbn [lookup]. destruct (String.eqb k k') eqn:E; [discriminate |].
        apply IH. destruct Hk as [Hk | Hk]; [| exact Hk].
        cbn [fst] in Hk. subst. now rewrite String.eqb_refl in E.
  - exact Htext.
  - unfold shown, update_gui_metrics. now rewrite Hnorm.
Qed.

(** ** The window under its events *)

Lemma start_fetch_ok (server_configs : list config) (w : app) :
  window_ok server_configs w -> window_ok server_configs (start_fetch w).
Proof.
  intros [H1 H2 H3 H4 H5 H6 H7 H8 H9]. constructor; cbn; try assumption.
  apply Forall_app. split; [exact H9 |].
  constructor; [| constructor]. exists (current_config w). cbn. auto.
Qed.

Lemma apply_new_config_ok (server_configs : list config) (c : config) (w : app) :
  In c server_configs ->
  window_ok server_configs w ->
  window_ok server_configs (apply_new_config c w).
Proof.
  intros Hc [H1 H2 H3 H4 H5 H6 H7 H8 H9].
  constructor; cbn; try assumption; try reflexivity.
  - rewrite map_map. cbn [fst]. exact H8.
  - apply Forall_app. split; [exact H9 |].
    constructor; [| constructor]. exists c. cbn. auto.
Qed.

Lemma Forall_remove_nth {A : Type} (P : A -> Prop) (i : nat) (l : list A) :
  Forall P l -> Forall P (remove_nth i l).
Proof.
  intros H. revert i. induction H as [| x l Hx Hl IH]; intros i.
  - destruct i; constructor.
  - destruct i; cbn [remove_nth]; [exact Hl |]. constructor; [exact Hx | apply IH].
Qed.

Lemma worker_finished_ok (server_configs : list config) (now : Z) (i : nat)
    (reply : http_reply) (w : app) :
  window_ok server_configs w ->
  window_ok server_configs (worker_finished now i reply w).
Proof.
  intros Hw. pose proof Hw as [H1 H2 H3 H4 H5 H6 H7 H8 H9].
  unfold worker_finished.
  destruct (nth_error (thread_pool w) i); [| exact Hw].
  destruct (fetch_metrics reply) as [data | message].
  - unfold update_gui_metrics.
    destruct (normalize now data) as [snap | e];
      constructor; cbn; try assumption; try (now apply Forall_remove_nth).
    now rewrite map_fst_apply_updates.
  - constructor; cbn; try assumption. now apply Forall_remove_nth.
Qed.

Lemma spin_box_value_range (entered : Z) : 10 <= spin_box_value entered <= 3600.
Proof. unfold spin_box_value. lia. Qed.

Lemma set_refresh_interval_dialog_ok (server_configs : list config)
    (outcome : option Z) (w : app) :
  window_ok server_configs w ->
  window_ok server_configs (set_refresh_interval_dialog outcome w).
Proof.
  intros Hw. unfold set_refresh_interval_dialog.
  destruct outcome as [entered |]; [| exact Hw].
  destruct (_ =? _); [exact Hw |].
  apply start_fetch_ok. destruct Hw as [H1 H2 H3 H4 H5 H6 H7 H8 H9].
  pose proof (spin_box_value_range entered).
  constructor; cbn; try assumption; try reflexivity; try lia.
  exists (spin_box_value entered). reflexivity.
Qed.

Lemma handle_ok (server_configs : list config) (e : event) (w : app) :
  window_ok server_configs w -> window_ok server_configs (handle server_configs e w).
Proof.
  intros Hw. destruct e as [| | outcome | outcome | now i reply]; cbn [handle].
  - now apply start_fetch_ok.
  - destruct (timer w); [now apply start_fetch_ok | exact Hw].
  - unfold select_new_config_dialog. destruct outcome as [row |]; [| exact Hw].
    destruct (nth_error server_configs row) as [c |] eqn:E; [| exact Hw].
    apply apply_new_config_ok; [| exact Hw]. now apply nth_error_In in E.
  - now apply set_refresh_interval_dialog_ok.
  - now apply worker_finished_ok.
Qed.

Lemma new_app_ok (server_configs : list config) (c : config) :
  In c server_configs -> window_ok server_configs (new_app c).
Proof.
  intros Hc. constructor; cbn; try reflexivity; try assumption.
  - split; discriminate.
  - exists 60. reflexivity.
  - constructor; [| constructor]. exists c. cbn. auto.
Qed.

(** X2.  Whatever events follow the start of the window, its state stays
    consistent: the current configuration is one of the loaded ones and the
    URL, the token and the title are its own; the timer runs with the
    current interval, which is a whole number of seconds between 10 and
    3600; the labels are the registered ones; and every outstanding
    request was issued for a loaded configuration. *)
Theorem window_invariant (server_configs : list config) (initial_config : config)
    (events : list event) :
  In initial_config server_configs ->
  window_ok server_configs (run server_configs events (new_app initial_config)).
Proof.
  intros Hc. unfold run.
  assert (H : window_ok server_configs (new_app initial_config))
    by now apply new_app_ok.
  revert H. generalize (new_app initial_config) as w.
  induction events as [| e events IH]; intros w Hw; [exact Hw |].
  cbn [fold_left]. apply IH. now apply handle_ok.
Qed.

(** X3.  A cycle that fails keeps what is on display.  When the request
    fails, the labels and the app list keep their text, the raw data tab
    and the status bar show the message, and no dialog is opened; when the
    data cannot be processed, the labels and the app list keep their text
    and the exception is reported.  Either way the request leaves the
    pool and the configuration, the interval and the timer are untouched. *)
Theorem failed_cycle_keeps_display (now : Z) (i : nat) (reply : http_reply)
    (w : app) (wk : worker) :
  nth_error (thread_pool w) i = Some wk ->
  let done := worker_finished now i reply w in
  (forall message, fetch_metrics reply = FetchException message ->
     metric_labels done = metric_labels w
     /\ app_list_text done = app_list_text w
     /\ raw_data_text done
        = "ERROR: Could not fetch data. Check your URL/Token." ++ newline
            ++ newline ++ message
     /\ status_bar done = FetchError message
     /\ dialogs done = dialogs w)
  /\ (forall data e, fetch_metrics reply = Fetched data ->
        normalize now data = Raise e ->
        metric_labels done = metric_labels w
        /\ app_list_text done = app_list_text w
        /\ raw_data_text done = json_dumps data
        /\ status_bar done = ErrorProcessingData
        /\ dialogs done = List.app (dialogs w) [e])
  /\ thread_pool done = remove_nth i (thread_pool w)
  /\ S (List.length (thread_pool done)) = List.length (thread_pool w)
  /\ current_config done = current_config w
  /\ refresh_interval_ms done = refresh_interval_ms w
  /\ timer done = timer w.
Proof.
  intros Hwk done.
  assert (Hlen : forall (l : list worker) (j : nat) (x : worker),
             nth_error l j = Some x ->
             S (List.length (remove_nth j l)) = List.length l).
  { induction l as [| y l IH]; intros [| j] x Hx; try discriminate Hx.
    - reflexivity.
    - cbn [remove_nth List.length]. f_equal. now apply (IH j x). }
  split; [| split].
  - intros message Hf. unfold done, worker_finished. rewrite Hwk, Hf.
    repeat split.
  - intros data e Hf Hn. unfold done, worker_finished. rewrite Hwk, Hf.
    unfold update_gui_metrics. rewrite Hn. repeat split.
  - unfold done, worker_finished. rewrite Hwk.
    destruct (fetch_metrics reply) as [data | message].
    + unfold update_gui_metrics.
      destruct (normalize now data); cbn; repeat split; now apply (Hlen _ i wk).
    + cbn. repeat split. now apply (Hlen _ i wk).
Qed.

Lemma label_text_reset (labels : list (string * string)) (k : string) :
  In k (map fst labels) ->
  label_text k (map (fun kt => (fst kt, "N/A")) labels) = Some "N/A".
Proof.
  induction labels as [| [k' t] rest IH]; intros H; [destruct H |].
  cbn [map fst label_text]. destruct (String.eqb k' k) eqn:E; [reflexivity |].
  apply IH. destruct H as [H | H]; [| exact H].
  cbn [fst] in H. subst. now rewrite String.eqb_refl in E.
Qed.

(** X4.  Selecting a configuration blanks the display and asks the new
    server: every label reads "N/A", the app list and the raw data show
    their loading texts, the URL and the token are those of the new
    configuration, the timer is started afresh with the unchanged interval,
    and the pool holds the requests it held, followed by one request for
    the new configuration. *)
Theorem switch_resets_display (c : config) (w : app) :
  let switched := apply_new_config c w in
  (forall k, In k (map fst (metric_labels w)) ->
     label_text k (metric_labels switched) = Some "N/A")
  /\ app_list_text switched = "Apps list loading..."
  /\ raw_data_text switched = "Fetching raw data..."
  /\ current_config switched = c
  /\ nc_url switched = url c
  /\ nc_token switched = token c
  /\ refresh_interval_ms switched = refresh_interval_ms w
  /\ timer switched = Some (refresh_interval_ms w)
  /\ thread_pool switched
     = List.app (thread_pool w) [{| worker_url := url c; worker_token := token c |}].
Proof.
  intros switched. split; [| repeat split].
  intros k Hk. unfold switched, apply_new_config, start_fetch. cbn.
  now apply label_text_reset.
Qed.

(** X5.  The refresh interval dialog.  Cancelling it, or accepting it with
    the interval that is already set, changes nothing and dispatches
    nothing.  Accepting another number of seconds sets the interval to the
    value of the spin box, between 10 and 3600 seconds, restarts the timer
    with it and dispatches one request for the current configuration; the
    display is not touched. *)
Theorem refresh_interval_dialog (outcome : option Z) (w : app) :
  let changed := set_refresh_interval_dialog outcome w in
  (outcome = None -> changed = w)
  /\ (forall entered,
        outcome = Some entered ->
        spin_box_value entered * 1000 = refresh_interval_ms w ->
        changed = w)
  /\ (forall entered,
        outcome = Some entered ->
        spin_box_value entered * 1000 <> refresh_interval_ms w ->
        refresh_interval_ms changed = spin_box_value entered * 1000
        /\ 10000 <= refresh_interval_ms changed <= 3600000
        /\ timer changed = Some (refresh_interval_ms changed)
        /\ thread_pool changed
           = List.app (thread_pool w)
               [{| worker_url := nc_url w; worker_token := nc_token w |}]
        /\ metric_labels changed = metric_labels w
        /\ app_list_text changed = app_list_text w
        /\ current_config changed = current_config w).
Proof.
  intros changed. split; [| split].
  - intros ->. reflexivity.
  - intros entered -> H. unfold changed, set_refresh_interval_dialog.
    apply Z.eqb_eq in H. now rewrite H.
  - intros entered -> H. unfold changed, set_refresh_interval_dialog.
    apply Z.eqb_neq in H. rewrite H. cbn.
    pose proof (spin_box_value_range entered). repeat split; lia.
Qed.

Lemma selection_from_spec (configs : list config) (current : config)
    (idx sel : nat) :
  (selection_from configs current idx sel = sel
   /\ Forall (fun c => name c <> name current) configs)
  \/ (exists (j : nat) (c : config),
        selection_from configs current idx sel = (idx + j)%nat
        /\ nth_error configs j = Some c
        /\ name c = name current
        /\ Forall (fun c' => name c' <> name current) (skipn (S j) configs)).
Proof.
  revert idx sel. induction configs as [| c rest IH]; intros idx sel.
  - left. split; [reflexivity | constructor].
  - cbn [selection_from].
    destruct (IH (S idx) (if String.eqb (name c) (name current) then idx else sel))
      as [(H & HF) | (j & c' & H & Hj & Hc & HF)].
    + destruct (String.eqb (name c) (name current)) eqn:E.
      * right. exists 0%nat, c. rewrite H, Nat.add_0_r.
        apply String.eqb_eq in E. auto.
      * left. split; [exact H |]. constructor; [| exact HF].
        now apply String.eqb_neq.
    + right. exists (S j), c'. rewrite H. split; [lia | auto].
Qed.

(** X6.  The server selection dialog opens on the last row whose
    configuration has the name of the current one, if there is one; on the
    first row when the list has configurations but none of that name; and
    on no row when the list is empty. *)
Theorem initial_selection (configs : list config) (current : config) :
  (Exists (fun c => name c = name current) configs ->
   exists (i : nat) (c : config),
     initial_row configs current = Some i
     /\ nth_error configs i = Some c
     /\ name c = name current
     /\ Forall (fun c' => name c' <> name current) (skipn (S i) configs))
  /\ (Forall (fun c => name c <> name current) configs ->
      initial_row configs current = if is_nil configs then None else Some 0%nat)
  /\ initial_row [] current = None.
Proof.
  unfold initial_row.
  destruct (selection_from_spec configs current 0 0)
    as [(H & HF) | (j & c & H & Hj & Hc & HF)].
  - split; [| split; [intros _; now rewrite H | reflexivity]].
    intros HE. exfalso. apply Exists_exists in HE. destruct HE as (c & Hin & Hc).
    rewrite Forall_forall in HF. now apply (HF c Hin).
  - split; [| split; [| reflexivity]].
    + intros _. exists j, c. rewrite H.
      destruct configs; [destruct j; discriminate Hj |]. cbn [is_nil]. auto.
    + intros HF'. exfalso. rewrite Forall_forall in HF'.
      apply (HF' c); [now apply nth_error_In in Hj | exact Hc].
Qed.

(** ** The request and the reply *)

Lemma rstrip_repeat (c : ascii) (n : nat) : rstrip c (repeat_char c n) = "".
Proof.
  induction n as [| n IH]; [reflexivity |].
  cbn [repeat_char rstrip]. rewrite IH, Ascii.eqb_refl. reflexivity.
Qed.

Lemma rstrip_app_repeat (c : ascii) (s : string) (n : nat) :
  rstrip c (s ++ repeat_char c n) = rstrip c s.
Proof.
  induction s as [| a r IH]; cbn [append rstrip].
  - apply rstrip_repeat.
  - now rewrite IH.
Qed.

Lemma rstrip_spec (c : ascii) (s : string) :
  (exists n : nat, s = rstrip c s ++ repeat_char c n)
  /\ last_char (rstrip c s) <> Some c.
Proof.
  induction s as [| a r (([| n] & Hn) & Hlast)]; cbn [rstrip].
  - split; [exists 0%nat; reflexivity | discriminate].
  - destruct (String.eqb (rstrip c r) "") eqn:E; cbn [andb].
    + apply String.eqb_eq in E. rewrite E in *. cbn in Hn. subst r.
      destruct (Ascii.eqb a c) eqn:Ea.
      * apply Ascii.eqb_eq in Ea. subst a.
        split; [exists 1%nat; reflexivity | discriminate].
      * split; [exists 0%nat; reflexivity |].
        cbn. apply Ascii.eqb_neq in Ea. congruence.
    + split.
      * exists 0%nat. cbn [append]. now rewrite <- Hn.
      * cbn [last_char]. destruct (rstrip c r); [discriminate E | exact Hlast].
  - destruct (String.eqb (rstrip c r) "") eqn:E; cbn [andb].
    + apply String.eqb_eq in E. rewrite E in *. cbn [append] in Hn.
      destruct (Ascii.eqb a c) eqn:Ea.
      * apply Ascii.eqb_eq in Ea. subst a.
        split; [| discriminate].
        exists (S (S n)). cbn [append repeat_char]. now rewrite Hn.
      * split; [exists (S n); cbn [append]; now rewrite Hn |].
        cbn. apply Ascii.eqb_neq in Ea. congruence.
    + split.
      * exists (S n). cbn [append]. now rewrite <- Hn.
      * cbn [last_char]. destruct (rstrip c r); [discriminate E | exact Hlast].
Qed.

(** X7.  The address of the request does not depend on slashes at the end
    of the configured URL: it is the URL without them, which ends with
    another character or is empty, followed by the path of the API. *)
Theorem api_url_trailing_slashes (nc_url : string) :
  (forall n : nat, api_url (nc_url ++ repeat_char "/" n) = api_url nc_url)
  /\ exists (base : string) (n : nat),
       nc_url = base ++ repeat_char "/" n
       /\ last_char base <> Some "/"%char
       /\ api_url nc_url = base ++ API_SUFFIX.
Proof.
  split.
  - intros n. unfold api_url. now rewrite rstrip_app_repeat.
  - destruct (rstrip_spec "/" nc_url) as ((n & Hn) & Hlast).
    exists (rstrip "/" nc_url), n. repeat split; assumption.
Qed.

Lemma is_ok_text (v : pyval) : is_ok v = true -> v = PStr "ok".
Proof.
  destruct v; try discriminate. cbn [is_ok]. intros H.
  apply String.eqb_eq in H. now subst.
Qed.

Lemma check_envelope_ok (data : pyval) (d : pyval) :
  check_envelope data = inr d <->
  d = data
  /\ exists dd od md,
       data = PDict dd
       /\ lookup "ocs" dd = Some (PDict od)
       /\ lookup "meta" od = Some (PDict md)
       /\ lookup "status" md = Some (PStr "ok").
Proof.
  split.
  - unfold check_envelope. intros H.
    destruct data as [| | | | | | dd]; try discriminate H.
    cbn [get_or_text] in H.
    destruct (lookup "ocs" dd) as [ocs |] eqn:Eocs.
    + destruct ocs as [| | | | | | od]; try discriminate H.
      cbn [get_or_text] in H.
      destruct (lookup "meta" od) as [meta |] eqn:Emeta.
      * destruct meta as [| | | | | | md]; try discriminate H.
        cbn [get_or_text] in H.
        destruct (lookup "status" md) as [status |] eqn:Est.
        -- destruct (is_ok status) eqn:Eok.
           ++ apply is_ok_text in Eok. subst status. injection H as <-.
              split; [reflexivity |]. exists dd, od, md. auto.
           ++ destruct (lookup "message" md); discriminate H.
        -- cbn [is_ok] in H. destruct (lookup "message" md); discriminate H.
      * cbn in H. discriminate H.
    + cbn in H. discriminate H.
  - intros (-> & dd & od & md & -> & H1 & H2 & H3).
    unfold check_envelope. cbn [get_or_text]. rewrite H1. cbn [get_or_text].
    rewrite H2. cbn [get_or_text]. rewrite H3. reflexivity.
Qed.

(** X8.  [fetch_metrics] returns data only for a reply whose body is a
    mapping with the status "ok" in its 'ocs' / 'meta' envelope, and then
    returns the body as it is; the 'ocs' group of returned data can always
    be read. *)
Theorem fetch_metrics_success (reply : http_reply) (data : pyval) :
  fetch_metrics reply = Fetched data <->
  reply = JsonBody data
  /\ exists dd od md,
       data = PDict dd
       /\ lookup "ocs" dd = Some (PDict od)
       /\ lookup "meta" od = Some (PDict md)
       /\ lookup "status" md = Some (PStr "ok")
       /\ py_getitem data "ocs" = Ok (PDict od).
Proof.
  split.
  - destruct reply as [err | err | | err | body]; try discriminate.
    cbn [fetch_metrics].
    destruct (check_envelope body) as [e | d] eqn:E; [discriminate |].
    intros H. injection H as ->.
    apply check_envelope_ok in E.
    destruct E as (-> & dd & od & md & -> & H1 & H2 & H3).
    split; [reflexivity |]. exists dd, od, md. repeat split; try assumption.
    cbn [py_getitem]. now rewrite H1.
  - intros (-> & dd & od & md & Hd & H1 & H2 & H3 & _).
    cbn [fetch_metrics].
    assert (E : check_envelope data = inr data).
    { apply check_envelope_ok. split; [reflexivity |]. exists dd, od, md. auto. }
    now rewrite E.
Qed.

(** ** Further properties of the payload processing *)

(** X9.  Without a usable start time the uptime reads
    "N/A or Fresh Start": when the start time coerces to 0 or less, as a
    missing one does, or is not before the current time. *)
Theorem uptime_without_start (now : Z) (g : groups) (raw : pyval) (start : Z) :
  py_get (opcache_stats g) "start_time" (PInt 0) = Ok raw ->
  safe_int raw = Ok start ->
  start <= 0 \/ now <= start ->
  php_uptime now g = Ok "N/A or Fresh Start".
Proof.
  intros Hraw Hstart H. rewrite (php_uptime_eq now g raw start Hraw Hstart).
  replace (uptime_seconds now start) with 0; [reflexivity |].
  unfold uptime_seconds.
  destruct (0 <? start) eqn:E1; destruct (start <? now) eqn:E2;
    cbn [andb]; try reflexivity.
  apply Z.ltb_lt in E1, E2. lia.
Qed.

(** X10.  The three load values are the first three items of the 'cpuload'
    list: an item that a shorter list lacks counts as 0, and items after
    the third are ignored. *)
Theorem cpu_load_padded (g : groups) (h : health) (l : list pyval) :
  py_get (system_info g) "cpuload" (PList [PInt 0; PInt 0; PInt 0]) = Ok (PList l) ->
  system_health g = Ok h ->
  cpu_load h = [nth 0 l (PInt 0); nth 1 l (PInt 0); nth 2 l (PInt 0)]
  /\ cpu_load h = firstn 3 (List.app l [PInt 0; PInt 0; PInt 0]).
Proof.
  intros Hl H.
  assert (E : cpu_load h = [nth 0 l (PInt 0); nth 1 l (PInt 0); nth 2 l (PInt 0)]).
  { unfold system_health in H.
    destruct (py_get (system_info g) "mem_total" (PInt 0)); [| discriminate H].
    cbn [bind] in H. destruct (safe_int _); [| discriminate H]. cbn [bind] in H.
    destruct (py_get (system_info g) "mem_free" (PInt 0)); [| discriminate H].
    cbn [bind] in H. destruct (safe_int _); [| discriminate H]. cbn [bind] in H.
    destruct (py_get (system_info g) "swap_total" (PInt 0)); [| discriminate H].
    cbn [bind] in H. destruct (safe_int _); [| discriminate H]. cbn [bind] in H.
    destruct (py_get (system_info g) "swap_free" (PInt 0)); [| discriminate H].
    cbn [bind] in H. destruct (safe_int _); [| discriminate H]. cbn [bind] in H.
    rewrite Hl in H. cbn [bind] in H. rewrite !cpu_entry_list in H.
    cbn [bind] in H. bind_inv H. injection H as <-. reflexivity. }
  split; [exact E |]. rewrite E.
  destruct l as [| x0 [| x1 [| x2 rest]]]; reflexivity.
Qed.

Lemma lookup_php_uptime_only (k : string) (g : groups) (h : health)
    (up1 up2 used_display free_display : string) (a : app_section)
    (u1 u2 : list (string * pyval)) :
  build_updates g h up1 used_display free_display a = Ok u1 ->
  build_updates g h up2 used_display free_display a = Ok u2 ->
  k <> "php_uptime_val" ->
  lookup k u1 = lookup k u2.
Proof.
  unfold build_updates. intros H1 H2 Hk. revert H2.
  repeat match type of H1 with
         | bind ?c _ = Ok _ =>
             destruct c; [cbn [bind] in H1; cbn [bind] | discriminate H1]
         end.
  intros H2. injection H1 as <-. injection H2 as <-.
  cbn [lookup]. apply String.eqb_neq in Hk. rewrite Hk. reflexivity.
Qed.

(** X11.  The time of the processing shows in the uptime only: two
    snapshots of one payload, taken at any two times, agree on the app list
    and on every item but 'php_uptime_val'. *)
Theorem snapshot_time_independent (now1 now2 : Z) (data : pyval)
    (snap1 snap2 : snapshot) :
  normalize now1 data = Ok snap1 ->
  normalize now2 data = Ok snap2 ->
  app_list snap1 = app_list snap2
  /\ forall k, k <> "php_uptime_val" ->
       lookup k (updates snap1) = lookup k (updates snap2).
Proof.
  intros H1 H2.
  apply normalize_sections in H1, H2.
  destruct H1 as (g & h & up1 & su & sf & a & Eg & Eh & _ & Est & Ea & Eu1 & El1).
  destruct H2 as (g' & h' & up2 & su' & sf' & a' & Eg' & Eh' & _ & Est' & Ea' & Eu2 & El2).
  rewrite Eg in Eg'. injection Eg' as <-.
  rewrite Eh in Eh'. injection Eh' as <-.
  rewrite Est in Est'. injection Est' as <- <-.
  rewrite Ea in Ea'. injection Ea' as <-.
  split; [congruence |].
  intros k Hk. now apply (lookup_php_uptime_only k g h up1 up2 su sf a).
Qed.

(** ** Further properties of the coercion *)

(** X12.  What is no number coerces to 0: [None], the empty text, a text
    that [float] rejects or reads as NaN, a NaN, a list and a dict. *)
Theorem safe_int_not_a_number (v : pyval) :
  v = PNone
  \/ (exists s, v = PStr s
                /\ (s = "" \/ float_of_str s = None \/ float_of_str s = Some S754_nan))
  \/ v = PFloat S754_nan
  \/ (exists l, v = PList l)
  \/ (exists d, v = PDict d) ->
  safe_int v = Ok 0.
Proof.
  intros [-> | [(s & -> & H) | [-> | [(l & ->) | (d & ->)]]]]; try reflexivity.
  destruct s as [| a r]; [reflexivity |].
  destruct H as [H | [H | H]]; [discriminate H | |];
    unfold safe_int, py_float; rewrite H; reflexivity.
Qed.

(** X13.  The only exception that [safe_int] lets through is the
    [OverflowError] of a value beyond the floats: an int that rounds to
    2^1024 or more in magnitude, an infinite float, or a text read as one. *)
Theorem safe_int_raises (v : pyval) (e : exn) :
  safe_int v = Raise e <->
  e = OverflowError
  /\ ((exists z, v = PInt z /\ 2 ^ 1024 <= Z.abs (round_to_double z))
      \/ (exists s, v = PFloat (S754_infinity s))
      \/ (exists t s, v = PStr t /\ t <> ""
                      /\ float_of_str t = Some (S754_infinity s))).
Proof.
  split.
  - destruct v as [| b | z | f | t | l | d]; try discriminate.
    + destruct b; discriminate.
    + rewrite safe_int_int.
      destruct (2 ^ 1024 <=? Z.abs (round_to_double z)) eqn:E; [| discriminate].
      intros H. injection H as <-. split; [reflexivity |].
      left. exists z. split; [reflexivity | now apply Z.leb_le].
    + rewrite safe_int_float.
      destruct f as [s | s | | s m x]; try discriminate.
      intros H. injection H as <-. split; [reflexivity |]. right. left. now exists s.
    + destruct t as [| a r]; [discriminate |].
      unfold safe_int, py_float.
      destruct (float_of_str (String a r)) as [f |] eqn:E; [| discriminate].
      destruct f as [s | s | | s m x]; try discriminate.
      intros H. injection H as <-. split; [reflexivity |].
      right. right. exists (String a r), s. repeat split; [discriminate | exact E].
  - intros (-> & [(z & -> & H) | [(s & ->) | (t & s & -> & Ht & H)]]).
    + rewrite safe_int_int. apply Z.leb_le in H. now rewrite H.
    + reflexivity.
    + destruct t as [| a r]; [now elim Ht |].
      unfold safe_int, py_float. rewrite H. reflexivity.
Qed.

(** X14.  A finite float is cut off towards zero: its integer part keeps
    the sign, and is the whole value when the exponent is not negative. *)
Theorem safe_int_truncates (s : bool) (m : positive) (e : Z) :
  exists a : Z,
    safe_int (PFloat (S754_finite s m e)) = Ok (if s then - a else a)
    /\ 0 <= a
    /\ (0 <= e -> a = Zpos m * 2 ^ e)
    /\ (e < 0 -> a * 2 ^ (- e) <= Zpos m < (a + 1) * 2 ^ (- e)).
Proof.
  exists (if 0 <=? e then Z.shiftl (Zpos m) e else Z.shiftr (Zpos m) (- e)).
  split; [reflexivity |].
  destruct (0 <=? e) eqn:E.
  - apply Z.leb_le in E. rewrite Z.shiftl_mul_pow2 by exact E.
    assert (0 < 2 ^ e) by (apply Z.pow_pos_nonneg; lia).
    repeat split; nia.
  - apply Z.leb_gt in E. rewrite Z.shiftr_div_pow2 by lia.
    assert (Hp : 0 < 2 ^ (- e)) by (apply Z.pow_pos_nonneg; lia).
    pose proof (Z.div_mod (Zpos m) (2 ^ (- e)) ltac:(lia)) as Hd.
    pose proof (Z.mod_pos_bound (Zpos m) (2 ^ (- e)) Hp) as Hm.
    assert (0 <= Zpos m / 2 ^ (- e)) by (apply Z.div_pos; lia).
    repeat split; try lia; nia.
Qed.

(** X15.  An int that was coerced stays as it is when it is coerced again,
    as [format_bytes] does with the byte counts: it is then formatted
    without an exception. *)
Theorem safe_int_idempotent (z r : Z) :
  safe_int (PInt z) = Ok r ->
  r = round_to_double z
  /\ safe_int (PInt r) = Ok r
  /\ format_bytes (PInt r) = Ok (format_bytes_int r).
Proof.
  rewrite safe_int_int.
  destruct (2 ^ 1024 <=? Z.abs (round_to_double z)) eqn:E; [discriminate |].
  intros H. injection H as <-.
  assert (Hr : safe_int (PInt (round_to_double z)) = Ok (round_to_double z)).
  { rewrite safe_int_int, round_to_double_idempotent, E. reflexivity. }
  split; [reflexivity |]. split; [exact Hr |].
  unfold format_bytes. now rewrite Hr.
Qed.

(** ** Further properties of the texts *)

(** X16.  The loop of [format_timedelta] splits a duration without loss:
    the counts of years, days, hours and minutes and the seconds left over
    add up to it, with fewer than 365 days, 24 hours, 60 minutes and 60
    seconds. *)
Theorem timedelta_decomposition (u : Z) :
  0 <= u ->
  let y := u / 31536000 in
  let d := u mod 31536000 / 86400 in
  let h := u mod 86400 / 3600 in
  let m := u mod 3600 / 60 in
  fold_left timedelta_step intervals (u, []) = (u mod 60, uptime_components u)
  /\ uptime_units u = [(y, "year"); (d, "day"); (h, "hour"); (m, "minute")]
  /\ u = y * 31536000 + d * 86400 + h * 3600 + m * 60 + u mod 60
  /\ 0 <= y /\ 0 <= d < 365 /\ 0 <= h < 24 /\ 0 <= m < 60 /\ 0 <= u mod 60 < 60.
Proof.
  intros Hu y d h m.
  split; [apply timedelta_loop |]. split; [reflexivity |].
  pose proof (Z.div_mod u 31536000 ltac:(lia)).
  pose proof (Z.mod_pos_bound u 31536000 ltac:(lia)).
  pose proof (Z.div_mod (u mod 31536000) 86400 ltac:(lia)).
  pose proof (Z.mod_pos_bound (u mod 31536000) 86400 ltac:(lia)).
  pose proof (Z.mod_mod_divide u 31536000 86400 ltac:(exists 365; reflexivity)).
  pose proof (Z.div_mod (u mod 86400) 3600 ltac:(lia)).
  pose proof (Z.mod_pos_bound (u mod 86400) 3600 ltac:(lia)).
  pose proof (Z.mod_mod_divide u 86400 3600 ltac:(exists 24; reflexivity)).
  pose proof (Z.div_mod (u mod 3600) 60 ltac:(lia)).
  pose proof (Z.mod_pos_bound (u mod 3600) 60 ltac:(lia)).
  pose proof (Z.mod_mod_divide u 3600 60 ltac:(exists 60; reflexivity)).
  pose proof (Z.mod_pos_bound u 86400 ltac:(lia)).
  pose proof (Z.mod_pos_bound u 3600 ltac:(lia)).
  assert (0 <= y) by (apply Z.div_pos; lia).
  assert (0 <= d) by (apply Z.div_pos; lia).
  assert (0 <= h) by (apply Z.div_pos; lia).
  assert (0 <= m) by (apply Z.div_pos; lia).
  unfold y, d, h, m in *. repeat split; lia.
Qed.

(** X17.  Whatever the logarithm gives, [format_bytes] names one of its
    nine units after a number and a space, or returns "0 Bytes"; a negative
    count is given in Bytes. *)
Theorem format_bytes_unit (n : Z) :
  (n = 0 /\ format_bytes_int n = "0 Bytes")
  \/ (n <> 0
      /\ exists (i : nat) (number : string),
           (i <= 8)%nat
           /\ nth_error sizes i = Some (nth i sizes "")
           /\ format_bytes_int n = number ++ " " ++ nth i sizes ""
           /\ (n < 0 -> i = 0%nat)
           /\ (0 < n -> i = Nat.min (floor_log n) 8)).
Proof.
  destruct (Z.eq_dec n 0) as [-> | Hn]; [left; split; reflexivity |].
  right. split; [exact Hn |].
  unfold format_bytes_int.
  replace (n =? 0) with false by (symmetry; now apply Z.eqb_neq).
  destruct (0 <? n) eqn:E.
  - exists (Nat.min (floor_log n) 8), (fixed2 (n <? 0) (Z.abs n) (- (10 * Z.of_nat (Nat.min (floor_log n) 8)))).
    apply Z.ltb_lt in E.
    assert (Hi : (Nat.min (floor_log n) 8 <= 8)%nat) by lia.
    repeat split; try lia; try reflexivity; apply nth_error_nth'; cbn; lia.
  - exists 0%nat, (fixed2 (n <? 0) (Z.abs n) (- (10 * Z.of_nat 0))).
    apply Z.ltb_ge in E. repeat split; try lia; reflexivity.
Qed.

(** ** The configuration files *)

(** X18.  [read_config_file] accepts a file exactly when it has two usable
    lines and the first one starts with "http"; it then returns these two
    lines, stripped, whatever follows them. *)
Theorem read_config_file_accepts (config_filepath : string)
    (content : file_content) (nc_url nc_token : string) :
  read_config_file config_filepath content = inr (nc_url, nc_token) <->
  exists (f rest : list string),
    content = FileLines f
    /\ usable_lines f = nc_url :: nc_token :: rest
    /\ String.prefix "http" nc_url = true.
Proof.
  split.
  - destruct content as [| err | f]; try discriminate. cbn [read_config_file].
    destruct (usable_lines f) as [| u [| t rest]] eqn:E; try discriminate.
    destruct (String.prefix "http" u) eqn:Ep; [| discriminate].
    intros H. injection H as <- <-. exists f, rest. auto.
  - intros (f & rest & -> & E & Ep). cbn [read_config_file].
    now rewrite E, Ep.
Qed.

Lemma filter_none {A : Type} (p : A -> bool) (l : list A) :
  Forall (fun x => p x = false) l -> filter p l = [].
Proof.
  induction 1 as [| x l Hx _ IH]; [reflexivity |].
  cbn [filter]. now rewrite Hx.
Qed.

(** X19.  Blank lines and lines that start with [#] do not count, wherever
    they stand: the URL and the token are the first two other lines,
    stripped, and the lines after the token are not read.  Such a file is
    accepted when its URL starts with "http" and rejected otherwise. *)
Theorem read_config_file_skips (config_filepath : string)
    (before between after : list string) (url_line token_line : string) :
  Forall (fun line => usable line = false) before ->
  Forall (fun line => usable line = false) between ->
  usable url_line = true ->
  usable token_line = true ->
  let f := List.app before (url_line :: List.app between (token_line :: after)) in
  (String.prefix "http" (str_strip url_line) = true ->
   read_config_file config_filepath (FileLines f)
   = inr (str_strip url_line, str_strip token_line))
  /\ (String.prefix "http" (str_strip url_line) = false ->
      exists message, read_config_file config_filepath (FileLines f) = inl message).
Proof.
  intros Hb Hm Hu Ht f.
  assert (E : exists rest,
             usable_lines f = str_strip url_line :: str_strip token_line :: rest).
  { unfold usable_lines, f.
    rewrite filter_app, (filter_none _ _ Hb). cbn [List.app filter]. rewrite Hu.
    rewrite filter_app, (filter_none _ _ Hm). cbn [List.app filter]. rewrite Ht.
    cbn [map]. eauto. }
  destruct E as (rest & E).
  split; intros Hp; cbn [read_config_file]; rewrite E, Hp; eauto.
Qed.

Lemma read_config_file_http (config_filepath : string) (content : file_content)
    (nc_url nc_token : string) :
  read_config_file config_filepath content = inr (nc_url, nc_token) ->
  String.prefix "http" nc_url = true.
Proof.
  destruct content as [| err | f]; try discriminate. cbn [read_config_file].
  destruct (usable_lines f) as [| u [| t rest]]; try discriminate.
  destruct (String.prefix "http" u) eqn:Ep; [| discriminate].
  intros H. now injection H as <- <-.
Qed.

Lemma load_config_cases (script_dir : string) (read_file : string -> file_content)
    (filename : string) :
  load_config script_dir read_file filename = []
  \/ exists c,
       load_config script_dir read_file filename = [c]
       /\ CONFIG_FILE_PATTERN_match filename = true
       /\ path c = path_join script_dir filename
       /\ read_config_file (path c) (read_file (path c)) = inr (url c, token c)
       /\ name c = "[" ++ remove_txt filename ++ "] "
                     ++ rstrip "/" (last_piece (url c) "").
Proof.
  unfold load_config.
  destruct (CONFIG_FILE_PATTERN_match filename); [| now left].
  destruct (read_config_file _ _) as [message | [u t]] eqn:E; [now left |].
  right. eexists. split; [reflexivity |]. cbn. auto.
Qed.

Lemma find_and_load_configs_none (script_dir : string)
    (read_file : string -> file_content) (listing : list string) :
  find_and_load_configs script_dir read_file listing = [] <->
  Forall (fun filename => loads script_dir read_file filename = false) listing.
Proof.
  unfold find_and_load_configs.
  induction listing as [| filename listing IH]; [split; constructor |].
  cbn [flat_map]. split; intros H.
  - apply app_eq_nil in H. destruct H as (H1 & H2).
    constructor; [| now apply IH]. unfold loads. now rewrite H1.
  - inversion H as [| ? ? H1 H2]; subst. unfold loads in H1.
    destruct (load_config script_dir read_file filename); [| discriminate H1].
    now apply IH.
Qed.

(** X20.  Every configuration that [find_and_load_configs] returns comes
    from an entry of the directory whose name matches the pattern and
    whose file was accepted, so that its URL starts with "http"; the
    configurations follow the order of the directory, one for each entry
    that loads; and the program starts without a window exactly when no
    entry loads. *)
Theorem find_and_load_configs_spec (script_dir : string)
    (read_file : string -> file_content) (listing : list string) :
  let configs := find_and_load_configs script_dir read_file listing in
  (forall c, In c configs ->
     exists filename,
       In filename listing
       /\ CONFIG_FILE_PATTERN_match filename = true
       /\ path c = path_join script_dir filename
       /\ read_config_file (path c) (read_file (path c)) = inr (url c, token c)
       /\ String.prefix "http" (url c) = true
       /\ name c = "[" ++ remove_txt filename ++ "] "
                     ++ rstrip "/" (last_piece (url c) ""))
  /\ map path configs
     = map (path_join script_dir) (filter (loads script_dir read_file) listing)
  /\ (main configs = None <->
      Forall (fun filename => loads script_dir read_file filename = false) listing).
Proof.
  intros configs. split; [| split].
  - intros c Hc. unfold configs, find_and_load_configs in Hc.
    apply in_flat_map in Hc. destruct Hc as (filename & Hin & Hc).
    destruct (load_config_cases script_dir read_file filename)
      as [E | (c' & E & H1 & H2 & H3 & H4)]; rewrite E in Hc; [destruct Hc |].
    destruct Hc as [<- | []]. exists filename. repeat split; try assumption.
    now apply read_config_file_http in H3.
  - unfold configs, find_and_load_configs.
    induction listing as [| filename listing IH]; [reflexivity |].
    cbn [flat_map filter]. rewrite map_app, IH. unfold loads at 2.
    destruct (load_config_cases script_dir read_file filename)
      as [E | (c' & E & _ & H2 & _)]; rewrite E; cbn; [reflexivity |].
    now rewrite H2.
  - pose proof (find_and_load_configs_none script_dir read_file listing) as H.
    fold configs in H.
    rewrite <- H. unfold main. destruct configs; split; congruence.
Qed.

Lemma last_piece_step (a : ascii) (r cur : string) :
  Ascii.eqb a "/" = false -> r <> "" ->
  last_piece (String a r) cur = last_piece r (cur ++ String a "").
Proof.
  intros Ha Hr. destruct r as [| c' r']; [now elim Hr |].
  cbn [last_piece]. rewrite Ha. reflexivity.
Qed.

Lemma last_piece_whole (s cur : string) :
  no_double_slash s = true -> last_piece s cur = cur ++ s.
Proof.
  revert cur. induction s as [| c r IH]; intros cur H.
  - cbn [last_piece]. clear H. induction cur as [| a cur IH]; cbn [append];
      [reflexivity | f_equal; exact IH].
  - destruct r as [| c' r']; [reflexivity |].
    cbn [no_double_slash] in H. apply andb_true_iff in H. destruct H as (H1 & H2).
    apply negb_true_iff in H1.
    change (last_piece (String c (String c' r')) cur)
      with (if Ascii.eqb c "/" && Ascii.eqb c' "/" then last_piece r' ""
            else last_piece (String c' r') (cur ++ String c "")).
    rewrite H1, IH by exact H2. now rewrite append_assoc.
Qed.

Lemma last_piece_after_scheme (scheme rest cur : string) :
  free_of "/" scheme = true ->
  no_double_slash rest = true ->
  last_piece (scheme ++ "//" ++ rest) cur = rest.
Proof.
  intros Hs Hr. revert cur. induction scheme as [| a sr IH]; intros cur.
  - cbn [append last_piece Ascii.eqb Bool.eqb andb]. now rewrite last_piece_whole.
  - cbn [free_of] in Hs. apply andb_true_iff in Hs. destruct Hs as (Ha & Hs).
    apply negb_true_iff in Ha. cbn [append].
    rewrite last_piece_step; [now apply IH | exact Ha |].
    destruct sr; discriminate.
Qed.

Lemma remove_txt_cons (a : ascii) (r : string) :
  Ascii.eqb a "." = false -> remove_txt (String a r) = String a (remove_txt r).
Proof.
  intros Ha. destruct r as [| c2 [| c3 [| c4 r4]]]; try reflexivity.
  change (remove_txt (String a (String c2 (String c3 (String c4 r4)))))
    with (if Ascii.eqb a "." && Ascii.eqb c2 "t" && Ascii.eqb c3 "x"
             && Ascii.eqb c4 "t"
          then remove_txt r4
          else String a (remove_txt (String c2 (String c3 (String c4 r4))))).
  now rewrite Ha.
Qed.

Lemma remove_txt_word (word : string) :
  free_of "." word = true -> remove_txt (word ++ ".txt") = word.
Proof.
  induction word as [| a w IH]; intros H; [reflexivity |].
  cbn [free_of] in H. apply andb_true_iff in H. destruct H as (Ha & Hw).
  apply negb_true_iff in Ha. cbn [append].
  rewrite remove_txt_cons by exact Ha. now rewrite IH.
Qed.

(** X21.  The display name of a configuration loaded from
    [ncmonitor<word>.txt] with the URL [<scheme>//<rest>], where [rest] has
    no two slashes in a row, is [[ncmonitor<word>] <rest>] without the
    slashes at the end of [rest]. *)
Theorem config_display_name (script_dir : string)
    (read_file : string -> file_content) (word scheme rest : string) (c : config) :
  free_of "." word = true ->
  free_of "/" scheme = true ->
  no_double_slash rest = true ->
  load_config script_dir read_file ("ncmonitor" ++ word ++ ".txt") = [c] ->
  url c = scheme ++ "//" ++ rest ->
  name c = "[ncmonitor" ++ word ++ "] " ++ rstrip "/" rest
  /\ last_char (rstrip "/" rest) <> Some "/"%char.
Proof.
  intros Hw Hs Hr Hc Hu.
  destruct (load_config_cases script_dir read_file ("ncmonitor" ++ word ++ ".txt"))
    as [E | (c' & E & _ & _ & _ & Hn)]; rewrite E in Hc; [discriminate Hc |].
  injection Hc as ->. split; [| apply rstrip_spec].
  rewrite Hn, Hu, last_piece_after_scheme by assumption.
  cbn [append]. rewrite !remove_txt_cons by reflexivity.
  now rewrite remove_txt_word.
Qed.

End Platform.

(** * The properties on sample data *)

(** An uptime of 3700 seconds reads "1 hour, 1 minute". *)
Lemma uptime_rendering_witness :
  format_timedelta no_float_text (PInt (uptime_seconds 1700003700 1700000000))
  = Ok "1 hour, 1 minute".
Proof.
  destruct (uptime_rendering no_float_text 1700003700 1700000000)
    as (_ & _ & _ & _ & H).
  - split; [discriminate | reflexivity].
  - apply H. discriminate.
Defined.

(** 3700 seconds are shown as one to three unit components. *)
Lemma format_timedelta_shapes_witness :
  safe_int no_float_text (PInt 3700) = Ok 3700
  /\ exists comps : list string,
       format_timedelta no_float_text (PInt 3700) = Ok (String.concat ", " comps)
       /\ (1 <= List.length comps <= 3)%nat
       /\ Forall unit_component comps.
Proof.
  split; [reflexivity |].
  destruct (format_timedelta_shapes no_float_text (PInt 3700)) as (_ & H).
  destruct (H 3700 eq_refl) as (_ & _ & H3).
  apply H3. discriminate.
Defined.

(** Both storage fields 0: the system free space of 5000 bytes is shown;
    2048 bytes used: both fields are shown as they are. *)
Lemma storage_fallback_witness :
  storage_overview no_float_text exact_floor_log
    (sample_groups [("freespace", PInt 5000)] [("used", PInt 0); ("free", PInt 0)])
  = Ok ("0 Bytes (Data Missing)", "4.88 KB (System Freespace)")
  /\ storage_overview no_float_text exact_floor_log
       (sample_groups [("freespace", PInt 5000)] [("used", PInt 2048); ("free", PInt 0)])
     = Ok ("2.00 KB", "0 Bytes").
Proof.
  split.
  - destruct (storage_fallback no_float_text exact_floor_log
                (sample_groups [("freespace", PInt 5000)]
                   [("used", PInt 0); ("free", PInt 0)])
                (PInt 0) (PInt 0) 0 0 eq_refl eq_refl eq_refl eq_refl) as (H & _).
    exact (H (conj eq_refl eq_refl) (PInt 5000) 5000 eq_refl eq_refl).
  - destruct (storage_fallback no_float_text exact_floor_log
                (sample_groups [("freespace", PInt 5000)]
                   [("used", PInt 2048); ("free", PInt 0)])
                (PInt 0) (PInt 2048) 0 2048 eq_refl eq_refl eq_refl eq_refl)
      as (_ & H).
    apply H. intros (H1 & _). discriminate H1.
Defined.

(** An 'enabled' field that is a string gives the fixed text; a bare name and
    a record give two lines in order. *)
Lemma app_summary_spec_witness :
  app_summary plain_text (sample_data [] [] apps_malformed) = Ok app_missing
  /\ exists lines : list string,
       app_summary plain_text (sample_data [] [] apps_listed)
       = Ok {| enabled_app_lines_str := String.concat newline lines;
               enabled_app_count := PInt 2;
               total_app_count := PInt 3 |}
       /\ Permutation ["files: vN/A"; "calendar: v4.5.1"] lines
       /\ Sorted leb_true lines
       /\ List.length lines = 2%nat.
Proof.
  split.
  - destruct (app_summary_spec plain_text (sample_data [] [] apps_malformed)
                _ _ eq_refl eq_refl) as (H & _).
    apply H. right. right.
    exists [("enabled", PStr "files"); ("installed", PList [])], (PStr "files").
    repeat split. now left.
  - destruct (app_summary_spec plain_text (sample_data [] [] apps_listed)
                _ _ eq_refl eq_refl) as (_ & H & _).
    destruct (H [PStr "files";
                 PDict [("id", PStr "calendar"); ("version", PStr "4.5.1")]]
                [PStr "files"; PStr "calendar"; PStr "mail"])
      as (lines & H1 & H2 & H3 & H4).
    + eexists. repeat split. discriminate.
    + exists lines. repeat split; try assumption.
      apply H4. repeat constructor.
Defined.

(** An app group without an 'enabled' field is not reported as missing: the
    list of apps is empty and the counts are 0 and the number of installed
    apps. *)
Lemma enabled_absent_not_degraded :
  lookup "enabled" [("installed", PList [PStr "files"])] = None
  /\ app_summary plain_text (sample_data [] [] apps_without_enabled)
     = Ok {| enabled_app_lines_str := "";
             enabled_app_count := PInt 0;
             total_app_count := PInt 1 |}
  /\ app_summary plain_text (sample_data [] [] apps_without_enabled)
     <> Ok app_missing.
Proof. repeat split. discriminate. Qed.

(** The message raised for the envelope of [failure_body] is not the message
    of the server alone. *)
Lemma api_error_message_wrapped :
  fetch_metrics plain_text (JsonBody failure_body)
  = FetchException "An unexpected error occurred: API Status Error: Invalid token"
  /\ fetch_metrics plain_text (JsonBody failure_body)
     <> FetchException "Invalid token".
Proof. split; [reflexivity | discriminate]. Qed.

(** The message raised for [failure_body] ends with the prefixed message of
    the server. *)
Lemma api_status_error_message_witness :
  exists prefix : string,
    fetch_metrics plain_text (JsonBody failure_body)
    = FetchException (prefix ++ "API Status Error: " ++ "Invalid token").
Proof.
  destruct (api_status_error_message plain_text failure_body
              (PDict [("meta",
                       PDict [("status", PStr "failure");
                              ("message", PStr "Invalid token")])])
              [("status", PStr "failure"); ("message", PStr "Invalid token")]
              eq_refl eq_refl) as (H & _).
  - intros status E. injection E as <-. reflexivity.
  - exact H.
Defined.

(** 1000 KB in total with 2000 KB free: the used memory is negative and is
    shown as such. *)
Lemma ram_used_negative :
  let g := sample_groups [("mem_total", PInt 1000); ("mem_free", PInt 2000)] [] in
  exists h : health,
    system_health no_float_text g = Ok h
    /\ ram_used h = -1024000
    /\ ram_used h < 0
    /\ format_bytes no_float_text exact_floor_log (PInt (ram_used h))
       = Ok "-1024000.00 Bytes".
Proof.
  eexists. split; [reflexivity |]. repeat split.
Qed.

(** The byte counts of the same groups, and the text of the used memory. *)
Lemma byte_counts_witness :
  let g := sample_groups [("mem_total", PInt 1000); ("mem_free", PInt 2000)] [] in
  exists (h : health) (mem_total mem_free : Z),
    system_health no_float_text g = Ok h
    /\ coerced_field no_float_text (system_info g) "mem_total" (PInt 0) = Ok mem_total
    /\ coerced_field no_float_text (system_info g) "mem_free" (PInt 0) = Ok mem_free
    /\ ram_used h = (mem_total - mem_free) * 1024
    /\ (0 <= ram_used h <-> mem_free <= mem_total)
    /\ format_bytes no_float_text exact_floor_log (PInt (ram_used h))
       = Ok "-1024000.00 Bytes".
Proof.
  intros g.
  destruct (system_health no_float_text g) as [h | e] eqn:E; [| discriminate E].
  destruct (byte_counts no_float_text exact_floor_log g h E)
    as ((mt & mf & st & sf & H1 & H2 & _ & _ & _ & H6 & _ & _ & H9 & _) & Hr & _).
  exists h, mt, mf. repeat split; try assumption; try apply H9.
  injection E as <-. rewrite Hr; reflexivity.
Defined.

(** A used amount beyond the range of the floats cannot be formatted. *)
Example used_amount_beyond_floats :
  let g := sample_groups [("mem_free", PInt (2 ^ 1020))] [] in
  exists h : health,
    system_health no_float_text g = Ok h
    /\ ram_used h = - 2 ^ 1030
    /\ format_bytes no_float_text exact_floor_log (PInt (ram_used h))
       = Raise OverflowError.
Proof. eexists. split; [reflexivity |]. split; reflexivity. Qed.



(** With the fetch of the initial configuration outstanding, every further
    call of [start_fetch] adds a request to the pool. *)
Lemma two_calls_two_fetches :
  let fetching := new_app server_a in
  let request := {| worker_url := url server_a; worker_token := token server_a |} in
  thread_pool fetching = [request]
  /\ thread_pool (start_fetch fetching) = [request; request]
  /\ thread_pool (start_fetch (start_fetch fetching)) = [request; request; request]
  /\ List.length (thread_pool (start_fetch fetching))
     <> List.length (thread_pool fetching).
Proof. repeat split. discriminate. Qed.

(** The fetch for server A is outstanding when server B is selected; when it
    completes afterwards, the labels cleared by the switch show the data of
    server A. *)
Lemma stale_fetch_overwrites_labels :
  let data_a := sample_data [("version", PStr "27.1.4")] [] [] in
  let outstanding := new_app server_a in
  let switched := apply_new_config server_b outstanding in
  let completed :=
    worker_finished no_float_text plain_text plain_text exact_floor_log
      plain_text 1700000000 0 (JsonBody data_a) switched in
  nth_error (thread_pool switched) 0
  = Some {| worker_url := url server_a; worker_token := token server_a |}
  /\ current_config completed = server_b
  /\ label_text "version_val" (metric_labels switched) = Some "N/A"
  /\ label_text "version_val" (metric_labels completed) = Some "27.1.4"
  /\ metric_labels completed <> metric_labels switched
  /\ raw_data_text completed <> raw_data_text switched.
Proof.
  vm_compute. repeat split; discriminate.
Qed.

(** The same run, through the snapshot of the data of server A. *)
Lemma stale_fetch_applied_witness :
  let data_a := sample_data [("version", PStr "27.1.4")] [] [] in
  let switched := apply_new_config server_b (new_app server_a) in
  let completed :=
    worker_finished no_float_text plain_text plain_text exact_floor_log
      plain_text 1700000000 0 (JsonBody data_a) switched in
  exists snap : snapshot,
    normalize no_float_text plain_text plain_text exact_floor_log 1700000000 data_a
    = Ok snap
    /\ metric_labels completed = apply_updates plain_text (updates snap) (metric_labels switched)
    /\ current_config completed = server_b.
Proof.
  intros data_a switched completed.
  destruct (normalize no_float_text plain_text plain_text exact_floor_log
              1700000000 data_a) as [snap | e] eqn:E; [| discriminate E].
  exists snap. split; [reflexivity |].
  destruct (stale_fetch_applied no_float_text plain_text plain_text
              exact_floor_log plain_text 1700000000 (new_app server_a) server_b
              0 {| worker_url := url server_a; worker_token := token server_a |}
              (JsonBody data_a) data_a snap eq_refl eq_refl E)
    as (_ & H1 & _ & _ & H4).
  split; [exact H1 | exact H4].
Defined.

(** A payload without 'activeUsers' gives no snapshot: the [KeyError] is
    reported and the labels keep their text. *)
Lemma missing_group_reported :
  let shown :=
    update_gui_metrics no_float_text plain_text plain_text exact_floor_log
      plain_text 1700000000 data_without_users (new_app server_a) in
  normalize no_float_text plain_text plain_text exact_floor_log 1700000000
    data_without_users
  = Raise (KeyError "activeUsers")
  /\ dialogs shown = [KeyError "activeUsers"]
  /\ status_bar shown = ErrorProcessingData
  /\ metric_labels shown = map (fun k => (k, "N/A")) label_names.
Proof. vm_compute. repeat split. Qed.

(** Groups whose only field is a free storage of 8 TB can be processed. *)
Lemma sample_groups_well_formed :
  well_formed no_float_text (sample_groups [] [("free", PInt (2 ^ 43))]).
Proof.
  constructor; try reflexivity.
  - intros total free Ht Hf. injection Ht as <-. injection Hf as <-.
    split; reflexivity.
  - intros total free Ht Hf. injection Ht as <-. injection Hf as <-.
    reflexivity.
  - intros free used Hf Hu. injection Hf as <-. injection Hu as <-.
    split; reflexivity.
  - intros size Hs. injection Hs as <-. reflexivity.
Defined.

(** The outcomes, on the payload without 'activeUsers' and on the one with
    8 TB of free storage and no other field. *)
Lemma normalize_outcome_witness :
  (exists k : string,
     normalize no_float_text plain_text plain_text exact_floor_log 1700000000
       data_without_users
     = Raise (KeyError k))
  /\ (exists snap : snapshot,
        normalize no_float_text plain_text plain_text exact_floor_log 1700000000
          (sample_data [] [("free", PInt (2 ^ 43))] [])
        = Ok snap
        /\ lookup "storage_free_val" (updates snap) = Some (PStr "8.00 TB")
        /\ Forall (fun k => exists v, lookup k (updates snap) = Some v) label_names).
Proof.
  split.
  - destruct (normalize_outcome no_float_text plain_text plain_text
                exact_floor_log plain_text 1700000000 data_without_users)
      as (H & _).
    destruct H as (k & Hk & _).
    + unfold data_without_users.
      eapply (missing_under_data _ _ _ "activeUsers");
        [reflexivity | reflexivity | | reflexivity].
      right. right. now left.
    + now exists k.
  - destruct (normalize_outcome no_float_text plain_text plain_text
                exact_floor_log plain_text 1700000000
                (sample_data [] [("free", PInt (2 ^ 43))] []))
      as (_ & _ & Hiff & Hshown).
    destruct (proj1 (Hiff (sample_groups [] [("free", PInt (2 ^ 43))])
                       eq_refl ltac:(lia))
                sample_groups_well_formed) as (snap & Hs).
    exists snap. split; [exact Hs |].
    split; [| exact (proj1 (Hshown snap Hs))].
    vm_compute in Hs. injection Hs as <-. reflexivity.
Defined.

(** The snapshot of a payload whose groups are all empty: every label gets
    its default. *)
Example empty_groups_snapshot :
  option_map (fun snap => map (fun kv => (fst kv, py_str plain_text (snd kv))) (updates snap))
    (match normalize no_float_text plain_text plain_text exact_floor_log
             1700000000 (sample_data [] [] []) with
     | Ok snap => Some snap
     | Raise _ => None
     end)
  = Some
      [ ("version_val", "N/A"); ("php_uptime_val", "N/A or Fresh Start");
        ("users_val", "0"); ("files_val", "0"); ("webserver_val", "N/A");
        ("cpunum_val", "N/A"); ("active5m_val", "0"); ("active1h_val", "0");
        ("active24h_val", "0"); ("maintenance_val", "No");
        ("failed_logins_val", "0"); ("total_shares_val", "0");
        ("local_shares_val", "0"); ("federated_shares_val", "0");
        ("public_shares_val", "0"); ("ram_used_val", "0 Bytes");
        ("ram_total_val", "0 Bytes"); ("swap_used_val", "0 Bytes");
        ("cpu1m_val", "0.00"); ("cpu5m_val", "0.00"); ("cpu15m_val", "0.00");
        ("opcache_hit_rate_val", "0.00%"); ("opcache_used_val", "0 Bytes");
        ("opcache_wasted_val", "0 Bytes");
        ("storage_used_val", "0 Bytes (Data Missing)");
        ("storage_free_val", "0 Bytes (System Freespace)");
        ("db_size_val", "0 Bytes");
        ("enabled_apps_val", "N/A (Data Missing)");
        ("app_count_val", "N/A (Data Missing)"); ("php_val", "N/A");
        ("php_memory_limit_val", "0 Bytes"); ("php_max_exec_val", "N/As");
        ("db_type_val", "N/A"); ("db_version_val", "N/A");
        ("db_host_val", "N/A") ].
Proof. vm_compute. reflexivity. Qed.

(** * The further properties on sample data *)

(** The labels of a new window show the snapshot of a payload. *)
Lemma snapshot_shown_witness :
  let data := sample_data [("version", PStr "27.1.4")] [] [] in
  let shown :=
    update_gui_metrics no_float_text plain_text plain_text exact_floor_log
      plain_text 1700000000 data (new_app server_a) in
  label_text "version_val" (metric_labels shown) = Some "27.1.4"
  /\ map fst (metric_labels shown) = label_names.
Proof.
  intros data shown.
  destruct (normalize no_float_text plain_text plain_text exact_floor_log
              1700000000 data) as [snap | e] eqn:E; [| discriminate E].
  destruct (snapshot_shown no_float_text plain_text plain_text exact_floor_log
              plain_text 1700000000 data snap (new_app server_a) eq_refl E)
    as (H1 & _ & H3 & _).
  split; [| exact H1].
  apply (H3 "version_val" (PStr "27.1.4")).
  vm_compute in E. injection E as <-. reflexivity.
Defined.

(** The window after a run of events. *)
Lemma window_invariant_witness :
  let w :=
    run no_float_text plain_text plain_text exact_floor_log plain_text
      [loaded_a; loaded_b] sample_events (new_app loaded_a) in
  window_ok [loaded_a; loaded_b] w
  /\ current_config w = loaded_b
  /\ refresh_interval_ms w = 10000
  /\ List.length (thread_pool w) = 5%nat.
Proof.
  split; [| repeat split].
  apply window_invariant. left. reflexivity.
Defined.

(** A request that times out leaves the display as it is. *)
Lemma failed_cycle_keeps_display_witness :
  let w := new_app server_a in
  let done :=
    worker_finished no_float_text plain_text plain_text exact_floor_log
      plain_text 1700000000 0 RequestTimeout w in
  metric_labels done = metric_labels w
  /\ status_bar done = FetchError "Request timed out after 15 seconds."
  /\ thread_pool done = [].
Proof.
  intros w done.
  destruct (failed_cycle_keeps_display no_float_text plain_text plain_text
              exact_floor_log plain_text 1700000000 0 RequestTimeout w
              {| worker_url := url server_a; worker_token := token server_a |}
              eq_refl) as (H1 & _ & H3 & _).
  destruct (H1 "Request timed out after 15 seconds." eq_refl)
    as (Hl & _ & _ & Hs & _).
  repeat split; assumption.
Defined.

(** A label that showed a version reads "N/A" after a switch. *)
Lemma switch_resets_display_witness :
  let shown :=
    update_gui_metrics no_float_text plain_text plain_text exact_floor_log
      plain_text 1700000000 (sample_data [("version", PStr "27.1.4")] [] [])
      (new_app server_a) in
  label_text "version_val" (metric_labels shown) = Some "27.1.4"
  /\ label_text "version_val" (metric_labels (apply_new_config server_b shown))
     = Some "N/A".
Proof.
  intros shown. split; [reflexivity |].
  destruct (switch_resets_display server_b shown) as (H & _).
  apply H. left. reflexivity.
Defined.

(** 30 seconds are accepted; the 60 seconds that are set change nothing. *)
Lemma refresh_interval_dialog_witness :
  let w := new_app server_a in
  refresh_interval_ms (set_refresh_interval_dialog (Some 30) w) = 30000
  /\ set_refresh_interval_dialog (Some 60) w = w
  /\ set_refresh_interval_dialog None w = w.
Proof.
  intros w. split; [| split].
  - destruct (refresh_interval_dialog (Some 30) w) as (_ & _ & H).
    destruct (H 30 eq_refl) as (H1 & _); [discriminate | exact H1].
  - destruct (refresh_interval_dialog (Some 60) w) as (_ & H & _).
    exact (H 60 eq_refl eq_refl).
  - destruct (refresh_interval_dialog None w) as (H & _).
    exact (H eq_refl).
Defined.

(** With the second configuration current, the dialog opens on row 1. *)
Lemma initial_selection_witness :
  exists (i : nat) (c : config),
    initial_row [loaded_a; loaded_b; loaded_a] loaded_a = Some i
    /\ nth_error [loaded_a; loaded_b; loaded_a] i = Some c
    /\ name c = name loaded_a
    /\ Forall (fun c' => name c' <> name loaded_a)
         (skipn (S i) [loaded_a; loaded_b; loaded_a]).
Proof.
  destruct (initial_selection [loaded_a; loaded_b; loaded_a] loaded_a) as (H & _).
  apply H. left. reflexivity.
Defined.

(** A body with the status "ok" is returned as it is. *)
Lemma fetch_metrics_success_witness :
  fetch_metrics plain_text (JsonBody (sample_data [] [] []))
  = Fetched (sample_data [] [] []).
Proof.
  apply fetch_metrics_success. split; [reflexivity |].
  unfold sample_data. do 3 eexists. repeat split; reflexivity.
Defined.

(** Without a start time the uptime is not known. *)
Lemma uptime_without_start_witness :
  php_uptime no_float_text 1700000000 (sample_groups [] [])
  = Ok "N/A or Fresh Start".
Proof.
  apply (uptime_without_start no_float_text 1700000000 (sample_groups [] [])
           (PInt 0) 0 eq_refl eq_refl).
  left. discriminate.
Defined.

(** A list with one load value is filled up with zeros. *)
Lemma cpu_load_padded_witness :
  exists h : health,
    system_health no_float_text (sample_groups [("cpuload", PList [PInt 2])] [])
    = Ok h
    /\ cpu_load h = [PInt 2; PInt 0; PInt 0].
Proof.
  destruct (system_health no_float_text
              (sample_groups [("cpuload", PList [PInt 2])] []))
    as [h | e] eqn:E; [| discriminate E].
  exists h. split; [reflexivity |].
  destruct (cpu_load_padded no_float_text
              (sample_groups [("cpuload", PList [PInt 2])] []) h [PInt 2]
              eq_refl E) as (H & _).
  exact H.
Defined.

(** Two snapshots of a payload, a day apart. *)
Lemma snapshot_time_independent_witness :
  let data := sample_data [("version", PStr "27.1.4")] [] [] in
  exists snap1 snap2 : snapshot,
    normalize no_float_text plain_text plain_text exact_floor_log 1700000000 data
    = Ok snap1
    /\ normalize no_float_text plain_text plain_text exact_floor_log 1700086400 data
       = Ok snap2
    /\ lookup "version_val" (updates snap1) = lookup "version_val" (updates snap2).
Proof.
  intros data.
  destruct (normalize no_float_text plain_text plain_text exact_floor_log
              1700000000 data) as [snap1 | e] eqn:E1; [| discriminate E1].
  destruct (normalize no_float_text plain_text plain_text exact_floor_log
              1700086400 data) as [snap2 | e] eqn:E2; [| discriminate E2].
  exists snap1, snap2. repeat split.
  destruct (snapshot_time_independent no_float_text plain_text plain_text
              exact_floor_log 1700000000 1700086400 data snap1 snap2 E1 E2)
    as (_ & H).
  apply H. discriminate.
Defined.

(** A list coerces to 0. *)
Lemma safe_int_not_a_number_witness :
  safe_int no_float_text (PList [PInt 5]) = Ok 0
  /\ safe_int no_float_text (PStr "n/a") = Ok 0.
Proof.
  split; apply safe_int_not_a_number.
  - right. right. right. left. now exists [PInt 5].
  - right. left. exists "n/a". split; [reflexivity |]. right. left. reflexivity.
Defined.

(** An infinite float is not coerced. *)
Lemma safe_int_raises_witness :
  safe_int no_float_text (PFloat (S754_infinity false)) = Raise OverflowError.
Proof.
  apply safe_int_raises. split; [reflexivity |]. right. left. now exists false.
Defined.

(** -123.875 is cut off to -123. *)
Lemma safe_int_truncates_witness :
  exists a : Z,
    safe_int no_float_text (PFloat (S754_finite true 991 (-3))) = Ok (- a)
    /\ 0 <= a
    /\ (0 <= -3 -> a = 991 * 2 ^ (-3))
    /\ (-3 < 0 -> a * 2 ^ 3 <= 991 < (a + 1) * 2 ^ 3).
Proof. exact (safe_int_truncates no_float_text true 991 (-3)). Defined.

(** 2^60 + 129 is coerced to 2^60 + 256, which stays. *)
Lemma safe_int_idempotent_witness :
  safe_int no_float_text (PInt (2 ^ 60 + 129)) = Ok (2 ^ 60 + 256)
  /\ safe_int no_float_text (PInt (2 ^ 60 + 256)) = Ok (2 ^ 60 + 256).
Proof.
  split; [reflexivity |].
  destruct (safe_int_idempotent no_float_text exact_floor_log (2 ^ 60 + 129)
              (2 ^ 60 + 256) eq_refl) as (_ & H & _).
  exact H.
Defined.

(** 100000000 seconds are 3 years, 62 days, 9 hours, 46 minutes and 40
    seconds. *)
Lemma timedelta_decomposition_witness :
  uptime_units 100000000 = [(3, "year"); (62, "day"); (9, "hour"); (46, "minute")]
  /\ 100000000 = 3 * 31536000 + 62 * 86400 + 9 * 3600 + 46 * 60 + 40.
Proof.
  destruct (timedelta_decomposition 100000000) as (_ & H1 & H2 & _).
  - discriminate.
  - split; [exact H1 | exact H2].
Defined.

(** 5000 bytes are given in KB. *)
Lemma format_bytes_unit_witness :
  5000 <> 0
  /\ exists (i : nat) (number : string),
       (i <= 8)%nat
       /\ nth_error sizes i = Some (nth i sizes "")
       /\ format_bytes_int exact_floor_log 5000 = number ++ " " ++ nth i sizes ""
       /\ (5000 < 0 -> i = 0%nat)
       /\ (0 < 5000 -> i = Nat.min (exact_floor_log 5000) 8).
Proof.
  destruct (format_bytes_unit exact_floor_log 5000) as [(H & _) | H].
  - discriminate H.
  - exact H.
Defined.

(** The file of the first server is accepted. *)
Lemma read_config_file_accepts_witness :
  read_config_file ascii_strip "/opt/monitor/ncmonitor.txt"
    (sample_file "/opt/monitor/ncmonitor.txt")
  = inr ("https://a.example.org/", "token-a").
Proof.
  apply read_config_file_accepts.
  exists ["# main server" ++ newline; newline;
          "https://a.example.org/" ++ newline; "  " ++ newline;
          "token-a" ++ newline], [].
  repeat split.
Defined.

(** Its comment and its blank lines are skipped. *)
Lemma read_config_file_skips_witness :
  read_config_file ascii_strip "/opt/monitor/ncmonitor.txt"
    (FileLines ["# main server" ++ newline; newline;
                "https://a.example.org/" ++ newline; "  " ++ newline;
                "token-a" ++ newline; "more" ++ newline])
  = inr ("https://a.example.org/", "token-a").
Proof.
  assert (Hb : Forall (fun line => usable ascii_strip line = false)
                 ["# main server" ++ newline; newline]) by repeat constructor.
  assert (Hm : Forall (fun line => usable ascii_strip line = false)
                 ["  " ++ newline]) by repeat constructor.
  destruct (read_config_file_skips ascii_strip "/opt/monitor/ncmonitor.txt"
              ["# main server" ++ newline; newline] ["  " ++ newline]
              ["more" ++ newline]
              ("https://a.example.org/" ++ newline) ("token-a" ++ newline)
              Hb Hm eq_refl eq_refl) as (H & _).
  exact (H eq_refl).
Defined.

(** The directory of the sample gives the two servers, in its order. *)
Lemma find_and_load_configs_spec_witness :
  find_and_load_configs ascii_strip ascii_word_text slash_join "/opt/monitor"
    sample_file sample_listing
  = [loaded_a; loaded_b]
  /\ map path
       (find_and_load_configs ascii_strip ascii_word_text slash_join
          "/opt/monitor" sample_file sample_listing)
     = map (slash_join "/opt/monitor")
         (filter (loads ascii_strip ascii_word_text slash_join "/opt/monitor"
                    sample_file) sample_listing)
  /\ exists filename,
       In filename sample_listing
       /\ path loaded_b = slash_join "/opt/monitor" filename
       /\ String.prefix "http" (url loaded_b) = true.
Proof.
  destruct (find_and_load_configs_spec ascii_strip ascii_word_text slash_join
              "/opt/monitor" sample_file sample_listing) as (H1 & H2 & _).
  split; [reflexivity |]. split; [exact H2 |].
  destruct (H1 loaded_b) as (filename & Hin & _ & Hp & _ & Hu & _).
  - right. left. reflexivity.
  - exists filename. auto.
Defined.

(** The display name of the second server. *)
Lemma config_display_name_witness :
  name loaded_b = "[ncmonitor" ++ "_b" ++ "] " ++ rstrip "/" "b.example.org/cloud".
Proof.
  destruct (config_display_name ascii_strip ascii_word_text slash_join
              "/opt/monitor" sample_file "_b" "https:" "b.example.org/cloud"
              loaded_b eq_refl eq_refl eq_refl eq_refl eq_refl) as (H & _).
  exact H.
Defined.
